(** * write-dicom: a 3D image written as a series of DICOM slices

    A shallow embedding of [src/write-image-series.js] and
    [src/write-dicom-dcmjs.js], and the properties of the slice extractor,
    the per-slice metadata builder, the pixel-encoding rules and the two
    series writers.

    Conventions of the embedding.
    - A JavaScript number that carries a physical quantity (origin, spacing,
      direction cosines, slice position) is an IEEE 754 binary64 value: a
      primitive [float], with the primitive addition and multiplication.
    - A JavaScript number that counts (sizes, component counts, slice
      indices, offsets, instance numbers) is an integer of [Z]; where the
      source may read [undefined] (an index past the end of an array) and so
      compute [NaN], the value is an [option Z] and [None] is that [NaN].
      Counts are taken below 2^53, where the arithmetic of the source is
      exact.
    - A [Map] and a plain object used as a dictionary are [gmap]s with
      string keys.
    - [throw] is an [outcome]; the clock, the random generator and the calls
      of the external encoders are threaded through a state and error monad.
      An asynchronous function is run to its end, one statement after the
      other; what is written to the console is left out. *)

From Stdlib Require Import ZArith Ascii PrimFloat.
From stdpp Require Import base option list strings pretty gmap.

Open Scope Z_scope.

(** ** Values of the language *)

(** The exceptions the code can raise: [new Error(message)], the [TypeError]
    of a property read on [undefined], the [RangeError] of an array
    constructor, and whatever an external collaborator throws. *)
Inductive JsError : Type :=
| Error (message : string)
| TypeError (message : string)
| RangeError (message : string)
| External (message : string).

Inductive outcome (A : Type) : Type :=
| Ok (a : A)
| Throw (e : JsError).

Arguments Ok {A} a.
Arguments Throw {A} e.

(** The conversion of an integer index to the binary64 value it denotes. *)
Fixpoint float_of_pos (p : positive) : float :=
  match p with
  | xH => 1%float
  | xO q => (2 * float_of_pos q)%float
  | xI q => (2 * float_of_pos q + 1)%float
  end.

Definition float_of_Z (z : Z) : float :=
  match z with
  | Z0 => 0%float
  | Zpos p => float_of_pos p
  | Zneg p => (- float_of_pos p)%float
  end.

(** [a[i]] read in an arithmetic context or stored in a [Float64Array]:
    a missing entry is [undefined], which becomes [NaN]. *)
Definition at_float (a : list float) (i : nat) : float :=
  default nan (a !! i).

(** Multiplication and addition of counts, [NaN] absorbing. *)
Definition num_mul (a b : option Z) : option Z :=
  match a, b with
  | Some x, Some y => Some (x * y)
  | _, _ => None
  end.

Definition num_add (a b : option Z) : option Z :=
  match a, b with
  | Some x, Some y => Some (x + y)
  | _, _ => None
  end.

(** [ToIntegerOrInfinity] on a count: [NaN] is 0. *)
Definition to_integer (x : option Z) : Z := default 0 x.

(** [ToUint32], the conversion of [new Uint32Array([...])]. *)
Definition to_uint32 (x : option Z) : Z := to_integer x `mod` 2 ^ 32.

(** Truthiness of a string and of a count. *)
Definition truthy_string (s : string) : bool :=
  if decide (s = "") then false else true.

Definition truthy_number (n : Z) : bool := negb (n =? 0).

(** ** Typed arrays *)

Section TypedArrays.
Context {E : Type}.

(** The index that [%TypedArray%.prototype.slice] derives from a relative
    one: counted from the end when negative, clamped to the array. *)
Definition relative_index (len i : Z) : Z :=
  if i <? 0 then Z.max (len + i) 0 else Z.min i len.

(** [a.slice(start, end)]: a fresh array holding the elements of [a] from
    the resolved [start] up to the resolved [end]. *)
Definition typed_slice (a : list E) (start finish : option Z) : list E :=
  let len := Z.of_nat (length a) in
  let k := relative_index len (to_integer start) in
  let final := relative_index len (to_integer finish) in
  take (Z.to_nat (Z.max (final - k) 0)) (drop (Z.to_nat k) a).

(** The pixel data of an image.  [TypedArray] is a typed array, which has a
    [slice] method and, in this model, spans its whole buffer.  [BufferView]
    is an object without a [slice] method but with a [buffer]: the source
    rebuilds the slice through the object's own constructor, of which
    nothing is known, so the view carries what
    [new data.constructor(data.buffer, byteOffset, length)], copied, yields
    for a given element offset and length.  [NoData] is [null], [undefined]
    or an object with neither. *)
Inductive PixelData : Type :=
| TypedArray (elements : list E)
| BufferView (buffer : list E)
    (construct : option Z -> option Z -> outcome (list E))
| NoData.

End TypedArrays.

Arguments PixelData E : clear implicits.

(** ** Images *)

Record ImageType : Type := mkImageType {
  dimension : Z;
  componentType : string;
  pixelType : string;
  components : Z
}.

(** An ITK-Wasm image object.  The 3D volume and the 2D slice are objects of
    the same shape; [zPosition] is the property [extractSlice] adds to a
    slice, absent from a volume read from a file.  [metadata] is a [Map] of
    strings, or [None] when the property is missing. *)
Record Image (E : Type) : Type := mkImage {
  imageType : ImageType;
  name : string;
  origin : list float;
  spacing : list float;
  direction : list float;
  size : list Z;
  metadata : option (gmap string string);
  data : PixelData E;
  zPosition : option float
}.

Arguments mkImage {E}.
Arguments imageType {E} _.
Arguments name {E} _.
Arguments origin {E} _.
Arguments spacing {E} _.
Arguments direction {E} _.
Arguments size {E} _.
Arguments metadata {E} _.
Arguments data {E} _.
Arguments zPosition {E} _.

Section ExtractSlice.
Context {E : Type}.

(** The constants [sliceSize], [sliceOffset] and [sliceLength] of
    [extractSlice]. *)
Definition sliceSize (image3D : Image E) : option Z :=
  num_mul (size image3D !! 0%nat) (size image3D !! 1%nat).

Definition sliceOffset (image3D : Image E) (sliceIndex : Z) : option Z :=
  num_mul (num_mul (Some sliceIndex) (sliceSize image3D))
    (Some (components (imageType image3D))).

Definition sliceLength (image3D : Image E) : option Z :=
  num_mul (sliceSize image3D) (Some (components (imageType image3D))).

(** The pixel data of slice [sliceIndex]: lines 43 to 57 of
    [write-image-series.js]. *)
Definition sliceData (image3D : Image E) (sliceIndex : Z)
  : outcome (list E) :=
  let start := sliceOffset image3D sliceIndex in
  let len := sliceLength image3D in
  match data image3D with
  | TypedArray a => Ok (typed_slice a start (num_add start len))
  | BufferView _ construct => construct start len
  | NoData => Throw (Error "Invalid image data format")
  end.

(** [extractSlice(image3D, sliceIndex)]. *)
Definition extractSlice (image3D : Image E) (sliceIndex : Z)
  : outcome (Image E) :=
  match sliceData image3D sliceIndex with
  | Throw e => Throw e
  | Ok pixels =>
      let originX :=
        (at_float (origin image3D) 0
         + float_of_Z sliceIndex * at_float (spacing image3D) 2
           * at_float (direction image3D) 6)%float in
      let originY :=
        (at_float (origin image3D) 1
         + float_of_Z sliceIndex * at_float (spacing image3D) 2
           * at_float (direction image3D) 7)%float in
      let zPos :=
        (at_float (origin image3D) 2
         + float_of_Z sliceIndex * at_float (spacing image3D) 2
           * at_float (direction image3D) 8)%float in
      Ok {| imageType :=
              {| dimension := 2;
                 componentType := componentType (imageType image3D);
                 pixelType := pixelType (imageType image3D);
                 components := components (imageType image3D) |};
            name := "slice_" +:+ pretty sliceIndex;
            origin := [originX; originY];
            spacing := [at_float (spacing image3D) 0;
                        at_float (spacing image3D) 1];
            direction := [at_float (direction image3D) 0;
                          at_float (direction image3D) 1;
                          at_float (direction image3D) 3;
                          at_float (direction image3D) 4];
            size := [to_uint32 (size image3D !! 0%nat);
                     to_uint32 (size image3D !! 1%nat)];
            metadata := Some (default ∅ (metadata image3D));
            data := TypedArray pixels;
            zPosition := Some zPos |}
  end.

End ExtractSlice.

(** ** Pixel-encoding rules of [write-dicom-dcmjs.js] *)

(** The own properties of the object literal [bitsMap]. *)
Definition bitsMap : list (string * Z) :=
  [("int8", 8); ("uint8", 8); ("int16", 16); ("uint16", 16);
   ("int32", 32); ("uint32", 32)].

(** The property names every object literal inherits from
    [Object.prototype]; each holds a function or an object, never a
    number. *)
Definition inherited_properties : list string :=
  ["constructor"; "hasOwnProperty"; "isPrototypeOf"; "propertyIsEnumerable";
   "toLocaleString"; "toString"; "valueOf"; "__proto__";
   "__defineGetter__"; "__defineSetter__"; "__lookupGetter__";
   "__lookupSetter__"].

Fixpoint own_property (m : list (string * Z)) (key : string) : option Z :=
  match m with
  | [] => None
  | (k, v) :: m' => if decide (k = key) then Some v else own_property m' key
  end.

(** [getBitsAllocated(componentType)], that is [bitsMap[componentType] || 16].
    The result is [None] when the lookup finds an inherited property: that
    value is truthy, so it is returned as it is, and it is not a number. *)
Definition getBitsAllocated (componentType : string) : option Z :=
  match own_property bitsMap componentType with
  | Some bits => if truthy_number bits then Some bits else Some 16
  | None =>
      if decide (componentType ∈ inherited_properties) then None else Some 16
  end.

Definition getBitsStored (componentType : string) : option Z :=
  getBitsAllocated componentType.

Definition isSignedType (componentType : string) : bool :=
  String.prefix "int" componentType
  && negb (String.prefix "uint" componentType).

(** [getPixelDataVR]: a comparison with a value that is not a number is
    false. *)
Definition getPixelDataVR (componentType : string) : string :=
  match getBitsAllocated componentType with
  | Some bits =>
      if bits <=? 8 then "OB" else if bits <=? 16 then "OW" else "OL"
  | None => "OL"
  end.

(** ** Options of the two writers *)

(** The [options] object: a field is [None] when the caller left it out
    ([undefined]). *)
Module Options.
Record t : Type := mk {
  fileNamePattern : option string;
  seriesDescription : option string;
  seriesNumber : option Z;
  instanceNumberStart : option Z;
  modality : option string;
  seriesInstanceUID : option string;
  useCompression : option bool
}.
Definition empty : t := mk None None None None None None None.
End Options.

(** The [metadata] object handed to [writeDicomSlice]. *)
Module SliceMetadata.
Record t : Type := mk {
  seriesInstanceUID : string;
  sopInstanceUID : string;
  instanceNumber : Z;
  imagePosition : list (option float);
  sliceLocation : option float;
  seriesDescription : string;
  seriesNumber : Z;
  modality : string;
  studyInstanceUID : string;
  studyDate : string;
  studyTime : string
}.
End SliceMetadata.

(** ** The DICOM dataset given to dcmjs *)

Section Dataset.
Context {E : Type}.

Inductive DicomValue : Type :=
| VString (s : string)
| VNumber (x : float)
| VInteger (n : Z)
| VNaN
| VInherited
| VUndefined
| VPersonName (alphabetic : string)
| VBuffer (buffer : list E).

Record Element : Type := mkElement {
  vr : string;
  Value : list DicomValue
}.

Definition number_value (x : option float) : DicomValue :=
  match x with Some v => VNumber v | None => VUndefined end.

Definition count_value (n : option Z) : DicomValue :=
  match n with Some v => VInteger v | None => VUndefined end.

(** The value of [getBitsAllocated(...)] and of [getBitsStored(...) - 1]. *)
Definition bits_value (bits : option Z) : DicomValue :=
  match bits with Some v => VInteger v | None => VInherited end.

Definition high_bit_value (bits : option Z) : DicomValue :=
  match bits with Some v => VInteger (v - 1) | None => VNaN end.

End Dataset.

Arguments DicomValue E : clear implicits.
Arguments Element E : clear implicits.

(** ** Strings: file names *)

Fixpoint repeat_char (n : nat) (c : ascii) : string :=
  match n with
  | O => ""
  | S n' => String c (repeat_char n' c)
  end.

(** [s.padStart(4, '0')]. *)
Definition padStart4 (s : string) : string :=
  repeat_char (4 - String.length s) "0"%char +:+ s.

Fixpoint skip (n : nat) (s : string) : string :=
  match n, s with
  | S n', String _ s' => skip n' s'
  | _, _ => s
  end.

(** [s.replace(pattern, replacement)] for a string pattern and a replacement
    without [$]: the first occurrence is replaced. *)
Fixpoint replace_first (pattern replacement s : string) : string :=
  if String.prefix pattern s
  then replacement +:+ skip (String.length pattern) s
  else match s with
       | "" => ""
       | String c s' => String c (replace_first pattern replacement s')
       end.

Definition slice_filename (fileNamePattern : string) (sliceIdx : Z) : string :=
  replace_first "%04d" (padStart4 (pretty sliceIdx)) fileNamePattern.

(** ** The world: clock, random generator, external encoders *)

(** A file as the writers return it. *)
Module WrittenFile.
Record t : Type := mk {
  filename : string;
  blob : list Byte.byte;
  sliceIndex : Z;
  data : list Byte.byte
}.
End WrittenFile.

Section World.
Context {E : Type}.

(** What was handed to an external encoder: the slice, with its metadata
    map, given to the GDCM writer, or the dataset given to dcmjs. *)
Inductive EncoderCall : Type :=
| GdcmWrite (slice2D : Image E) (filename : string) (useCompression : bool)
| DcmjsWrite (dataset : gmap string (Element E)).

(** [uid_calls] counts the identifiers generated so far; [encoder_calls]
    records the calls of the encoders, the oldest first. *)
Record World : Type := mkWorld {
  uid_calls : nat;
  encoder_calls : list EncoderCall
}.

Definition M (A : Type) : Type := World -> outcome A * World.

Definition ret {A : Type} (a : A) : M A := fun w => (Ok a, w).

Definition throw {A : Type} (e : JsError) : M A := fun w => (Throw e, w).

Definition bind {A B : Type} (m : M A) (k : A -> M B) : M B :=
  fun w =>
    match m w with
    | (Ok a, w') => k a w'
    | (Throw e, w') => (Throw e, w')
    end.

Definition lift {A : Type} (o : outcome A) : M A := fun w => (o, w).

End World.

Arguments EncoderCall E : clear implicits.
Arguments World E : clear implicits.
Arguments M E A : clear implicits.

Notation "'let*' x := m 'in' k" := (bind m (fun x => k))
  (at level 10, x name, m at level 100, k at level 200).

(** The identifier that [generateUID] builds from the two readings. *)
Definition uid_of (timestamp random : Z) : string :=
  "1.2.826.0.1.3680043.8.498." +:+ pretty timestamp +:+ "." +:+ pretty random.

Section Writers.
Context {E : Type}.

(** [Date_now k] and [random_million k] are what [Date.now()] and
    [Math.floor(Math.random() * 1000000)] yield in the call of [generateUID]
    that follows [k] earlier ones. *)
Variable Date_now : nat -> Z.
Variable random_million : nat -> Z.

(** [x.toFixed(6)], the fixed-point formatting of the language. *)
Variable toFixed6 : float -> string.

(** The GDCM writer of ITK-Wasm: [writeImage(slice2D, filename, { useCompression })]
    followed by [result.serializedImage.data]. *)
Variable gdcmWriteImage : Image E -> string -> bool -> outcome (list Byte.byte).

(** The identifier generated after [k] earlier ones. *)
Definition uid_at (k : nat) : string :=
  uid_of (Date_now k) (random_million k).

Definition generateUID : M E string :=
  fun w =>
    (Ok (uid_at (uid_calls w)),
     {| uid_calls := S (uid_calls w); encoder_calls := encoder_calls w |}).

Definition call_encoder (c : EncoderCall E) (result : outcome (list Byte.byte))
  : M E (list Byte.byte) :=
  fun w =>
    (result,
     {| uid_calls := uid_calls w; encoder_calls := encoder_calls w ++ [c] |}).

(** [value || 1] on the instance-number start. *)
Definition or_one (value : option Z) : Z :=
  match value with
  | Some n => if truthy_number n then n else 1
  | None => 1
  end.

Definition truthy_option (value : option string) : option string :=
  match value with
  | Some s => if truthy_string s then Some s else None
  | None => None
  end.

Definition toFixed_of {A : Type} (x : option A) (f : A -> string) : M E string :=
  match x with
  | Some v => ret (f v)
  | None =>
      throw (TypeError "Cannot read properties of undefined (reading 'toFixed')")
  end.

(** [createDicomMetadataForSlice]. *)
Definition createDicomMetadataForSlice
    (originalMetadata : option (gmap string string))
    (sliceIndex totalSlices : Z) (slice2D : Image E) (options : Options.t)
  : M E (gmap string string) :=
  let metadata := default ∅ originalMetadata in
  let* metadata :=
    match metadata !! "0020|000e" with
    | Some _ => ret metadata
    | None =>
        let* uid :=
          match truthy_option (Options.seriesInstanceUID options) with
          | Some uid => ret uid
          | None => generateUID
          end in
        ret (<["0020|000e" := uid]> metadata)
    end in
  let* sop := generateUID in
  let metadata := <["0008|0018" := sop]> metadata in
  let instanceNumber :=
    sliceIndex + or_one (Options.instanceNumberStart options) in
  let metadata := <["0020|0013" := pretty instanceNumber]> metadata in
  let* x := toFixed_of (origin slice2D !! 0%nat) toFixed6 in
  let* y := toFixed_of (origin slice2D !! 1%nat) toFixed6 in
  let* z := toFixed_of (zPosition slice2D) toFixed6 in
  let imagePosition := x +:+ "\" +:+ y +:+ "\" +:+ z in
  let metadata := <["0020|0032" := imagePosition]> metadata in
  let* z' := toFixed_of (zPosition slice2D) toFixed6 in
  let metadata := <["0020|1041" := z']> metadata in
  let metadata :=
    match truthy_option (Options.seriesDescription options) with
    | Some description => <["0008|103e" := description]> metadata
    | None => metadata
    end in
  let metadata :=
    match Options.seriesNumber options with
    | Some number => <["0020|0011" := pretty number]> metadata
    | None => metadata
    end in
  let metadata := <["0020|1002" := pretty totalSlices]> metadata in
  let metadata :=
    match metadata !! "0008|0060", truthy_option (Options.modality options) with
    | None, Some m => <["0008|0060" := m]> metadata
    | _, _ => metadata
    end in
  ret metadata.

(** The options of [writeImageAsDicomSeries] after the defaults of its
    destructuring pattern: a default is taken for [undefined] only. *)
Definition series_options (options : Options.t) : M E Options.t :=
  let* seriesInstanceUID :=
    match Options.seriesInstanceUID options with
    | Some uid => ret uid
    | None => generateUID
    end in
  ret {| Options.fileNamePattern :=
           Some (default "slice_%04d.dcm" (Options.fileNamePattern options));
         Options.seriesDescription :=
           Some (default "Medical Image Series"
                   (Options.seriesDescription options));
         Options.seriesNumber := Some (default 1 (Options.seriesNumber options));
         Options.instanceNumberStart :=
           Some (default 1 (Options.instanceNumberStart options));
         Options.modality := Some (default "OT" (Options.modality options));
         Options.seriesInstanceUID := Some seriesInstanceUID;
         Options.useCompression :=
           Some (default false (Options.useCompression options)) |}.

(** The options object that the loop of [writeImageAsDicomSeries] builds for
    [createDicomMetadataForSlice]: five of the fields. *)
Definition metadata_options (o : Options.t) : Options.t :=
  {| Options.fileNamePattern := None;
     Options.seriesDescription := Options.seriesDescription o;
     Options.seriesNumber := Options.seriesNumber o;
     Options.instanceNumberStart := Options.instanceNumberStart o;
     Options.modality := Options.modality o;
     Options.seriesInstanceUID := Options.seriesInstanceUID o;
     Options.useCompression := None |}.

(** One turn of the loop of [writeImageAsDicomSeries]: the file written for
    slice [sliceIdx]. *)
Definition write_series_slice (image3D : Image E) (o : Options.t)
    (numSlices sliceIdx : Z) : M E WrittenFile.t :=
  let* slice2D := lift (extractSlice image3D sliceIdx) in
  let* sliceMetadata :=
    createDicomMetadataForSlice (metadata image3D) sliceIdx numSlices slice2D
      (metadata_options o) in
  let slice2D :=
    {| imageType := imageType slice2D; name := name slice2D;
       origin := origin slice2D; spacing := spacing slice2D;
       direction := direction slice2D; size := size slice2D;
       metadata := Some sliceMetadata; data := data slice2D;
       zPosition := zPosition slice2D |} in
  let filename :=
    slice_filename (default "" (Options.fileNamePattern o)) sliceIdx in
  let useCompression := default false (Options.useCompression o) in
  let* imageData :=
    call_encoder (GdcmWrite slice2D filename useCompression)
      (gdcmWriteImage slice2D filename useCompression) in
  ret {| WrittenFile.filename := filename;
         WrittenFile.blob := imageData;
         WrittenFile.sliceIndex := sliceIdx;
         WrittenFile.data := imageData |}.

(** [for (let sliceIdx = ...; sliceIdx < numSlices; sliceIdx++)]: [turns] is
    the number of turns left, [numSlices - sliceIdx]. *)
Fixpoint slice_loop (body : Z -> M E WrittenFile.t) (turns : nat)
    (sliceIdx : Z) (writtenFiles : list WrittenFile.t)
  : M E (list WrittenFile.t) :=
  match turns with
  | O => ret writtenFiles
  | S turns' =>
      let* file := body sliceIdx in
      slice_loop body turns' (sliceIdx + 1) (writtenFiles ++ [file])
  end.

(** The number of turns of the loop: none when [image3D.size[2]] is
    [undefined], since [0 < undefined] is false. *)
Definition loop_turns (numSlices : option Z) : nat :=
  match numSlices with
  | Some n => Z.to_nat n
  | None => O
  end.

(** [writeImageAsDicomSeries(image3D, options)]. *)
Definition writeImageAsDicomSeries (image3D : Image E) (options : Options.t)
  : M E (list WrittenFile.t) :=
  if decide (dimension (imageType image3D) = 3) then
    let* o := series_options options in
    let numSlices := size image3D !! 2%nat in
    slice_loop (write_series_slice image3D o (to_integer numSlices))
      (loop_turns numSlices) 0 []
  else throw (Error "Input image must be 3D").

End Writers.

Section DcmjsWriter.
Context {E : Type}.
Variable Date_now : nat -> Z.
Variable random_million : nat -> Z.

(** [dicomDict.write()] of dcmjs, on the dataset it is given. *)
Variable dcmjsWrite : gmap string (Element E) -> outcome (list Byte.byte).

(** The strings [writeImageAsDicomSeriesWithDcmjs] derives from [new Date()]:
    the date as [YYYYMMDD] and the time as [HHMMSS]. *)
Variable today : string.
Variable timeOfDay : string.

(** [slice2D.data.buffer]. *)
Definition data_buffer (slice2D : Image E) : outcome (list E) :=
  match data slice2D with
  | TypedArray a => Ok a
  | BufferView buffer _ => Ok buffer
  | NoData =>
      Throw (TypeError "Cannot read properties of null (reading 'buffer')")
  end.

(** The properties of the object literal [dataset] of [writeDicomSlice], in
    the order of the source; [pixels] is [slice2D.data.buffer]. *)
Definition dataset_entries (slice2D : Image E) (metadata : SliceMetadata.t)
    (pixels : list E) : list (string * Element E) :=
  let kind := componentType (imageType slice2D) in
  [ ("00080016", mkElement "UI" [VString "1.2.840.10008.5.1.4.1.1.4"]);
    ("00080018",
     mkElement "UI" [VString (SliceMetadata.sopInstanceUID metadata)]);
    ("00100010", mkElement "PN" [VPersonName "Anonymous"]);
    ("00100020", mkElement "LO" [VString "ANON123"]);
    ("0020000D",
     mkElement "UI" [VString (SliceMetadata.studyInstanceUID metadata)]);
    ("00080020",
     mkElement "DA" [VString (SliceMetadata.studyDate metadata)]);
    ("00080030",
     mkElement "TM" [VString (SliceMetadata.studyTime metadata)]);
    ("0020000E",
     mkElement "UI" [VString (SliceMetadata.seriesInstanceUID metadata)]);
    ("00080060",
     mkElement "CS" [VString (SliceMetadata.modality metadata)]);
    ("0008103E",
     mkElement "LO" [VString (SliceMetadata.seriesDescription metadata)]);
    ("00200011",
     mkElement "IS" [VInteger (SliceMetadata.seriesNumber metadata)]);
    ("00200013",
     mkElement "IS" [VInteger (SliceMetadata.instanceNumber metadata)]);
    ("00200032",
     mkElement "DS"
       (number_value <$> SliceMetadata.imagePosition metadata));
    ("00201041",
     mkElement "DS"
       [number_value (SliceMetadata.sliceLocation metadata)]);
    ("00200037",
     mkElement "DS"
       [number_value (direction slice2D !! 0%nat);
        number_value (direction slice2D !! 1%nat);
        VNumber 0;
        number_value (direction slice2D !! 2%nat);
        number_value (direction slice2D !! 3%nat);
        VNumber 0]);
    ("00280002",
     mkElement "US" [VInteger (components (imageType slice2D))]);
    ("00280004",
     mkElement "CS"
       [VString (if decide (components (imageType slice2D) = 1)
                 then "MONOCHROME2" else "RGB")]);
    ("00280010", mkElement "US" [count_value (size slice2D !! 1%nat)]);
    ("00280011", mkElement "US" [count_value (size slice2D !! 0%nat)]);
    ("00280100", mkElement "US" [bits_value (getBitsAllocated kind)]);
    ("00280101", mkElement "US" [bits_value (getBitsStored kind)]);
    ("00280102", mkElement "US" [high_bit_value (getBitsStored kind)]);
    ("00280103",
     mkElement "US" [VInteger (if isSignedType kind then 1 else 0)]);
    ("00280030",
     mkElement "DS"
       [number_value (spacing slice2D !! 1%nat);
        number_value (spacing slice2D !! 0%nat)]);
    ("7FE00010", mkElement (getPixelDataVR kind) [VBuffer pixels]) ].

(** The object [dataset]. *)
Definition dataset (slice2D : Image E) (metadata : SliceMetadata.t)
  : outcome (gmap string (Element E)) :=
  match data_buffer slice2D with
  | Throw e => Throw e
  | Ok pixels => Ok (list_to_map (dataset_entries slice2D metadata pixels))
  end.

(** [writeDicomSlice(slice2D, metadata)]: the dataset is built and handed to
    [dicomDict.write()]. *)
Definition writeDicomSlice (slice2D : Image E) (metadata : SliceMetadata.t)
  : M E (list Byte.byte) :=
  let* dict := lift (dataset slice2D metadata) in
  call_encoder (DcmjsWrite dict) (dcmjsWrite dict).

(** One turn of the loop of [writeImageAsDicomSeriesWithDcmjs]. *)
Definition write_dcmjs_slice (image3D : Image E) (options : Options.t)
    (studyInstanceUID seriesInstanceUID : string) (sliceIdx : Z)
  : M E WrittenFile.t :=
  let* slice2D := lift (extractSlice image3D sliceIdx) in
  let* sop := generateUID Date_now random_million in
  let metadata :=
    {| SliceMetadata.seriesInstanceUID := seriesInstanceUID;
       SliceMetadata.sopInstanceUID := sop;
       SliceMetadata.instanceNumber :=
         sliceIdx + default 1 (Options.instanceNumberStart options);
       SliceMetadata.imagePosition :=
         [origin slice2D !! 0%nat; origin slice2D !! 1%nat; zPosition slice2D];
       SliceMetadata.sliceLocation := zPosition slice2D;
       SliceMetadata.seriesDescription :=
         default "Medical Image Series" (Options.seriesDescription options);
       SliceMetadata.seriesNumber := default 1 (Options.seriesNumber options);
       SliceMetadata.modality := default "OT" (Options.modality options);
       SliceMetadata.studyInstanceUID := studyInstanceUID;
       SliceMetadata.studyDate := today;
       SliceMetadata.studyTime := timeOfDay |} in
  let* dicomBuffer := writeDicomSlice slice2D metadata in
  let filename :=
    slice_filename (default "slice_%04d.dcm" (Options.fileNamePattern options))
      sliceIdx in
  ret {| WrittenFile.filename := filename;
         WrittenFile.blob := dicomBuffer;
         WrittenFile.sliceIndex := sliceIdx;
         WrittenFile.data := dicomBuffer |}.

(** [writeImageAsDicomSeriesWithDcmjs(image3D, options)]. *)
Definition writeImageAsDicomSeriesWithDcmjs (image3D : Image E)
    (options : Options.t) : M E (list WrittenFile.t) :=
  let numSlices := size image3D !! 2%nat in
  let* studyInstanceUID := generateUID Date_now random_million in
  let* seriesInstanceUID := generateUID Date_now random_million in
  slice_loop
    (write_dcmjs_slice image3D options studyInstanceUID seriesInstanceUID)
    (loop_turns numSlices) 0 [].

End DcmjsWriter.

(** * The vocabulary of the statements *)

(** ** What the encoders were given *)

Section Observations.
Context {E : Type}.

(** The value of an attribute in what an encoder received: the entry of the
    metadata map of the slice given to GDCM, the first value of the element
    of the dataset given to dcmjs. *)
Definition call_tag (map_key dataset_key : string) (c : EncoderCall E)
  : option (DicomValue E) :=
  match c with
  | GdcmWrite slice2D _ _ =>
      match metadata slice2D with
      | Some entries => VString <$> entries !! map_key
      | None => None
      end
  | DcmjsWrite entries =>
      match entries !! dataset_key with
      | Some element => head (Value element)
      | None => None
      end
  end.

Definition call_series_uid : EncoderCall E -> option (DicomValue E) :=
  call_tag "0020|000e" "0020000E".

Definition call_sop_uid : EncoderCall E -> option (DicomValue E) :=
  call_tag "0008|0018" "00080018".

Definition call_instance_number : EncoderCall E -> option (DicomValue E) :=
  call_tag "0020|0013" "00200013".

(** The identity that [writeDicomSlice] writes into every dataset: the SOP
    class of MR image storage and the anonymous patient. *)
Definition fixed_identity (entries : gmap string (Element E)) : Prop :=
  entries !! "00080016"
  = Some (mkElement "UI" [VString "1.2.840.10008.5.1.4.1.1.4"])
  /\ entries !! "00100010" = Some (mkElement "PN" [VPersonName "Anonymous"])
  /\ entries !! "00100020" = Some (mkElement "LO" [VString "ANON123"]).

Definition call_fixed_identity (c : EncoderCall E) : Prop :=
  match c with
  | DcmjsWrite entries => fixed_identity entries
  | GdcmWrite _ _ _ => False
  end.

(** The calls of a run, turn after turn: the call of turn [i] satisfies
    [Q i t t1], where [t] and [t1] count the identifiers generated before and
    after the turn. *)
Inductive chain (Q : Z -> nat -> nat -> EncoderCall E -> Prop)
  : Z -> nat -> list (EncoderCall E) -> nat -> Prop :=
| chain_nil i t t' : (t <= t')%nat -> chain Q i t [] t'
| chain_cons i t t1 t' c cs :
    Q i t t1 c -> (t <= t1)%nat -> chain Q (i + 1) t1 cs t' ->
    chain Q i t (c :: cs) t'.

(** What one turn of a loop does to the world. *)
Definition turn_spec (Q : Z -> nat -> nat -> EncoderCall E -> Prop)
    (body : Z -> M E WrittenFile.t) : Prop :=
  forall i w,
    (uid_calls w <= uid_calls (body i w).2)%nat
    /\ exists cs,
         encoder_calls (body i w).2 = encoder_calls w ++ cs
         /\ (cs = []
             \/ exists c, cs = [c] /\ Q i (uid_calls w) (uid_calls (body i w).2) c)
         /\ (forall file, (body i w).1 = Ok file -> cs <> []).

End Observations.

(** ** Identifiers and readings *)

(** A string without a dot. *)
Fixpoint no_dot (s : string) : Prop :=
  match s with
  | "" => True
  | String c s' => c <> "."%char /\ no_dot s'
  end.

Section Readings.
Context {E : Type}.
Variable Date_now : nat -> Z.
Variable random_million : nat -> Z.

(** No two calls of [generateUID], among those that follow [first] earlier
    ones and precede call [last], read the same time and the same random
    number. *)
Definition fresh_readings (first last : nat) : Prop :=
  forall j k : nat,
    (first <= j < last)%nat -> (first <= k < last)%nat ->
    (Date_now j, random_million j) = (Date_now k, random_million k) -> j = k.

(** The series identifier that [createDicomMetadataForSlice] leaves in the
    map, when [t] identifiers were generated before the call. *)
Definition series_value (base : gmap string string)
    (seriesInstanceUID : option string) (t : nat) : string :=
  match base !! "0020|000e" with
  | Some uid => uid
  | None =>
      match truthy_option seriesInstanceUID with
      | Some uid => uid
      | None => uid_at Date_now random_million t
      end
  end.

(** What the encoder receives in turn [i]: an instance identifier generated
    during the turn, the series identifier [series] and the instance number
    [number i]. *)
Definition turn_calls (series : nat -> string) (number : Z -> DicomValue E)
    (i : Z) (t t' : nat) (c : EncoderCall E) : Prop :=
  exists s : nat,
    (t <= s < t')%nat
    /\ call_sop_uid c = Some (VString (uid_at Date_now random_million s))
    /\ call_series_uid c = Some (VString (series t))
    /\ call_instance_number c = Some (number i).

End Readings.

(** ** Concrete images, options and worlds *)

(** The statement of the specification for the in-plane origin of a slice:
    [volume.origin[a] + index * volume.spacing[2] * volume.direction[a*3 + 2]]. *)
Definition claimed_origin {E : Type} (volume : Image E) (index : Z) (a : nat)
  : float :=
  (at_float (origin volume) a
   + float_of_Z index * at_float (spacing volume) 2
     * at_float (direction volume) (a * 3 + 2))%float.

Definition identity3 : list float :=
  [1; 0; 0;
   0; 1; 0;
   0; 0; 1]%float.

(** A 2 x 2 x 4 volume of one 16-bit component, spacing [1, 1, 2]. *)
Definition stack_volume : Image Z :=
  {| imageType := mkImageType 3 "int16" "Scalar" 1;
     name := "image";
     origin := [0; 0; 0]%float;
     spacing := [1; 1; 2]%float;
     direction := identity3;
     size := [2; 2; 4];
     metadata := Some ∅;
     data := TypedArray (seqZ 100 16);
     zPosition := None |}.

(** A 2 x 2 x 2 volume whose direction matrix is a quarter turn about the
    second axis. *)
Definition turned_volume : Image Z :=
  {| imageType := mkImageType 3 "uint8" "Scalar" 1;
     name := "image";
     origin := [0; 0; 0]%float;
     spacing := [1; 1; 1]%float;
     direction := [0; 0; 1;
                   0; 1; 0;
                   -1; 0; 0]%float;
     size := [2; 2; 2];
     metadata := None;
     data := TypedArray (seqZ 0 8);
     zPosition := None |}.

(** A 2D image, 4 x 4. *)
Definition flat_image : Image Z :=
  {| imageType := mkImageType 2 "uint8" "Scalar" 1;
     name := "image";
     origin := [0; 0]%float;
     spacing := [1; 1]%float;
     direction := [1; 0; 0; 1]%float;
     size := [4; 4];
     metadata := None;
     data := TypedArray (seqZ 0 16);
     zPosition := None |}.

(** A slice of 2 x 2 pixels, of a component type that the table of bits
    allocated does not list, and the metadata of its record. *)
Definition small_slice : Image Z :=
  {| imageType := mkImageType 2 "int64" "Scalar" 1;
     name := "slice_0";
     origin := [0; 0]%float;
     spacing := [1; 1]%float;
     direction := [1; 0; 0; 1]%float;
     size := [2; 2];
     metadata := Some ∅;
     data := TypedArray [1; 2; 3; 4];
     zPosition := Some 0%float |}.

Definition small_metadata : SliceMetadata.t :=
  {| SliceMetadata.seriesInstanceUID := uid_of 0 1;
     SliceMetadata.sopInstanceUID := uid_of 0 2;
     SliceMetadata.instanceNumber := 1;
     SliceMetadata.imagePosition := [Some 0; Some 0; Some 0]%float;
     SliceMetadata.sliceLocation := Some 0%float;
     SliceMetadata.seriesDescription := "Medical Image Series";
     SliceMetadata.seriesNumber := 1;
     SliceMetadata.modality := "CT";
     SliceMetadata.studyInstanceUID := uid_of 0 0;
     SliceMetadata.studyDate := "20240101";
     SliceMetadata.studyTime := "120000" |}.

(** A clock that advances by a millisecond between two identifiers, and one
    that does not advance; a random generator that repeats itself. *)
Definition ticking_clock (k : nat) : Z := 1700000000000 + Z.of_nat k.
Definition stuck_clock (k : nat) : Z := 1700000000000.
Definition same_random (k : nat) : Z := 42.

Definition six_zeros (x : float) : string := "0.000000".

(** Encoders that accept everything and return an empty record. *)
Definition gdcm_accepts (slice2D : Image Z) (filename : string)
    (useCompression : bool) : outcome (list Byte.byte) := Ok [].
Definition dcmjs_accepts (entries : gmap string (Element Z))
  : outcome (list Byte.byte) := Ok [].

Definition new_world : World Z := {| uid_calls := 0; encoder_calls := [] |}.

Definition start_at_zero : Options.t :=
  Options.mk None None None (Some 0) None None None.

Definition empty_series_uid : Options.t :=
  Options.mk None None None None None (Some "") None.

(** A base map that already describes the series, and options that describe
    it differently. *)
Definition described_base : gmap string string :=
  {[ "0008|103e" := "Original description"; "0020|0011" := "7" ]}.

Definition describing_options : Options.t :=
  Options.mk None (Some "New description") (Some 3) None (Some "CT") None None.

(** ** Bytes per pixel *)

(** The own properties of the object literal [typeMap] of
    [getBytesPerPixel]. *)
Definition typeMap : list (string * Z) :=
  [("int8", 1); ("uint8", 1);
   ("int16", 2); ("uint16", 2);
   ("int32", 4); ("uint32", 4);
   ("int64", 8); ("uint64", 8);
   ("float32", 4); ("float64", 8)].

(** [getBytesPerPixel(componentType)], that is [typeMap[componentType] || 1];
    [None] when the lookup finds an inherited property, as for
    [getBitsAllocated]. *)
Definition getBytesPerPixel (componentType : string) : option Z :=
  match own_property typeMap componentType with
  | Some bytes => if truthy_number bytes then Some bytes else Some 1
  | None =>
      if decide (componentType ∈ inherited_properties) then None else Some 1
  end.

(** ** Slices, file names and what a run hands to the encoders *)

(** [s.includes(pattern)]. *)
Fixpoint contains (pattern s : string) : bool :=
  String.prefix pattern s
  || match s with
     | "" => false
     | String _ s' => contains pattern s'
     end.

(** The string of a count is ["0"] or starts with a digit other than 0. *)
Definition canonical (s : string) : Prop :=
  s = "0" \/ exists c rest, s = String c rest /\ c <> "0"%char.

(** The position of slice [i] along [axis]: the origin of the volume, moved
    [i] times the third spacing along the entries 6, 7 and 8 of the
    direction matrix. *)
Definition position_of {E : Type} (image3D : Image E) (i : Z) (axis : nat)
  : float :=
  (at_float (origin image3D) axis
   + float_of_Z i * at_float (spacing image3D) 2
     * at_float (direction image3D) (6 + axis))%float.

(** The keys that [createDicomMetadataForSlice] may write. *)
Definition written_keys : list string :=
  ["0020|000e"; "0008|0018"; "0020|0013"; "0020|0032"; "0020|1041";
   "0008|103e"; "0020|0011"; "0020|1002"; "0008|0060"].

(** [slice2D] with its [metadata] property replaced. *)
Definition with_metadata {E : Type} (slice2D : Image E)
    (entries : gmap string string) : Image E :=
  {| imageType := imageType slice2D; name := name slice2D;
     origin := origin slice2D; spacing := spacing slice2D;
     direction := direction slice2D; size := size slice2D;
     metadata := Some entries; data := data slice2D;
     zPosition := zPosition slice2D |}.

(** The options of [writeImageAsDicomSeries] once the defaults are taken,
    [generated] being the identifier generated for the series. *)
Definition defaulted (options : Options.t) (generated : string) : Options.t :=
  {| Options.fileNamePattern :=
       Some (default "slice_%04d.dcm" (Options.fileNamePattern options));
     Options.seriesDescription :=
       Some (default "Medical Image Series"
               (Options.seriesDescription options));
     Options.seriesNumber := Some (default 1 (Options.seriesNumber options));
     Options.instanceNumberStart :=
       Some (default 1 (Options.instanceNumberStart options));
     Options.modality := Some (default "OT" (Options.modality options));
     Options.seriesInstanceUID :=
       Some (default generated (Options.seriesInstanceUID options));
     Options.useCompression :=
       Some (default false (Options.useCompression options)) |}.

Section Handed.
Context {E : Type}.
Variable Date_now : nat -> Z.
Variable random_million : nat -> Z.
Variable toFixed6 : float -> string.
Variable today : string.
Variable timeOfDay : string.

(** The object [metadata] that the loop of
    [writeImageAsDicomSeriesWithDcmjs] builds for a slice. *)
Definition dcmjs_metadata (options : Options.t)
    (studyInstanceUID seriesInstanceUID : string) (sliceIdx : Z)
    (sop : string) (slice2D : Image E) : SliceMetadata.t :=
  {| SliceMetadata.seriesInstanceUID := seriesInstanceUID;
     SliceMetadata.sopInstanceUID := sop;
     SliceMetadata.instanceNumber :=
       sliceIdx + default 1 (Options.instanceNumberStart options);
     SliceMetadata.imagePosition :=
       [origin slice2D !! 0%nat; origin slice2D !! 1%nat; zPosition slice2D];
     SliceMetadata.sliceLocation := zPosition slice2D;
     SliceMetadata.seriesDescription :=
       default "Medical Image Series" (Options.seriesDescription options);
     SliceMetadata.seriesNumber := default 1 (Options.seriesNumber options);
     SliceMetadata.modality := default "OT" (Options.modality options);
     SliceMetadata.studyInstanceUID := studyInstanceUID;
     SliceMetadata.studyDate := today;
     SliceMetadata.studyTime := timeOfDay |}.

(** The dataset of slice [i], when [t] identifiers were generated before
    its turn. *)
Definition dcmjs_dataset_of (image3D : Image E) (options : Options.t)
    (study series : string) (i : Z) (t : nat)
    (entries : gmap string (Element E)) : Prop :=
  exists slice2D pixels,
    extractSlice image3D i = Ok slice2D
    /\ data slice2D = TypedArray pixels
    /\ entries
       = list_to_map
           (dataset_entries slice2D
              (dcmjs_metadata options study series i
                 (uid_at Date_now random_million t) slice2D) pixels).

Definition dcmjs_call_of (image3D : Image E) (options : Options.t)
    (study series : string) (i : Z) (t t1 : nat) (c : EncoderCall E) : Prop :=
  exists entries,
    c = DcmjsWrite entries
    /\ dcmjs_dataset_of image3D options study series i t entries.

(** What the GDCM writer receives for slice [i], when [t] identifiers were
    generated before the turn: the slice, with the map built for it. *)
Definition gdcm_call_of (image3D : Image E) (o : Options.t) (i : Z)
    (t t1 : nat) (c : EncoderCall E) : Prop :=
  exists slice2D entries w0 w1,
    extractSlice image3D i = Ok slice2D
    /\ uid_calls w0 = t
    /\ createDicomMetadataForSlice Date_now random_million toFixed6
         (metadata image3D) i (to_integer (size image3D !! 2%nat)) slice2D
         (metadata_options o) w0
       = (Ok entries, w1)
    /\ c = GdcmWrite (with_metadata slice2D entries)
             (slice_filename (default "" (Options.fileNamePattern o)) i)
             (default false (Options.useCompression o)).

End Handed.

(** ** More concrete inputs *)

(** A base map with a patient, a series and an instance identifier. *)
Definition patient_base : gmap string string :=
  {[ "0010|0010" := "DOE^JANE"; "0020|000e" := "1.2.3";
     "0008|0018" := "1.2.3.4" ]}.

(** Encoders that refuse the second slice of a series. *)
Definition gdcm_refuses_second (slice2D : Image Z) (filename : string)
    (useCompression : bool) : outcome (list Byte.byte) :=
  if String.eqb filename "slice_0001.dcm"
  then Throw (External "GDCM could not write the image")
  else Ok [].

Definition dcmjs_refuses_second (entries : gmap string (Element Z))
  : outcome (list Byte.byte) :=
  match Value <$> entries !! "00200013" with
  | Some [VInteger 2] => Throw (External "dcmjs could not write the dataset")
  | _ => Ok []
  end.

(** * Properties *)

(** ** The slice extractor *)

Ltac float_neq :=
  let H := fresh "H" in
  intro H;
  match type of H with
  | ?x = ?y => apply (f_equal (fun v => PrimFloat.eqb v y)) in H
  end;
  vm_compute in H; discriminate H.

Section ExtractSliceFacts.
Context {E : Type}.
Implicit Types (image3D slice2D : Image E) (sliceIndex : Z).

Lemma Ok_inj {A : Type} (a b : A) : Ok a = Ok b -> a = b.
Proof. intros H. injection H as H. exact H. Qed.

(** What [extractSlice] returns once the pixel data of the slice is there. *)
Lemma extractSlice_fields image3D sliceIndex pixels :
  sliceData image3D sliceIndex = Ok pixels ->
  exists slice2D,
    extractSlice image3D sliceIndex = Ok slice2D
    /\ data slice2D = TypedArray pixels
    /\ origin slice2D =
         [(at_float (origin image3D) 0
           + float_of_Z sliceIndex * at_float (spacing image3D) 2
             * at_float (direction image3D) 6)%float;
          (at_float (origin image3D) 1
           + float_of_Z sliceIndex * at_float (spacing image3D) 2
             * at_float (direction image3D) 7)%float]
    /\ zPosition slice2D =
         Some (at_float (origin image3D) 2
               + float_of_Z sliceIndex * at_float (spacing image3D) 2
                 * at_float (direction image3D) 8)%float
    /\ componentType (imageType slice2D) = componentType (imageType image3D)
    /\ components (imageType slice2D) = components (imageType image3D).
Proof.
  intros Hdata. unfold extractSlice. rewrite Hdata.
  eexists. split; [reflexivity|]. simpl. repeat split.
Qed.

Lemma sliceData_typed image3D sliceIndex a :
  data image3D = TypedArray a ->
  sliceData image3D sliceIndex =
    Ok (typed_slice a (sliceOffset image3D sliceIndex)
          (num_add (sliceOffset image3D sliceIndex) (sliceLength image3D))).
Proof. intros Hdata. unfold sliceData. rewrite Hdata. reflexivity. Qed.

(** A slab that lies within the array is copied as it is. *)
Lemma typed_slice_within (a : list E) (start len : Z) :
  0 <= start -> 0 <= len -> start + len <= Z.of_nat (length a) ->
  typed_slice a (Some start) (Some (start + len)) =
    take (Z.to_nat len) (drop (Z.to_nat start) a).
Proof.
  intros Hs Hl Hend. unfold typed_slice, relative_index, to_integer. simpl.
  destruct (Z.ltb_spec start 0) as [?|_]; [lia|].
  destruct (Z.ltb_spec (start + len) 0) as [?|_]; [lia|].
  rewrite (Z.min_l start), (Z.min_l (start + len)) by lia.
  replace (Z.max (start + len - start) 0) with len by lia.
  reflexivity.
Qed.

(** C1 (as amended). For every volume whose pixel data is a typed array and
    every slice index, [extractSlice] returns a slice whose origin is
    [origin[a] + index * spacing[2] * direction[6 + a]] for [a] = 0 and 1 and
    whose [zPosition] is [origin[2] + index * spacing[2] * direction[8]]: the
    position advances along the entries 6, 7 and 8 of the direction matrix,
    not along the entries 2 and 5.  With origin [0,0,0], spacing [1,1,2] and
    the identity direction, slice 3 has [zPosition] 6 and origin [0,0]. *)
Theorem extractSlice_position image3D sliceIndex (a : list E) :
  data image3D = TypedArray a ->
  exists slice2D,
    extractSlice image3D sliceIndex = Ok slice2D
    /\ origin slice2D =
         [(at_float (origin image3D) 0
           + float_of_Z sliceIndex * at_float (spacing image3D) 2
             * at_float (direction image3D) 6)%float;
          (at_float (origin image3D) 1
           + float_of_Z sliceIndex * at_float (spacing image3D) 2
             * at_float (direction image3D) 7)%float]
    /\ zPosition slice2D =
         Some (at_float (origin image3D) 2
               + float_of_Z sliceIndex * at_float (spacing image3D) 2
                 * at_float (direction image3D) 8)%float
    /\ (origin image3D = [0; 0; 0]%float ->
        spacing image3D = [1; 1; 2]%float ->
        direction image3D = identity3 ->
        sliceIndex = 3 ->
        zPosition slice2D = Some 6%float /\ origin slice2D = [0; 0]%float).
Proof.
  intros Hdata.
  destruct (extractSlice_fields image3D sliceIndex _
              (sliceData_typed image3D sliceIndex a Hdata))
    as (slice2D & Hrun & _ & Horigin & Hz & _).
  exists slice2D. split; [exact Hrun|]. split; [exact Horigin|].
  split; [exact Hz|].
  intros Ho Hs Hd ->. rewrite Hz, Horigin, Ho, Hs, Hd. split; reflexivity.
Qed.

(** C2 (as amended). [extractSlice] checks neither the index nor the
    dimension: for every image whose pixel data is a typed array, every
    index, in range or not, and every dimension, it returns a slice and does
    not fail; the pixels of the slice are what [slice] selects between the
    slab's offset and its end, clamped to the array.  It fails, with the
    plain [Error] of the source, when the image has no pixel data. *)
Theorem extractSlice_unchecked image3D sliceIndex (a : list E) :
  data image3D = TypedArray a ->
  (exists slice2D pixels,
     extractSlice image3D sliceIndex = Ok slice2D
     /\ data slice2D = TypedArray pixels
     /\ pixels =
          typed_slice a (sliceOffset image3D sliceIndex)
            (num_add (sliceOffset image3D sliceIndex) (sliceLength image3D)))
  /\ (forall other : Image E,
        data other = NoData ->
        extractSlice other sliceIndex
        = Throw (Error "Invalid image data format")).
Proof.
  intros Hdata. split.
  - pose proof (sliceData_typed image3D sliceIndex a Hdata) as Hslab.
    destruct (extractSlice_fields image3D sliceIndex _ Hslab)
      as (slice2D & Hrun & Hpixels & _).
    exists slice2D. eexists. split; [exact Hrun|]. split; [exact Hpixels|].
    reflexivity.
  - intros other Hnone. unfold extractSlice, sliceData. rewrite Hnone.
    reflexivity.
Qed.

(** C8. For a volume of [w] x [h] x [d] voxels of [c] components whose typed
    array holds [w * h * d * c] elements, and an index within [0, d), the
    slice that [extractSlice] returns holds exactly [w * h * c] elements,
    which are the elements of the volume's array from offset
    [index * w * h * c] on; that slab lies within the array, so nothing is
    read outside it.  (The function of the source assigns to no property of
    the volume and [slice] copies: in the embedding the volume is an
    argument that the result does not replace.) *)
Theorem extractSlice_slab image3D sliceIndex (a : list E) (w h d c : Z) :
  size image3D !! 0%nat = Some w ->
  size image3D !! 1%nat = Some h ->
  size image3D !! 2%nat = Some d ->
  components (imageType image3D) = c ->
  0 <= w -> 0 <= h -> 0 <= c ->
  0 <= sliceIndex < d ->
  data image3D = TypedArray a ->
  Z.of_nat (length a) = w * h * d * c ->
  exists slice2D pixels,
    extractSlice image3D sliceIndex = Ok slice2D
    /\ data slice2D = TypedArray pixels
    /\ Z.of_nat (length pixels) = w * h * c
    /\ sliceIndex * w * h * c + w * h * c <= Z.of_nat (length a)
    /\ forall j : nat,
         Z.of_nat j < w * h * c ->
         is_Some (pixels !! j)
         /\ pixels !! j = a !! (Z.to_nat (sliceIndex * w * h * c) + j)%nat.
Proof.
  intros Hw Hh Hd Hc Hw0 Hh0 Hc0 Hidx Hdata Hlen.
  pose proof (sliceData_typed image3D sliceIndex a Hdata) as Hslab.
  unfold sliceOffset, sliceLength, sliceSize in Hslab.
  rewrite Hw, Hh, Hc in Hslab. simpl in Hslab.
  assert (0 <= w * h * c) as Hslice by (apply Z.mul_nonneg_nonneg; lia).
  assert (sliceIndex * w * h * c + w * h * c <= Z.of_nat (length a)) as Hend.
  { rewrite Hlen.
    replace (sliceIndex * w * h * c + w * h * c)
      with ((sliceIndex + 1) * (w * h * c)) by lia.
    replace (w * h * d * c) with (d * (w * h * c)) by lia.
    apply Z.mul_le_mono_nonneg_r; lia. }
  assert (0 <= sliceIndex * w * h * c) as Hstart.
  { replace (sliceIndex * w * h * c) with (sliceIndex * (w * h * c)) by lia.
    apply Z.mul_nonneg_nonneg; lia. }
  replace (sliceIndex * (w * h) * c) with (sliceIndex * w * h * c)
    in Hslab by lia.
  rewrite typed_slice_within in Hslab by lia.
  destruct (extractSlice_fields image3D sliceIndex _ Hslab)
    as (slice2D & Hrun & Hpixels & _).
  exists slice2D. eexists. split; [exact Hrun|]. split; [exact Hpixels|].
  assert (length (take (Z.to_nat (w * h * c))
                    (drop (Z.to_nat (sliceIndex * w * h * c)) a))
          = Z.to_nat (w * h * c)) as Hsize.
  { rewrite length_take, length_drop. lia. }
  split; [rewrite Hsize; lia|]. split; [exact Hend|].
  intros j Hj.
  assert (take (Z.to_nat (w * h * c))
            (drop (Z.to_nat (sliceIndex * w * h * c)) a) !! j
          = a !! (Z.to_nat (sliceIndex * w * h * c) + j)%nat) as Hget.
  { rewrite lookup_take_lt by lia. apply lookup_drop. }
  split; [|exact Hget].
  rewrite Hget. apply lookup_lt_is_Some_2. lia.
Qed.

End ExtractSliceFacts.

Lemma extractSlice_position_witness :
  exists slice2D,
    extractSlice stack_volume 3 = Ok slice2D
    /\ zPosition slice2D = Some 6%float
    /\ origin slice2D = [0; 0]%float.
Proof.
  destruct (extractSlice_position stack_volume 3 (seqZ 100 16) eq_refl)
    as (slice2D & Hrun & _ & _ & Hexample).
  exists slice2D. split; [exact Hrun|].
  apply Hexample; reflexivity.
Defined.

(** C1 (as stated) fails: for the volume turned a quarter about its second
    axis, the origin of slice 1 is not the one the formula with
    [direction[a*3 + 2]] gives (it is -1 where the formula gives 1). *)
Lemma extractSlice_position_counterexample :
  exists slice2D,
    extractSlice turned_volume 1 = Ok slice2D
    /\ at_float (origin slice2D) 0 = (-1)%float
    /\ claimed_origin turned_volume 1 0 = 1%float
    /\ at_float (origin slice2D) 0 <> claimed_origin turned_volume 1 0.
Proof.
  eexists. split; [reflexivity|].
  split; [reflexivity|]. split; [reflexivity|].
  vm_compute. float_neq.
Qed.

Lemma extractSlice_unchecked_witness :
  exists slice2D pixels,
    extractSlice stack_volume 7 = Ok slice2D
    /\ data slice2D = TypedArray pixels
    /\ pixels =
         typed_slice (seqZ 100 16) (sliceOffset stack_volume 7)
           (num_add (sliceOffset stack_volume 7) (sliceLength stack_volume)).
Proof.
  exact (proj1 (extractSlice_unchecked stack_volume 7 (seqZ 100 16) eq_refl)).
Defined.

(** C2 (as stated) fails: on a well-formed 2 x 2 x 4 volume, the indices 7
    and -1 are out of range and [extractSlice] returns a slice, without
    pixels, instead of failing; and on a 2D image it returns a slice too. *)
Lemma extractSlice_unchecked_counterexample :
  (exists slice2D,
     extractSlice stack_volume 7 = Ok slice2D /\ data slice2D = TypedArray [])
  /\ (exists slice2D,
        extractSlice stack_volume (-1) = Ok slice2D
        /\ data slice2D = TypedArray [])
  /\ (exists slice2D,
        extractSlice flat_image 0 = Ok slice2D
        /\ data slice2D = TypedArray (seqZ 0 16)).
Proof.
  repeat split; eexists; (split; [reflexivity|]); reflexivity.
Qed.

Lemma extractSlice_slab_witness :
  exists slice2D pixels,
    extractSlice stack_volume 3 = Ok slice2D
    /\ data slice2D = TypedArray pixels
    /\ Z.of_nat (length pixels) = 2 * 2 * 1
    /\ 3 * 2 * 2 * 1 + 2 * 2 * 1 <= Z.of_nat (length (seqZ 100 16))
    /\ forall j : nat,
         Z.of_nat j < 2 * 2 * 1 ->
         is_Some (pixels !! j)
         /\ pixels !! j = seqZ 100 16 !! (Z.to_nat (3 * 2 * 2 * 1) + j)%nat.
Proof.
  apply (extractSlice_slab stack_volume 3 (seqZ 100 16) 2 2 4 1);
    try reflexivity; lia.
Defined.

(** The slab of slice 3 of the example volume. *)
Example extractSlice_stack_3 :
  sliceData stack_volume 3 = Ok [112; 113; 114; 115].
Proof. reflexivity. Qed.

(** ** Pixel-encoding attributes and the dataset *)

Ltac dataset_lookup :=
  apply elem_of_list_to_map_1';
  [ let y := fresh "y" in
    let Hy := fresh "Hy" in
    intros y Hy; unfold dataset_entries in Hy;
    repeat (apply elem_of_cons in Hy as [Hy|Hy];
            [ try discriminate Hy; try (injection Hy as ->; reflexivity) | ]);
    inversion Hy
  | unfold dataset_entries; repeat (try (left; reflexivity); right) ].

Section DatasetFacts.
Context {E : Type}.
Implicit Types (slice2D : Image E) (metadata : SliceMetadata.t).

Lemma dataset_ok slice2D metadata pixels :
  data_buffer slice2D = Ok pixels ->
  dataset slice2D metadata
  = Ok (list_to_map (dataset_entries slice2D metadata pixels)).
Proof. intros H. unfold dataset. rewrite H. reflexivity. Qed.

Lemma dataset_inv slice2D metadata d :
  dataset slice2D metadata = Ok d ->
  exists pixels,
    data_buffer slice2D = Ok pixels
    /\ d = list_to_map (dataset_entries slice2D metadata pixels).
Proof.
  unfold dataset. destruct (data_buffer slice2D) as [pixels|e].
  - intros H. apply Ok_inj in H. exists pixels. split; [reflexivity|].
    symmetry. exact H.
  - intros H. discriminate H.
Qed.

Lemma getBitsAllocated_other (kind : string) :
  own_property bitsMap kind = None ->
  kind ∉ inherited_properties ->
  getBitsAllocated kind = Some 16.
Proof.
  intros Hown Hinh. unfold getBitsAllocated. rewrite Hown.
  destruct (decide (kind ∈ inherited_properties)); [contradiction|reflexivity].
Qed.

Lemma own_property_bitsMap (kind : string) (bits : Z) :
  own_property bitsMap kind = Some bits ->
  (bits = 8 /\ (kind = "int8" \/ kind = "uint8"))
  \/ (bits = 16 /\ (kind = "int16" \/ kind = "uint16"))
  \/ (bits = 32 /\ (kind = "int32" \/ kind = "uint32")).
Proof.
  unfold bitsMap. simpl.
  repeat (destruct (decide _) as [<-|_];
          [intros [= <-]; simpl; tauto|]).
  intros H. discriminate H.
Qed.

Lemma dataset_entries_fixed_identity slice2D metadata pixels :
  fixed_identity (list_to_map (dataset_entries slice2D metadata pixels)).
Proof. unfold fixed_identity. repeat split; dataset_lookup. Qed.

(** A name that starts with [int] does not start with [uint]. *)
Lemma prefix_int_not_uint (kind : string) :
  String.prefix "int" kind = true -> String.prefix "uint" kind = false.
Proof.
  destruct kind as [|c kind']; [intros H; discriminate H|].
  cbn [String.prefix].
  destruct (Ascii.ascii_dec "i" c) as [<-|_]; [|intros H; discriminate H].
  intros _. destruct (Ascii.ascii_dec "u" "i") as [Hu|_];
    [discriminate Hu|reflexivity].
Qed.

End DatasetFacts.

Section PixelEncoding.
Context {E : Type}.
Implicit Types (slice2D : Image E) (metadata : SliceMetadata.t).

(** C5 (as amended). In the dataset of every slice, bits allocated and bits
    stored are both [getBitsAllocated] of the component type, the high bit
    is that number minus one and the pixel representation is 1 exactly when
    [isSignedType] holds.  Bits allocated is 8 for [int8] and [uint8], 16
    for [int16] and [uint16], 32 for [int32] and [uint32], and 16 for every
    other name that is not a property inherited by the lookup table.  The
    kind is signed exactly when its name starts with [int], whether the
    table knows it or not: an unrecognized kind is not always unsigned.  So
    uint8 gives (8, 8, 7, unsigned), int16 (16, 16, 15, signed) and uint32
    (32, 32, 31, unsigned). *)
Theorem pixel_encoding_attributes slice2D metadata d :
  dataset slice2D metadata = Ok d ->
  let kind := componentType (imageType slice2D) in
  (d !! "00280100" = Some (mkElement "US" [bits_value (getBitsAllocated kind)])
   /\ d !! "00280101" = Some (mkElement "US" [bits_value (getBitsAllocated kind)])
   /\ d !! "00280102"
      = Some (mkElement "US" [high_bit_value (getBitsAllocated kind)])
   /\ d !! "00280103"
      = Some (mkElement "US" [VInteger (if isSignedType kind then 1 else 0)]))
  /\ getBitsStored kind = getBitsAllocated kind
  /\ (forall bits,
        getBitsAllocated kind = Some bits ->
        high_bit_value (E:=E) (getBitsStored kind) = VInteger (bits - 1))
  /\ (kind = "int8" \/ kind = "uint8" -> getBitsAllocated kind = Some 8)
  /\ (kind = "int16" \/ kind = "uint16" -> getBitsAllocated kind = Some 16)
  /\ (kind = "int32" \/ kind = "uint32" -> getBitsAllocated kind = Some 32)
  /\ (own_property bitsMap kind = None ->
      kind ∉ inherited_properties ->
      getBitsAllocated kind = Some 16)
  /\ (isSignedType kind = true <-> String.prefix "int" kind = true)
  /\ (getBitsAllocated "uint8" = Some 8 /\ getBitsStored "uint8" = Some 8
      /\ high_bit_value (E:=E) (getBitsStored "uint8") = VInteger 7
      /\ isSignedType "uint8" = false)
  /\ (getBitsAllocated "int16" = Some 16 /\ getBitsStored "int16" = Some 16
      /\ high_bit_value (E:=E) (getBitsStored "int16") = VInteger 15
      /\ isSignedType "int16" = true)
  /\ (getBitsAllocated "uint32" = Some 32 /\ getBitsStored "uint32" = Some 32
      /\ high_bit_value (E:=E) (getBitsStored "uint32") = VInteger 31
      /\ isSignedType "uint32" = false).
Proof.
  intros Hd kind.
  apply dataset_inv in Hd as (pixels & _ & ->).
  split.
  { repeat split; dataset_lookup. }
  split; [reflexivity|].
  split.
  { intros bits Hbits. unfold getBitsStored. rewrite Hbits. reflexivity. }
  split; [intros [->| ->]; reflexivity|].
  split; [intros [->| ->]; reflexivity|].
  split; [intros [->| ->]; reflexivity|].
  split; [apply getBitsAllocated_other|].
  split.
  { unfold isSignedType. split.
    - intros H. apply andb_prop in H. tauto.
    - intros H. rewrite H, (prefix_int_not_uint _ H). reflexivity. }
  repeat split.
Qed.

End PixelEncoding.

Lemma pixel_encoding_attributes_witness :
  exists d,
    dataset small_slice small_metadata = Ok d
    /\ d !! "00280100" = Some (mkElement "US" [VInteger 16])
    /\ d !! "00280102" = Some (mkElement "US" [VInteger 15])
    /\ d !! "00280103" = Some (mkElement "US" [VInteger 1]).
Proof.
  eexists. split; [exact (dataset_ok small_slice small_metadata _ eq_refl)|].
  pose proof (pixel_encoding_attributes small_slice small_metadata _
                (dataset_ok small_slice small_metadata _ eq_refl))
    as ((Hallocated & _ & Hhigh & Hsigned) & _).
  split; [exact Hallocated|]. split; [exact Hhigh|exact Hsigned].
Defined.

(** C5 (as stated) fails: [int64] is not a kind of the table, so its bits
    allocated is the default 16, and it is signed. *)
Lemma pixel_encoding_counterexample :
  own_property bitsMap "int64" = None
  /\ getBitsAllocated "int64" = Some 16
  /\ isSignedType "int64" = true.
Proof. repeat split. Qed.


(** ** Identifiers *)

Lemma pretty_N_go_no_dot (x : N) (s : string) :
  no_dot s -> no_dot (pretty_N_go x s).
Proof.
  revert s. induction (N.lt_wf_0 x) as [x _ IH]. intros s Hs.
  destruct (decide (x = 0)%N) as [->|Hx].
  - rewrite pretty_N_go_0. exact Hs.
  - rewrite pretty_N_go_step by lia. apply IH.
    + apply N.div_lt; lia.
    + split; [|exact Hs].
      unfold pretty_N_char. repeat case_match; discriminate.
Qed.

Lemma pretty_N_no_dot (x : N) : no_dot (pretty x).
Proof.
  unfold pretty, pretty_N. case_decide.
  - simpl. split; [discriminate|exact I].
  - apply pretty_N_go_no_dot. exact I.
Qed.

Lemma pretty_Z_no_dot (z : Z) : no_dot (pretty z).
Proof.
  destruct z as [|p|p]; unfold pretty, pretty_Z.
  - simpl. split; [discriminate|exact I].
  - apply pretty_N_no_dot.
  - simpl. split; [discriminate|]. apply pretty_N_no_dot.
Qed.

(** Two strings cut at their first dot agree on both sides of it. *)
Lemma append_dot_inj (a a' b b' : string) :
  no_dot a -> no_dot a' ->
  a +:+ String "."%char b = a' +:+ String "."%char b' -> a = a' /\ b = b'.
Proof.
  revert a'. induction a as [|c a IH]; intros [|c' a'] Ha Ha' Heq;
    cbn [String.append no_dot] in *.
  - injection Heq as ->. split; reflexivity.
  - injection Heq as <- _. destruct Ha' as [Hc _]. contradiction.
  - injection Heq as -> _. destruct Ha as [Hc _]. contradiction.
  - injection Heq as -> Hrest.
    destruct (IH a' (proj2 Ha) (proj2 Ha') Hrest) as [-> ->].
    split; reflexivity.
Qed.

(** [generateUID] is as unique as its two readings are. *)
Lemma uid_of_inj (t r t' r' : Z) :
  uid_of t r = uid_of t' r' -> t = t' /\ r = r'.
Proof.
  unfold uid_of. intros H. cbn [String.append] in H.
  repeat (injection H as H).
  apply append_dot_inj in H as [Ht Hr]; try apply pretty_Z_no_dot.
  split; [exact (pretty_Z_inj _ _ Ht)|exact (pretty_Z_inj _ _ Hr)].
Qed.

Lemma uid_of_truthy (t r : Z) : truthy_string (uid_of t r) = true.
Proof. reflexivity. Qed.

(** ** Loops *)

Section LoopFacts.
Context {E : Type}.
Variable Q : Z -> nat -> nat -> EncoderCall E -> Prop.

Lemma chain_le i t cs t' : chain Q i t cs t' -> (t <= t')%nat.
Proof. induction 1; lia. Qed.

Lemma chain_lookup i t cs t' (j : nat) c :
  chain Q i t cs t' -> cs !! j = Some c ->
  exists t1 t2,
    (t <= t1 <= t2)%nat /\ (t2 <= t')%nat /\ Q (i + Z.of_nat j) t1 t2 c.
Proof.
  intros Hchain. revert j. induction Hchain as [|i t t1 t' c0 cs HQ Hle Hrest IH];
    intros j Hj.
  - discriminate Hj.
  - destruct j as [|j]; simpl in Hj.
    + injection Hj as <-. exists t, t1.
      apply chain_le in Hrest. replace (i + Z.of_nat 0) with i by lia.
      repeat split; try lia. exact HQ.
    + destruct (IH j Hj) as (t2 & t3 & Hle2 & Hle3 & HQ').
      exists t2, t3.
      replace (i + Z.of_nat (S j)) with (i + 1 + Z.of_nat j) by lia.
      repeat split; try lia. exact HQ'.
Qed.

Lemma chain_Forall (P : EncoderCall E -> Prop) i t cs t' :
  (forall k t0 t1 c, Q k t0 t1 c -> P c) ->
  chain Q i t cs t' -> Forall P cs.
Proof.
  intros HP. induction 1 as [|i t t1 t' c cs HQ Hle Hrest IH]; constructor.
  - exact (HP _ _ _ _ HQ).
  - exact IH.
Qed.

Lemma slice_loop_step (body : Z -> M E WrittenFile.t) (turns : nat) i files w :
  slice_loop body (S turns) i files w
  = match body i w with
    | (Ok file, w1) => slice_loop body turns (i + 1) (files ++ [file]) w1
    | (Throw e, w1) => (Throw e, w1)
    end.
Proof. reflexivity. Qed.

(** The calls of a loop form a chain, one call per turn when the loop ends
    without an exception. *)
Lemma slice_loop_chain (body : Z -> M E WrittenFile.t) (turns : nat) :
  turn_spec Q body ->
  forall i files w,
    exists cs,
      encoder_calls (slice_loop body turns i files w).2 = encoder_calls w ++ cs
      /\ chain Q i (uid_calls w) cs
           (uid_calls (slice_loop body turns i files w).2)
      /\ (length cs <= turns)%nat
      /\ (forall result,
            (slice_loop body turns i files w).1 = Ok result ->
            length cs = turns /\ length result = (length files + turns)%nat).
Proof.
  intros Hbody. induction turns as [|turns IH]; intros i files w.
  - exists []. simpl. rewrite app_nil_r. split; [reflexivity|].
    split; [apply chain_nil; lia|]. split; [lia|].
    intros result [= <-]. lia.
  - destruct (Hbody i w) as (Hticks & cs1 & Hcalls & Hshape & Hok).
    rewrite slice_loop_step.
    destruct (body i w) as [[file|e] w1] eqn:Hturn; simpl in *.
    + destruct (IH (i + 1) (files ++ [file]) w1)
        as (cs & Hcs & Hchain & Hlen & Hresult).
      destruct Hshape as [->|(c & -> & HQ)]; [destruct (Hok file eq_refl eq_refl)|].
      exists (c :: cs). split.
      { rewrite Hcs, Hcalls, <- app_assoc. reflexivity. }
      split; [apply (chain_cons Q i _ (uid_calls w1)); assumption|].
      split; [simpl; lia|].
      intros result Hrun. destruct (Hresult result Hrun) as [H1 H2].
      rewrite length_app in H2. simpl in *. lia.
    + exists cs1. split; [exact Hcalls|]. split.
      { destruct Hshape as [->|(c & -> & HQ)].
        - apply chain_nil. exact Hticks.
        - apply (chain_cons Q i _ (uid_calls w1)); [exact HQ|exact Hticks|].
          apply chain_nil. lia. }
      split.
      { destruct Hshape as [->|(c & -> & _)]; simpl; lia. }
      intros result Hrun. discriminate Hrun.
Qed.

(** A loop whose turns all succeed returns a file for each turn. *)
Lemma slice_loop_succeeds (body : Z -> M E WrittenFile.t) (turns : nat) :
  (forall i w, exists file, (body i w).1 = Ok file) ->
  forall i files w,
    exists result, (slice_loop body turns i files w).1 = Ok result.
Proof.
  intros Hbody. induction turns as [|turns IH]; intros i files w.
  - exists files. reflexivity.
  - rewrite slice_loop_step.
    destruct (Hbody i w) as (file & Hfile).
    destruct (body i w) as [[file'|e] w1]; simpl in Hfile; [|discriminate Hfile].
    apply IH.
Qed.

End LoopFacts.

(** ** The metadata builder and the turns of the two loops *)

Section MetadataFacts.
Context {E : Type}.
Variable Date_now : nat -> Z.
Variable random_million : nat -> Z.
Variable toFixed6 : float -> string.
Variable gdcmWriteImage : Image E -> string -> bool -> outcome (list Byte.byte).

Lemma extractSlice_shape (image3D slice2D : Image E) (sliceIndex : Z) :
  extractSlice image3D sliceIndex = Ok slice2D ->
  exists x y z pixels,
    origin slice2D = [x; y] /\ zPosition slice2D = Some z
    /\ data slice2D = TypedArray pixels.
Proof.
  unfold extractSlice. destruct (sliceData image3D sliceIndex) as [pixels|e].
  - intros H. apply Ok_inj in H. subst slice2D. simpl.
    eexists _, _, _, _. repeat split.
  - intros H. discriminate H.
Qed.

(** The map that [createDicomMetadataForSlice] returns for a slice that has
    an origin and a [zPosition], and the one or two identifiers it draws. *)
Lemma createDicomMetadataForSlice_run
    (base : option (gmap string string)) (i total : Z) (slice2D : Image E)
    (o : Options.t) (w : World E) (x y z : float) :
  origin slice2D !! 0%nat = Some x ->
  origin slice2D !! 1%nat = Some y ->
  zPosition slice2D = Some z ->
  exists md s,
    createDicomMetadataForSlice Date_now random_million toFixed6
      base i total slice2D o w
    = (Ok md, {| uid_calls := S s; encoder_calls := encoder_calls w |})
    /\ (uid_calls w <= s)%nat
    /\ md !! "0008|0018" = Some (uid_at Date_now random_million s)
    /\ md !! "0020|0013"
       = Some (pretty (i + or_one (Options.instanceNumberStart o)))
    /\ md !! "0020|000e"
       = Some (series_value Date_now random_million (default ∅ base)
                 (Options.seriesInstanceUID o) (uid_calls w))
    /\ md !! "0008|103e"
       = match truthy_option (Options.seriesDescription o) with
         | Some description => Some description
         | None => default ∅ base !! "0008|103e"
         end
    /\ md !! "0020|0011"
       = match Options.seriesNumber o with
         | Some number => Some (pretty number)
         | None => default ∅ base !! "0020|0011"
         end
    /\ md !! "0008|0060"
       = match default ∅ base !! "0008|0060" with
         | Some m => Some m
         | None => truthy_option (Options.modality o)
         end.
Proof.
  intros Hx Hy Hz.
  unfold createDicomMetadataForSlice, bind, ret, toFixed_of, generateUID,
    series_value.
  rewrite Hx, Hy, Hz.
  destruct (default ∅ base !! "0020|000e") as [v|] eqn:Hseries.
  - eexists _, (uid_calls w). split; [reflexivity|]. split; [lia|].
    repeat split; repeat case_match; simplify_map_eq; done.
  - destruct (truthy_option (Options.seriesInstanceUID o)) as [u|] eqn:Hu.
    + eexists _, (uid_calls w). split; [reflexivity|]. split; [lia|].
      repeat split; repeat case_match; simplify_map_eq; done.
    + eexists _, (S (uid_calls w)). split; [reflexivity|]. split; [lia|].
      repeat split; repeat case_match; simplify_map_eq; done.
Qed.

(** A turn of the loop of [writeImageAsDicomSeries] that reaches the
    encoder. *)
Lemma write_series_slice_run (image3D slice2D : Image E) (o : Options.t)
    (numSlices i : Z) (w w1 : World E) (md : gmap string string) :
  extractSlice image3D i = Ok slice2D ->
  createDicomMetadataForSlice Date_now random_million toFixed6
    (metadata image3D) i numSlices slice2D (metadata_options o) w
  = (Ok md, w1) ->
  exists result given filename useCompression,
    write_series_slice Date_now random_million toFixed6 gdcmWriteImage
      image3D o numSlices i w
    = (result,
       {| uid_calls := uid_calls w1;
          encoder_calls :=
            encoder_calls w1 ++ [GdcmWrite given filename useCompression] |})
    /\ metadata given = Some md.
Proof.
  intros Hslice Hrun. unfold write_series_slice, bind, lift.
  rewrite Hslice, Hrun. unfold call_encoder, ret.
  destruct (gdcmWriteImage _ _ _) as [imageData|e];
    eexists _, _, _, _; (split; [reflexivity|]); reflexivity.
Qed.

(** One turn of the loop of [writeImageAsDicomSeries]. *)
Lemma write_series_slice_turn (image3D : Image E) (o : Options.t)
    (numSlices : Z) :
  turn_spec
    (turn_calls Date_now random_million
       (series_value Date_now random_million (default ∅ (metadata image3D))
          (Options.seriesInstanceUID o))
       (fun i => VString (pretty (i + or_one (Options.instanceNumberStart o)))))
    (write_series_slice Date_now random_million toFixed6 gdcmWriteImage
       image3D o numSlices).
Proof.
  intros i w.
  destruct (extractSlice image3D i) as [slice2D|e] eqn:Hslice.
  - destruct (extractSlice_shape _ _ _ Hslice)
      as (x & y & z & pixels & Horigin & Hz & _).
    destruct (createDicomMetadataForSlice_run (metadata image3D) i numSlices
                slice2D (metadata_options o) w x y z)
      as (md & s & Hrun & Hs & Hsop & Hnumber & Hseries & _);
      [rewrite Horigin; reflexivity|rewrite Horigin; reflexivity|exact Hz|].
    destruct (write_series_slice_run _ _ _ _ _ _ _ _ Hslice Hrun)
      as (result & given & filename & useCompression & -> & Hgiven).
    simpl. split; [lia|]. eexists. split; [reflexivity|].
    split; [|intros file _; discriminate].
    right. eexists. split; [reflexivity|].
    exists s. split; [lia|].
    unfold call_sop_uid, call_series_uid, call_instance_number, call_tag.
    rewrite Hgiven, Hsop, Hnumber, Hseries. repeat split.
  - unfold write_series_slice, bind, lift. rewrite Hslice. simpl.
    split; [lia|]. exists []. rewrite app_nil_r.
    split; [reflexivity|]. split; [left; reflexivity|].
    intros file H. discriminate H.
Qed.

End MetadataFacts.

Section DcmjsFacts.
Context {E : Type}.
Variable Date_now : nat -> Z.
Variable random_million : nat -> Z.
Variable dcmjsWrite : gmap string (Element E) -> outcome (list Byte.byte).
Variable today : string.
Variable timeOfDay : string.

(** A turn of the loop of [writeImageAsDicomSeriesWithDcmjs] whose slice
    was extracted: one identifier is drawn and dcmjs receives a dataset. *)
Lemma write_dcmjs_slice_run (image3D slice2D : Image E) (options : Options.t)
    (study series : string) (i : Z) (w : World E) :
  extractSlice image3D i = Ok slice2D ->
  exists result d,
    write_dcmjs_slice Date_now random_million dcmjsWrite today timeOfDay
      image3D options study series i w
    = (result,
       {| uid_calls := S (uid_calls w);
          encoder_calls := encoder_calls w ++ [DcmjsWrite d] |})
    /\ d !! "00080018"
       = Some (mkElement "UI"
                 [VString (uid_at Date_now random_million (uid_calls w))])
    /\ d !! "0020000E" = Some (mkElement "UI" [VString series])
    /\ d !! "00200013"
       = Some (mkElement "IS"
                 [VInteger (i + default 1 (Options.instanceNumberStart options))])
    /\ fixed_identity d.
Proof.
  intros Hslice.
  destruct (extractSlice_shape _ _ _ Hslice)
    as (x & y & z & pixels & _ & _ & Hdata).
  assert (data_buffer slice2D = Ok pixels) as Hbuffer.
  { unfold data_buffer. rewrite Hdata. reflexivity. }
  unfold write_dcmjs_slice, bind, lift, generateUID, writeDicomSlice.
  rewrite Hslice. unfold bind, lift.
  rewrite (dataset_ok _ _ _ Hbuffer). unfold call_encoder, ret.
  destruct (dcmjsWrite _) as [bytes|e];
    eexists _, _; (split; [reflexivity|]);
    (split; [dataset_lookup|]); (split; [dataset_lookup|]);
    (split; [dataset_lookup|]); apply dataset_entries_fixed_identity.
Qed.

Lemma write_dcmjs_slice_turn (image3D : Image E) (options : Options.t)
    (study series : string) :
  turn_spec
    (turn_calls Date_now random_million (fun _ => series)
       (fun i =>
          VInteger (i + default 1 (Options.instanceNumberStart options))))
    (write_dcmjs_slice Date_now random_million dcmjsWrite today timeOfDay
       image3D options study series).
Proof.
  intros i w.
  destruct (extractSlice image3D i) as [slice2D|e] eqn:Hslice.
  - destruct (write_dcmjs_slice_run image3D slice2D options study series i w
                Hslice)
      as (result & d & -> & Hsop & Hseries & Hnumber & _).
    cbn [fst snd uid_calls encoder_calls]. split; [lia|].
    eexists. split; [reflexivity|].
    split; [|intros file _; discriminate].
    right. eexists. split; [reflexivity|].
    exists (uid_calls w). split; [lia|].
    unfold call_sop_uid, call_series_uid, call_instance_number, call_tag.
    rewrite Hsop, Hnumber, Hseries. repeat split.
  - unfold write_dcmjs_slice, bind, lift. rewrite Hslice.
    cbn [fst snd uid_calls encoder_calls].
    split; [lia|]. exists []. rewrite app_nil_r.
    split; [reflexivity|]. split; [left; reflexivity|].
    intros file H. discriminate H.
Qed.

(** Every dataset of the loop carries the fixed identity. *)
Lemma write_dcmjs_slice_identity (image3D : Image E) (options : Options.t)
    (study series : string) :
  turn_spec (fun _ _ _ c => call_fixed_identity c)
    (write_dcmjs_slice Date_now random_million dcmjsWrite today timeOfDay
       image3D options study series).
Proof.
  intros i w.
  destruct (extractSlice image3D i) as [slice2D|e] eqn:Hslice.
  - destruct (write_dcmjs_slice_run image3D slice2D options study series i w
                Hslice)
      as (result & d & -> & _ & _ & _ & Hidentity).
    cbn [fst snd uid_calls encoder_calls]. split; [lia|].
    eexists. split; [reflexivity|].
    split; [|intros file _; discriminate].
    right. eexists. split; [reflexivity|]. exact Hidentity.
  - unfold write_dcmjs_slice, bind, lift. rewrite Hslice.
    cbn [fst snd uid_calls encoder_calls].
    split; [lia|]. exists []. rewrite app_nil_r.
    split; [reflexivity|]. split; [left; reflexivity|].
    intros file H. discriminate H.
Qed.

End DcmjsFacts.

Section RunFacts.
Context {E : Type}.
Variable Date_now : nat -> Z.
Variable random_million : nat -> Z.
Variable toFixed6 : float -> string.
Variable gdcmWriteImage : Image E -> string -> bool -> outcome (list Byte.byte).
Variable dcmjsWrite : gmap string (Element E) -> outcome (list Byte.byte).
Variable today : string.
Variable timeOfDay : string.

Local Abbreviation series_run :=
  (writeImageAsDicomSeries Date_now random_million toFixed6 gdcmWriteImage).
Local Abbreviation dcmjs_run :=
  (writeImageAsDicomSeriesWithDcmjs Date_now random_million dcmjsWrite today
     timeOfDay).
Local Abbreviation uid := (uid_at Date_now random_million).

(** The defaults of [writeImageAsDicomSeries] draw at most one identifier. *)
Lemma series_options_run (options : Options.t) (w : World E) :
  exists o t0,
    series_options Date_now random_million options w
    = (Ok o, {| uid_calls := t0; encoder_calls := encoder_calls w |})
    /\ (uid_calls w <= t0)%nat
    /\ Options.seriesInstanceUID o
       = Some (default (uid (uid_calls w)) (Options.seriesInstanceUID options))
    /\ Options.instanceNumberStart o
       = Some (default 1 (Options.instanceNumberStart options)).
Proof.
  unfold series_options, bind, ret, generateUID.
  destruct (Options.seriesInstanceUID options) as [u|]; destruct w as [t calls];
    eexists _, _; (split; [reflexivity|]); simpl; repeat split; lia.
Qed.

(** The calls of the GDCM writer in a run of [writeImageAsDicomSeries]. *)
Lemma writeImageAsDicomSeries_chain (image3D : Image E) (options : Options.t)
    (w : World E) :
  exists cs t0,
    encoder_calls (series_run image3D options w).2 = encoder_calls w ++ cs
    /\ (uid_calls w <= t0)%nat
    /\ chain
         (turn_calls Date_now random_million
            (series_value Date_now random_million
               (default ∅ (metadata image3D))
               (Some (default (uid (uid_calls w))
                        (Options.seriesInstanceUID options))))
            (fun i =>
               VString
                 (pretty
                    (i + or_one
                           (Some (default 1
                                    (Options.instanceNumberStart options)))))))
         0 t0 cs (uid_calls (series_run image3D options w).2)
    /\ (forall files,
          (series_run image3D options w).1 = Ok files ->
          dimension (imageType image3D) = 3
          /\ length cs = loop_turns (size image3D !! 2%nat)
          /\ length files = loop_turns (size image3D !! 2%nat)).
Proof.
  unfold writeImageAsDicomSeries.
  destruct (decide (dimension (imageType image3D) = 3)) as [Hdim|Hdim].
  - destruct (series_options_run options w)
      as (o & t0 & Hopts & Ht0 & Huid & Hstart).
    unfold bind. rewrite Hopts.
    destruct (slice_loop_chain _ _ (loop_turns (size image3D !! 2%nat))
                (write_series_slice_turn Date_now random_million toFixed6
                   gdcmWriteImage image3D o
                   (to_integer (size image3D !! 2%nat)))
                0 [] {| uid_calls := t0; encoder_calls := encoder_calls w |})
      as (cs & Hcalls & Hchain & _ & Hresult).
    rewrite Huid, Hstart in Hchain.
    exists cs, t0. split; [exact Hcalls|]. split; [exact Ht0|].
    split; [exact Hchain|].
    intros files Hfiles. destruct (Hresult files Hfiles) as [H1 H2].
    simpl in H2. auto.
  - exists [], (uid_calls w). unfold throw. simpl. rewrite app_nil_r.
    split; [reflexivity|]. split; [lia|]. split; [apply chain_nil; lia|].
    intros files H. discriminate H.
Qed.

(** The calls of dcmjs in a run of [writeImageAsDicomSeriesWithDcmjs]. *)
Lemma writeImageAsDicomSeriesWithDcmjs_chain (image3D : Image E)
    (options : Options.t) (w : World E) :
  exists cs,
    encoder_calls (dcmjs_run image3D options w).2 = encoder_calls w ++ cs
    /\ chain
         (turn_calls Date_now random_million
            (fun _ => uid (S (uid_calls w)))
            (fun i =>
               VInteger (i + default 1 (Options.instanceNumberStart options))))
         0 (S (S (uid_calls w))) cs
         (uid_calls (dcmjs_run image3D options w).2)
    /\ (forall files,
          (dcmjs_run image3D options w).1 = Ok files ->
          length cs = loop_turns (size image3D !! 2%nat)
          /\ length files = loop_turns (size image3D !! 2%nat)).
Proof.
  unfold writeImageAsDicomSeriesWithDcmjs, bind, generateUID.
  cbn [uid_calls encoder_calls].
  destruct (slice_loop_chain _ _ (loop_turns (size image3D !! 2%nat))
              (write_dcmjs_slice_turn Date_now random_million dcmjsWrite
                 today timeOfDay image3D options (uid (uid_calls w))
                 (uid (S (uid_calls w))))
              0 []
              {| uid_calls := S (S (uid_calls w));
                 encoder_calls := encoder_calls w |})
    as (cs & Hcalls & Hchain & _ & Hresult).
  exists cs. split; [exact Hcalls|]. split; [exact Hchain|].
  intros files Hfiles. destruct (Hresult files Hfiles) as [H1 H2].
  simpl in H2. auto.
Qed.

(** When the volume has a typed array and the encoder accepts every slice,
    [writeImageAsDicomSeries] returns its files. *)
Lemma writeImageAsDicomSeries_returns (image3D : Image E) (a : list E)
    (options : Options.t) (w : World E) :
  dimension (imageType image3D) = 3 ->
  data image3D = TypedArray a ->
  (forall slice2D filename useCompression,
     exists bytes, gdcmWriteImage slice2D filename useCompression = Ok bytes) ->
  exists files,
    (writeImageAsDicomSeries Date_now random_million toFixed6 gdcmWriteImage
       image3D options w).1 = Ok files.
Proof.
  intros Hdim Hdata Haccept. unfold writeImageAsDicomSeries.
  destruct (decide (dimension (imageType image3D) = 3)); [|contradiction].
  destruct (series_options_run options w) as (o & t0 & Hopts & _).
  unfold bind. rewrite Hopts.
  apply slice_loop_succeeds. intros i w0.
  destruct (extractSlice_fields image3D i _ (sliceData_typed image3D i a Hdata))
    as (slice2D & Hslice & _ & Horigin & Hz & _).
  destruct (createDicomMetadataForSlice_run Date_now random_million toFixed6
              (metadata image3D) i (to_integer (size image3D !! 2%nat))
              slice2D (metadata_options o) w0 _ _ _
              ltac:(rewrite Horigin; reflexivity)
              ltac:(rewrite Horigin; reflexivity) Hz)
    as (md & s & Hrun & _).
  unfold write_series_slice, bind, lift. rewrite Hslice, Hrun.
  unfold call_encoder, ret.
  match goal with
  | |- context [gdcmWriteImage ?x ?y ?z] =>
      destruct (Haccept x y z) as [bytes ->]
  end.
  eexists. reflexivity.
Qed.

(** When the volume has a typed array and dcmjs accepts every dataset,
    [writeImageAsDicomSeriesWithDcmjs] returns its files. *)
Lemma writeImageAsDicomSeriesWithDcmjs_returns (image3D : Image E)
    (a : list E) (options : Options.t) (w : World E) :
  data image3D = TypedArray a ->
  (forall entries, exists bytes, dcmjsWrite entries = Ok bytes) ->
  exists files,
    (writeImageAsDicomSeriesWithDcmjs Date_now random_million dcmjsWrite today
       timeOfDay image3D options w).1 = Ok files.
Proof.
  intros Hdata Haccept.
  unfold writeImageAsDicomSeriesWithDcmjs, bind, generateUID.
  apply slice_loop_succeeds. intros i w0.
  destruct (extractSlice_fields image3D i _ (sliceData_typed image3D i a Hdata))
    as (slice2D & Hslice & Hpixels & _).
  unfold write_dcmjs_slice, bind, lift, generateUID, writeDicomSlice.
  rewrite Hslice. unfold bind, lift.
  erewrite dataset_ok by (unfold data_buffer; rewrite Hpixels; reflexivity).
  unfold call_encoder, ret.
  match goal with
  | |- context [dcmjsWrite ?x] => destruct (Haccept x) as [bytes ->]
  end.
  eexists. reflexivity.
Qed.

End RunFacts.

(** ** Runs of the two writers *)

Section ChainFacts.
Context {E : Type}.
Variable Date_now : nat -> Z.
Variable random_million : nat -> Z.
Variable series : nat -> string.
Variable number : Z -> DicomValue E.

Local Abbreviation uid := (uid_at Date_now random_million).
Local Abbreviation turn := (turn_calls Date_now random_million series number).

Lemma chain_sop_bounds i t (cs : list (EncoderCall E)) t' :
  chain turn i t cs t' ->
  Forall (fun c =>
            exists s : nat,
              (t <= s < t')%nat /\ call_sop_uid c = Some (VString (uid s)))
    cs.
Proof.
  induction 1 as [|i t t1 t' c cs (s & Hs & Hsop & _) Hle Hrest IH].
  - constructor.
  - apply chain_le in Hrest as Hle'. constructor.
    + exists s. split; [lia|exact Hsop].
    + eapply Forall_impl; [exact IH|].
      intros c' (s' & Hs' & Hsop'). exists s'. split; [lia|exact Hsop'].
Qed.

(** Readings that never repeat give instance identifiers that never
    repeat. *)
Lemma chain_sop_NoDup i t (cs : list (EncoderCall E)) t' :
  chain turn i t cs t' ->
  forall first,
    (first <= t)%nat ->
    fresh_readings Date_now random_million first t' ->
    NoDup (call_sop_uid <$> cs).
Proof.
  induction 1 as [|i t t1 t' c cs (s & Hs & Hsop & _) Hle Hrest IH];
    intros first Hfirst Hfresh.
  - constructor.
  - rewrite fmap_cons. constructor; [|apply (IH first); [lia|exact Hfresh]].
    intros Hin. apply list_elem_of_fmap in Hin as (c' & Heq & Hc').
    pose proof (chain_sop_bounds _ _ _ _ Hrest) as Hbounds.
    rewrite Forall_forall in Hbounds.
    destruct (Hbounds c' Hc') as (s' & Hs' & Hsop').
    rewrite Hsop, Hsop' in Heq.
    assert (uid s = uid s') as Huid.
    { apply (f_equal (fun o => match o with
                               | Some (VString u) => u
                               | _ => ""
                               end)) in Heq.
      exact Heq. }
    apply uid_of_inj in Huid as [Hnow Hrandom].
    apply chain_le in Hrest as Hend.
    assert (s = s') by (apply Hfresh; [lia|lia|congruence]). lia.
Qed.

Lemma chain_series_constant i t (cs : list (EncoderCall E)) t' (u : string) :
  (forall k, series k = u) ->
  chain turn i t cs t' ->
  Forall (fun c => call_series_uid c = Some (VString u)) cs.
Proof.
  intros Hconstant.
  induction 1 as [|i t t1 t' c cs (s & _ & _ & Hseries & _) Hle Hrest IH];
    constructor; [|exact IH].
  rewrite Hseries, Hconstant. reflexivity.
Qed.

Lemma chain_instance_number i t (cs : list (EncoderCall E)) t' (j : nat) c :
  chain turn i t cs t' -> cs !! j = Some c ->
  call_instance_number c = Some (number (i + Z.of_nat j)).
Proof.
  intros Hchain Hj.
  destruct (chain_lookup _ _ _ _ _ _ _ Hchain Hj)
    as (t1 & t2 & _ & _ & s & _ & _ & _ & Hnumber).
  exact Hnumber.
Qed.

End ChainFacts.

(** ** Runs of the two writers: the claims *)

Section RunTheorems.
Context {E : Type}.
Variable Date_now : nat -> Z.
Variable random_million : nat -> Z.
Variable toFixed6 : float -> string.
Variable gdcmWriteImage : Image E -> string -> bool -> outcome (list Byte.byte).
Variable dcmjsWrite : gmap string (Element E) -> outcome (list Byte.byte).
Variable today : string.
Variable timeOfDay : string.

Local Abbreviation series_run :=
  (writeImageAsDicomSeries Date_now random_million toFixed6 gdcmWriteImage).
Local Abbreviation dcmjs_run :=
  (writeImageAsDicomSeriesWithDcmjs Date_now random_million dcmjsWrite today
     timeOfDay).
Local Abbreviation uid := (uid_at Date_now random_million).

Lemma truthy_option_Some (s : string) :
  truthy_string s = true -> truthy_option (Some s) = Some s.
Proof. intros H. unfold truthy_option. rewrite H. reflexivity. Qed.

(** C3 (the code at the input where it departs from the claim). An image
    whose dimension is not 3 makes [writeImageAsDicomSeries] throw before
    anything else happens: no identifier is drawn and no encoder is called.
    [writeImageAsDicomSeriesWithDcmjs] has no such check: given a 2D image,
    whose [size] has no third entry, it draws its two identifiers and
    returns an empty list of files, without failing. *)
Theorem dimension_check (image3D : Image E) (options : Options.t)
    (w : World E) :
  (dimension (imageType image3D) <> 3 ->
   series_run image3D options w = (Throw (Error "Input image must be 3D"), w))
  /\ (size image3D !! 2%nat = None ->
      dcmjs_run image3D options w
      = (Ok [],
         {| uid_calls := S (S (uid_calls w));
            encoder_calls := encoder_calls w |})).
Proof.
  split.
  - intros Hdim. unfold writeImageAsDicomSeries.
    destruct (decide (dimension (imageType image3D) = 3)); [contradiction|].
    reflexivity.
  - intros Hsize. unfold writeImageAsDicomSeriesWithDcmjs, bind, generateUID.
    rewrite Hsize. reflexivity.
Qed.

(** C4 (as amended). In a run of [writeImageAsDicomSeriesWithDcmjs] every
    dataset carries the same series identifier; in a run of
    [writeImageAsDicomSeries] every metadata map carries the same series
    identifier when the caller's [seriesInstanceUID] is not the empty string
    or the volume's metadata already has one.  In both, and whatever the
    caller's [seriesInstanceUID] is, each dictionary has an instance
    identifier, and the instance identifiers are pairwise distinct provided
    no two calls of [generateUID] made during the run read the same time and
    the same random number.  A run that returns its files produced one
    dictionary per slice. *)
Theorem run_identifiers (image3D : Image E) (options : Options.t)
    (w : World E) :
  (exists cs series,
     encoder_calls (dcmjs_run image3D options w).2 = encoder_calls w ++ cs
     /\ Forall (fun c => call_series_uid c = Some (VString series)) cs
     /\ Forall (fun c => is_Some (call_sop_uid c)) cs
     /\ (fresh_readings Date_now random_million (uid_calls w)
           (uid_calls (dcmjs_run image3D options w).2) ->
         NoDup (call_sop_uid <$> cs))
     /\ (forall files,
           (dcmjs_run image3D options w).1 = Ok files ->
           length cs = loop_turns (size image3D !! 2%nat)))
  /\ (exists cs,
        encoder_calls (series_run image3D options w).2 = encoder_calls w ++ cs
        /\ (Options.seriesInstanceUID options <> Some ""
            \/ is_Some (default ∅ (metadata image3D) !! "0020|000e") ->
            exists series,
              Forall (fun c => call_series_uid c = Some (VString series)) cs)
        /\ Forall (fun c => is_Some (call_sop_uid c)) cs
        /\ (fresh_readings Date_now random_million (uid_calls w)
              (uid_calls (series_run image3D options w).2) ->
            NoDup (call_sop_uid <$> cs))
        /\ (forall files,
              (series_run image3D options w).1 = Ok files ->
              length cs = loop_turns (size image3D !! 2%nat))).
Proof.
  split.
  - destruct (writeImageAsDicomSeriesWithDcmjs_chain Date_now random_million
                dcmjsWrite today timeOfDay image3D options w)
      as (cs & Hcalls & Hchain & Hresult).
    exists cs, (uid (S (uid_calls w))). split; [exact Hcalls|].
    split; [exact (chain_series_constant _ _ _ _ _ _ _ _ _
                     (fun _ => eq_refl) Hchain)|].
    split.
    { eapply Forall_impl; [exact (chain_sop_bounds _ _ _ _ _ _ _ _ Hchain)|].
      intros c (s & _ & ->). eexists. reflexivity. }
    split.
    { intros Hfresh.
      refine (chain_sop_NoDup _ _ _ _ _ _ _ _ Hchain _ _ Hfresh). lia. }
    intros files Hfiles. exact (proj1 (Hresult files Hfiles)).
  - destruct (writeImageAsDicomSeries_chain Date_now random_million toFixed6
                gdcmWriteImage image3D options w)
      as (cs & t0 & Hcalls & Ht0 & Hchain & Hresult).
    exists cs. split; [exact Hcalls|]. split.
    { intros Hsame.
      exists (series_value Date_now random_million
                (default ∅ (metadata image3D))
                (Some (default (uid (uid_calls w))
                         (Options.seriesInstanceUID options))) O).
      refine (chain_series_constant _ _ _ _ _ _ _ _ _ _ Hchain).
      intros k. unfold series_value.
      destruct (default ∅ (metadata image3D) !! "0020|000e") as [v|] eqn:Hbase;
        [reflexivity|].
      destruct Hsame as [Hsame|[v Hv]]; [|discriminate Hv].
      rewrite truthy_option_Some; [reflexivity|].
      destruct (Options.seriesInstanceUID options) as [u|].
      - change (truthy_string u = true). unfold truthy_string.
        destruct (decide (u = "")) as [->|_]; [contradiction|reflexivity].
      - apply uid_of_truthy. }
    split.
    { eapply Forall_impl; [exact (chain_sop_bounds _ _ _ _ _ _ _ _ Hchain)|].
      intros c (s & _ & ->). eexists. reflexivity. }
    split.
    { intros Hfresh.
      exact (chain_sop_NoDup _ _ _ _ _ _ _ _ Hchain _ Ht0 Hfresh). }
    intros files Hfiles. exact (proj1 (proj2 (Hresult files Hfiles))).
Qed.

(** C6 (as amended). For a slice with an origin and a [zPosition],
    [createDicomMetadataForSlice] returns a map in which: the series
    description is the caller's whenever the caller gave a non-empty one,
    whatever the base map holds, and the base map's otherwise; the series
    number is the caller's whenever the caller gave one, whatever the base
    map holds, and the base map's otherwise; the modality is the base map's
    when it has one, and otherwise the caller's non-empty one.  Only the
    modality is never overwritten. *)
Theorem descriptive_attributes (base : option (gmap string string))
    (sliceIndex totalSlices : Z) (slice2D : Image E) (options : Options.t)
    (w : World E) (x y z : float) :
  origin slice2D !! 0%nat = Some x ->
  origin slice2D !! 1%nat = Some y ->
  zPosition slice2D = Some z ->
  exists entries w1,
    createDicomMetadataForSlice Date_now random_million toFixed6 base
      sliceIndex totalSlices slice2D options w
    = (Ok entries, w1)
    /\ entries !! "0008|103e"
       = match truthy_option (Options.seriesDescription options) with
         | Some description => Some description
         | None => default ∅ base !! "0008|103e"
         end
    /\ entries !! "0020|0011"
       = match Options.seriesNumber options with
         | Some number => Some (pretty number)
         | None => default ∅ base !! "0020|0011"
         end
    /\ entries !! "0008|0060"
       = match default ∅ base !! "0008|0060" with
         | Some m => Some m
         | None => truthy_option (Options.modality options)
         end.
Proof.
  intros Hx Hy Hz.
  destruct (createDicomMetadataForSlice_run Date_now random_million toFixed6
              base sliceIndex totalSlices slice2D options w x y z Hx Hy Hz)
    as (entries & s & Hrun & _ & _ & _ & _ & Hdescription & Hnumber & Hmodality).
  exists entries. eexists. split; [exact Hrun|]. auto.
Qed.

(** The instance numbers of a run, whatever the start: slice [i] is numbered
    [i + (start || 1)] by [writeImageAsDicomSeries] and [i + start] by
    [writeImageAsDicomSeriesWithDcmjs], where [start] is the caller's
    [instanceNumberStart], or 1 when the caller gave none. *)
Lemma run_instance_numbers (image3D : Image E) (options : Options.t)
    (w : World E) :
  (exists cs,
     encoder_calls (series_run image3D options w).2 = encoder_calls w ++ cs
     /\ forall (i : nat) c,
          cs !! i = Some c ->
          call_instance_number c
          = Some (VString
                    (pretty
                       (Z.of_nat i
                        + or_one
                            (Some (default 1
                                     (Options.instanceNumberStart options)))))))
  /\ (exists cs,
        encoder_calls (dcmjs_run image3D options w).2 = encoder_calls w ++ cs
        /\ forall (i : nat) c,
             cs !! i = Some c ->
             call_instance_number c
             = Some (VInteger
                       (Z.of_nat i
                        + default 1 (Options.instanceNumberStart options)))).
Proof.
  split.
  - destruct (writeImageAsDicomSeries_chain Date_now random_million toFixed6
                gdcmWriteImage image3D options w)
      as (cs & t0 & Hcalls & _ & Hchain & _).
    exists cs. split; [exact Hcalls|]. intros i c Hi.
    rewrite (chain_instance_number _ _ _ _ _ _ _ _ _ _ Hchain Hi).
    reflexivity.
  - destruct (writeImageAsDicomSeriesWithDcmjs_chain Date_now random_million
                dcmjsWrite today timeOfDay image3D options w)
      as (cs & Hcalls & Hchain & _).
    exists cs. split; [exact Hcalls|]. intros i c Hi.
    rewrite (chain_instance_number _ _ _ _ _ _ _ _ _ _ Hchain Hi).
    reflexivity.
Qed.

(** C9. Whatever the slice and the metadata, and so whatever the modality
    and the volume, the dataset that [writeDicomSlice] hands to dcmjs, whose
    encoding is the record it returns, holds the SOP class of MR image
    storage, the patient name Anonymous and the patient identifier ANON123;
    and so does every dataset of every run of
    [writeImageAsDicomSeriesWithDcmjs]. *)
Theorem writeDicomSlice_fixed_identity (image3D : Image E)
    (options : Options.t) (w : World E) :
  (forall (slice2D : Image E) (metadata : SliceMetadata.t) (pixels : list E),
     data_buffer slice2D = Ok pixels ->
     exists d,
       dataset slice2D metadata = Ok d
       /\ (forall w0,
             writeDicomSlice dcmjsWrite slice2D metadata w0
             = (dcmjsWrite d,
                {| uid_calls := uid_calls w0;
                   encoder_calls := encoder_calls w0 ++ [DcmjsWrite d] |}))
       /\ fixed_identity d)
  /\ (exists cs,
        encoder_calls (dcmjs_run image3D options w).2 = encoder_calls w ++ cs
        /\ Forall call_fixed_identity cs
        /\ (forall files,
              (dcmjs_run image3D options w).1 = Ok files ->
              length cs = loop_turns (size image3D !! 2%nat))).
Proof.
  split.
  - intros slice2D metadata pixels Hbuffer.
    eexists. split; [exact (dataset_ok _ _ _ Hbuffer)|]. split.
    + intros w0. unfold writeDicomSlice, bind, lift.
      rewrite (dataset_ok _ _ _ Hbuffer). reflexivity.
    + apply dataset_entries_fixed_identity.
  - unfold writeImageAsDicomSeriesWithDcmjs, bind, generateUID.
    cbn [uid_calls encoder_calls].
    destruct (slice_loop_chain _ _ (loop_turns (size image3D !! 2%nat))
                (write_dcmjs_slice_identity Date_now random_million dcmjsWrite
                   today timeOfDay image3D options (uid (uid_calls w))
                   (uid (S (uid_calls w))))
                0 []
                {| uid_calls := S (S (uid_calls w));
                   encoder_calls := encoder_calls w |})
      as (cs & Hcalls & Hchain & _ & Hresult).
    exists cs. split; [exact Hcalls|]. split.
    + exact (chain_Forall _ _ _ _ _ _ (fun _ _ _ _ H => H) Hchain).
    + intros files Hfiles. exact (proj1 (Hresult files Hfiles)).
Qed.

(** C10. A start of 0, like a start left out, makes
    [createDicomMetadataForSlice] number slice [i] as [i + 1], so every
    dictionary of a run of [writeImageAsDicomSeries] with
    [instanceNumberStart] 0 has the instance number of its slice index plus
    one; in a run of [writeImageAsDicomSeriesWithDcmjs] with
    [instanceNumberStart] 0 the dataset of slice [i] has instance number
    [i + 0]. *)
Theorem instance_number_start_zero (image3D : Image E) (options : Options.t)
    (w : World E) :
  Options.instanceNumberStart options = Some 0 ->
  (exists cs,
     encoder_calls (series_run image3D options w).2 = encoder_calls w ++ cs
     /\ (forall (i : nat) c,
           cs !! i = Some c ->
           call_instance_number c = Some (VString (pretty (Z.of_nat i + 1))))
     /\ (forall files,
           (series_run image3D options w).1 = Ok files ->
           length cs = loop_turns (size image3D !! 2%nat)))
  /\ (exists cs,
        encoder_calls (dcmjs_run image3D options w).2 = encoder_calls w ++ cs
        /\ (forall (i : nat) c,
              cs !! i = Some c ->
              call_instance_number c = Some (VInteger (Z.of_nat i + 0)))
        /\ (forall files,
              (dcmjs_run image3D options w).1 = Ok files ->
              length cs = loop_turns (size image3D !! 2%nat)))
  /\ (forall base (i total : Z) (slice2D : Image E) (o : Options.t)
        (w0 : World E) (x y z : float),
        origin slice2D !! 0%nat = Some x ->
        origin slice2D !! 1%nat = Some y ->
        zPosition slice2D = Some z ->
        Options.instanceNumberStart o = Some 0
        \/ Options.instanceNumberStart o = None ->
        exists entries w1,
          createDicomMetadataForSlice Date_now random_million toFixed6 base
            i total slice2D o w0
          = (Ok entries, w1)
          /\ entries !! "0020|0013" = Some (pretty (i + 1))).
Proof.
  intros Hstart. split; [|split].
  - destruct (writeImageAsDicomSeries_chain Date_now random_million toFixed6
                gdcmWriteImage image3D options w)
      as (cs & t0 & Hcalls & _ & Hchain & Hresult).
    rewrite Hstart in Hchain.
    exists cs. split; [exact Hcalls|]. split.
    + intros i c Hi.
      rewrite (chain_instance_number _ _ _ _ _ _ _ _ _ _ Hchain Hi).
      reflexivity.
    + intros files Hfiles. exact (proj1 (proj2 (Hresult files Hfiles))).
  - destruct (writeImageAsDicomSeriesWithDcmjs_chain Date_now random_million
                dcmjsWrite today timeOfDay image3D options w)
      as (cs & Hcalls & Hchain & Hresult).
    rewrite Hstart in Hchain.
    exists cs. split; [exact Hcalls|]. split.
    + intros i c Hi.
      rewrite (chain_instance_number _ _ _ _ _ _ _ _ _ _ Hchain Hi).
      simpl. do 2 f_equal; lia.
    + intros files Hfiles. exact (proj1 (Hresult files Hfiles)).
  - intros base i total slice2D o w0 x y z Hx Hy Hz Hfalsy.
    destruct (createDicomMetadataForSlice_run Date_now random_million toFixed6
                base i total slice2D o w0 x y z Hx Hy Hz)
      as (entries & s & Hrun & _ & _ & Hnumber & _).
    exists entries. eexists. split; [exact Hrun|].
    rewrite Hnumber. destruct Hfalsy as [-> | ->]; reflexivity.
Qed.

End RunTheorems.

(** ** The theorems at concrete inputs *)

Lemma ticking_clock_fresh (first last : nat) :
  fresh_readings ticking_clock same_random first last.
Proof.
  intros j k _ _ H. apply (f_equal fst) in H. unfold ticking_clock in H.
  simpl in H. lia.
Qed.

Lemma dimension_check_witness :
  writeImageAsDicomSeries ticking_clock same_random six_zeros gdcm_accepts
    flat_image Options.empty new_world
  = (Throw (Error "Input image must be 3D"), new_world)
  /\ writeImageAsDicomSeriesWithDcmjs ticking_clock same_random dcmjs_accepts
       "20240101" "120000" flat_image Options.empty new_world
     = (Ok [], {| uid_calls := 2; encoder_calls := [] |}).
Proof.
  destruct (dimension_check ticking_clock same_random six_zeros gdcm_accepts
              dcmjs_accepts "20240101" "120000" flat_image Options.empty
              new_world) as [Hseries Hdcmjs].
  split.
  - apply Hseries. simpl. lia.
  - apply Hdcmjs. reflexivity.
Defined.

Lemma run_identifiers_witness :
  (exists cs series,
     encoder_calls
       (writeImageAsDicomSeriesWithDcmjs ticking_clock same_random
          dcmjs_accepts "20240101" "120000" turned_volume Options.empty
          new_world).2 = cs
     /\ Forall (fun c => call_series_uid c = Some (VString series)) cs
     /\ NoDup (call_sop_uid <$> cs)
     /\ length cs = 2%nat)
  /\ (exists cs series,
        encoder_calls
          (writeImageAsDicomSeries ticking_clock same_random six_zeros
             gdcm_accepts turned_volume Options.empty new_world).2 = cs
        /\ Forall (fun c => call_series_uid c = Some (VString series)) cs
        /\ NoDup (call_sop_uid <$> cs)
        /\ length cs = 2%nat)
  /\ (exists cs,
        encoder_calls
          (writeImageAsDicomSeries ticking_clock same_random six_zeros
             gdcm_accepts turned_volume empty_series_uid new_world).2 = cs
        /\ Forall (fun c => is_Some (call_sop_uid c)) cs
        /\ NoDup (call_sop_uid <$> cs)
        /\ length cs = 2%nat).
Proof.
  destruct (run_identifiers ticking_clock same_random six_zeros gdcm_accepts
              dcmjs_accepts "20240101" "120000" turned_volume Options.empty
              new_world) as [Hdcmjs Hseries].
  destruct (run_identifiers ticking_clock same_random six_zeros gdcm_accepts
              dcmjs_accepts "20240101" "120000" turned_volume
              empty_series_uid new_world) as [_ Hempty].
  split; [|split].
  - destruct Hdcmjs as (cs & series & Hcalls & Hsame & _ & Hdistinct & Hlen).
    exists cs, series. split; [exact Hcalls|]. split; [exact Hsame|].
    split; [exact (Hdistinct (ticking_clock_fresh _ _))|].
    eapply Hlen. reflexivity.
  - destruct Hseries as (cs & Hcalls & Hsame & _ & Hdistinct & Hlen).
    destruct Hsame as [series Hsame]; [left; discriminate|].
    exists cs, series. split; [exact Hcalls|]. split; [exact Hsame|].
    split; [exact (Hdistinct (ticking_clock_fresh _ _))|].
    eapply Hlen. reflexivity.
  - destruct Hempty as (cs & Hcalls & _ & Hsop & Hdistinct & Hlen).
    exists cs. split; [exact Hcalls|]. split; [exact Hsop|].
    split; [exact (Hdistinct (ticking_clock_fresh _ _))|].
    eapply Hlen. reflexivity.
Defined.

(** C4 (as stated) fails. When the clock does not advance and the random
    generator repeats itself between two calls of [generateUID], the two
    datasets of a two-slice volume carry the same instance identifier.  And
    when the caller passes an empty [seriesInstanceUID],
    [writeImageAsDicomSeries] generates a series identifier for each slice:
    with a clock that advances, the two maps carry different ones. *)
Lemma run_identifiers_counterexample :
  call_sop_uid <$>
    encoder_calls
      (writeImageAsDicomSeriesWithDcmjs stuck_clock same_random dcmjs_accepts
         "20240101" "120000" turned_volume Options.empty new_world).2
  = [Some (VString "1.2.826.0.1.3680043.8.498.1700000000000.42");
     Some (VString "1.2.826.0.1.3680043.8.498.1700000000000.42")]
  /\ call_series_uid <$>
       encoder_calls
         (writeImageAsDicomSeries ticking_clock same_random six_zeros
            gdcm_accepts turned_volume empty_series_uid new_world).2
     = [Some (VString "1.2.826.0.1.3680043.8.498.1700000000000.42");
        Some (VString "1.2.826.0.1.3680043.8.498.1700000000002.42")].
Proof. split; vm_compute; reflexivity. Qed.

Lemma writeDicomSlice_fixed_identity_witness :
  (exists d,
     dataset small_slice small_metadata = Ok d /\ fixed_identity d)
  /\ (exists cs,
        encoder_calls
          (writeImageAsDicomSeriesWithDcmjs ticking_clock same_random
             dcmjs_accepts "20240101" "120000" turned_volume Options.empty
             new_world).2 = cs
        /\ Forall call_fixed_identity cs
        /\ length cs = 2%nat).
Proof.
  destruct (writeDicomSlice_fixed_identity ticking_clock same_random
              dcmjs_accepts "20240101" "120000" turned_volume Options.empty
              new_world) as [Hslice (cs & Hcalls & Hidentity & Hlen)].
  split.
  - destruct (Hslice small_slice small_metadata [1; 2; 3; 4] eq_refl)
      as (d & Hd & _ & Hfixed).
    exists d. split; [exact Hd|exact Hfixed].
  - exists cs. split; [exact Hcalls|]. split; [exact Hidentity|].
    eapply Hlen. reflexivity.
Defined.

Lemma descriptive_attributes_witness :
  exists entries w1,
    createDicomMetadataForSlice ticking_clock same_random six_zeros
      (Some described_base) 0 1 small_slice describing_options new_world
    = (Ok entries, w1)
    /\ entries !! "0008|103e" = Some "New description"
    /\ entries !! "0020|0011" = Some "3"
    /\ entries !! "0008|0060" = Some "CT".
Proof.
  destruct (descriptive_attributes ticking_clock same_random six_zeros
              (Some described_base) 0 1 small_slice describing_options
              new_world 0%float 0%float 0%float eq_refl eq_refl eq_refl)
    as (entries & w1 & Hrun & Hdescription & Hnumber & Hmodality).
  exists entries, w1. split; [exact Hrun|].
  split; [exact Hdescription|]. split; [exact Hnumber|exact Hmodality].
Defined.

(** C6 (as stated) fails: the base map holds a series description and a
    series number, the caller supplies others, and the map that is built
    holds the caller's. *)
Lemma descriptive_attributes_counterexample :
  exists entries w1,
    createDicomMetadataForSlice ticking_clock same_random six_zeros
      (Some described_base) 0 1 small_slice describing_options new_world
    = (Ok entries, w1)
    /\ described_base !! "0008|103e" = Some "Original description"
    /\ entries !! "0008|103e" = Some "New description"
    /\ described_base !! "0020|0011" = Some "7"
    /\ entries !! "0020|0011" = Some "3".
Proof.
  eexists _, _. split; [reflexivity|]. repeat split; vm_compute; reflexivity.
Qed.

(** C7 (the code at the input where it departs from the claim). With
    [instanceNumberStart] 0, the two dictionaries that
    [writeImageAsDicomSeries] builds for a two-slice volume are numbered 1
    and 2, not 0 and 1; the datasets of [writeImageAsDicomSeriesWithDcmjs]
    are numbered 0 and 1. *)
Theorem instance_numbers_from_zero :
  call_instance_number <$>
    encoder_calls
      (writeImageAsDicomSeries ticking_clock same_random six_zeros
         gdcm_accepts turned_volume start_at_zero new_world).2
  = [Some (VString "1"); Some (VString "2")]
  /\ call_instance_number <$>
       encoder_calls
         (writeImageAsDicomSeriesWithDcmjs ticking_clock same_random
            dcmjs_accepts "20240101" "120000" turned_volume start_at_zero
            new_world).2
     = [Some (VInteger 0); Some (VInteger 1)].
Proof. split; vm_compute; reflexivity. Qed.

Lemma instance_number_start_zero_witness :
  (exists cs,
     encoder_calls
       (writeImageAsDicomSeries ticking_clock same_random six_zeros
          gdcm_accepts turned_volume start_at_zero new_world).2 = cs
     /\ (forall (i : nat) c,
           cs !! i = Some c ->
           call_instance_number c = Some (VString (pretty (Z.of_nat i + 1))))
     /\ length cs = 2%nat)
  /\ (exists cs,
        encoder_calls
          (writeImageAsDicomSeriesWithDcmjs ticking_clock same_random
             dcmjs_accepts "20240101" "120000" turned_volume start_at_zero
             new_world).2 = cs
        /\ (forall (i : nat) c,
              cs !! i = Some c ->
              call_instance_number c = Some (VInteger (Z.of_nat i + 0)))
        /\ length cs = 2%nat).
Proof.
  destruct (instance_number_start_zero ticking_clock same_random six_zeros
              gdcm_accepts dcmjs_accepts "20240101" "120000" turned_volume
              start_at_zero new_world eq_refl)
    as ((cs & Hcalls & Hnumbers & Hlen) & (cs' & Hcalls' & Hnumbers' & Hlen')
        & _).
  split.
  - exists cs. split; [exact Hcalls|]. split; [exact Hnumbers|].
    eapply Hlen. reflexivity.
  - exists cs'. split; [exact Hcalls'|]. split; [exact Hnumbers'|].
    eapply Hlen'. reflexivity.
Defined.


(** * Further properties *)

(** ** The slabs of a volume *)

Section SlabFacts.
Context {E : Type}.
Implicit Types (image3D : Image E) (a : list E).

(** The slab of a volume of [w] x [h] voxels per slice and [c] components:
    what [slice] selects from the offset of the index on. *)
Lemma sliceData_sized image3D (sliceIndex : Z) a (w h : Z) :
  size image3D !! 0%nat = Some w ->
  size image3D !! 1%nat = Some h ->
  data image3D = TypedArray a ->
  sliceData image3D sliceIndex
  = Ok (typed_slice a
          (Some (sliceIndex * (w * h) * components (imageType image3D)))
          (Some (sliceIndex * (w * h) * components (imageType image3D)
                 + w * h * components (imageType image3D)))).
Proof.
  intros Hw Hh Hdata. rewrite (sliceData_typed image3D sliceIndex a Hdata).
  unfold sliceOffset, sliceLength, sliceSize. rewrite Hw, Hh. reflexivity.
Qed.

(** Slabs cut one after the other from the start of an array. *)
Lemma concat_slabs a (len count : nat) :
  concat ((fun i : nat => take len (drop (i * len) a)) <$> seq 0 count)
  = take (count * len) a.
Proof.
  induction count as [|count IH].
  - reflexivity.
  - rewrite seq_S, fmap_app, concat_app, IH. simpl.
    rewrite app_nil_r, take_take_drop. f_equal. lia.
Qed.

(** X1. The slices of a volume tile its buffer: for a volume of [w] x [h] x
    [d] voxels of [c] components whose typed array holds [w * h * d * c]
    elements, the pixel buffers of the slices 0, ..., [d - 1], one after the
    other, are the buffer of the volume. *)
Theorem slices_tile_volume image3D a (w h d c : Z) :
  size image3D !! 0%nat = Some w ->
  size image3D !! 1%nat = Some h ->
  components (imageType image3D) = c ->
  0 <= w -> 0 <= h -> 0 <= c -> 0 <= d ->
  data image3D = TypedArray a ->
  Z.of_nat (length a) = w * h * d * c ->
  exists slabs : list (list E),
    length slabs = Z.to_nat d
    /\ (forall (i : nat) pixels,
          slabs !! i = Some pixels ->
          exists slice2D,
            extractSlice image3D (Z.of_nat i) = Ok slice2D
            /\ data slice2D = TypedArray pixels)
    /\ concat slabs = a.
Proof.
  intros Hw Hh Hc Hw0 Hh0 Hc0 Hd0 Hdata Hlen.
  assert (0 <= w * h * c) as Hslice by (apply Z.mul_nonneg_nonneg; lia).
  set (len := Z.to_nat (w * h * c)).
  exists ((fun i : nat => take len (drop (i * len) a)) <$> seq 0 (Z.to_nat d)).
  split; [rewrite length_fmap, length_seq; reflexivity|]. split.
  - intros i pixels Hi.
    apply list_lookup_fmap_Some in Hi as (j & Hpixels & Hj).
    apply lookup_seq in Hj as [-> Hi]. simpl in Hpixels.
    pose proof (sliceData_sized image3D (Z.of_nat i) a w h Hw Hh Hdata) as Hslab.
    rewrite Hc in Hslab.
    assert (Z.of_nat i * (w * h) * c + w * h * c <= Z.of_nat (length a)) as Hend.
    { rewrite Hlen.
      replace (Z.of_nat i * (w * h) * c + w * h * c)
        with ((Z.of_nat i + 1) * (w * h * c)) by lia.
      replace (w * h * d * c) with (d * (w * h * c)) by lia.
      apply Z.mul_le_mono_nonneg_r; lia. }
    assert (0 <= Z.of_nat i * (w * h) * c) as Hstart.
    { replace (Z.of_nat i * (w * h) * c) with (Z.of_nat i * (w * h * c)) by lia.
      apply Z.mul_nonneg_nonneg; lia. }
    rewrite typed_slice_within in Hslab by lia.
    replace (Z.to_nat (Z.of_nat i * (w * h) * c)) with (i * len)%nat in Hslab
      by (unfold len; nia).
    fold len in Hslab. rewrite <- Hpixels in Hslab.
    destruct (extractSlice_fields image3D (Z.of_nat i) _ Hslab)
      as (slice2D & Hrun & Hdata' & _).
    exists slice2D. split; assumption.
  - rewrite concat_slabs. apply take_ge. unfold len. nia.
Qed.

(** X2. An index past the end, the index -1 and an index below [-d] give a
    slice without pixels: for a volume of [w] x [h] x [d] voxels of [c]
    components whose typed array holds [w * h * d * c] elements,
    [extractSlice] returns a slice whose pixel buffer is empty. *)
Theorem extractSlice_outside_is_empty image3D (sliceIndex : Z) a (w h d c : Z) :
  size image3D !! 0%nat = Some w ->
  size image3D !! 1%nat = Some h ->
  components (imageType image3D) = c ->
  0 <= w -> 0 <= h -> 0 <= c -> 0 <= d ->
  data image3D = TypedArray a ->
  Z.of_nat (length a) = w * h * d * c ->
  d <= sliceIndex \/ sliceIndex = -1 \/ sliceIndex < - d ->
  exists slice2D,
    extractSlice image3D sliceIndex = Ok slice2D
    /\ data slice2D = TypedArray [].
Proof.
  intros Hw Hh Hc Hw0 Hh0 Hc0 Hd0 Hdata Hlen Hindex.
  assert (0 <= w * h * c) as Hslice by (apply Z.mul_nonneg_nonneg; lia).
  pose proof (sliceData_sized image3D sliceIndex a w h Hw Hh Hdata) as Hslab.
  rewrite Hc in Hslab.
  assert (typed_slice a (Some (sliceIndex * (w * h) * c))
            (Some (sliceIndex * (w * h) * c + w * h * c)) = []) as Hempty.
  { unfold typed_slice, relative_index, to_integer. simpl.
    replace (sliceIndex * (w * h) * c) with (sliceIndex * (w * h * c)) by lia.
    replace (w * h * d * c) with (d * (w * h * c)) in Hlen by lia.
    set (len := w * h * c) in *.
    match goal with
    | |- take ?n _ = [] => assert (n = 0%nat) as ->; [|reflexivity]
    end.
    destruct Hindex as [Hpast|[-> |Hbelow]].
    - assert (d * len <= sliceIndex * len)
        by (apply Z.mul_le_mono_nonneg_r; lia).
      repeat case_match; lia.
    - repeat case_match; lia.
    - assert (sliceIndex * len + len <= - d * len).
      { replace (sliceIndex * len + len) with ((sliceIndex + 1) * len) by lia.
        apply Z.mul_le_mono_nonneg_r; lia. }
      repeat case_match; lia. }
  rewrite Hempty in Hslab.
  destruct (extractSlice_fields image3D sliceIndex _ Hslab)
    as (slice2D & Hrun & Hdata' & _).
  exists slice2D. split; assumption.
Qed.

(** X3. A negative index counts slabs from the end: for the same volume and
    an index [-k] with [2 <= k <= d], the pixels of the slice that
    [extractSlice] returns are those of the slice of index [d - k]. *)
Theorem extractSlice_negative_wraps image3D (k : Z) a (w h d c : Z) :
  size image3D !! 0%nat = Some w ->
  size image3D !! 1%nat = Some h ->
  components (imageType image3D) = c ->
  0 <= w -> 0 <= h -> 0 <= c ->
  data image3D = TypedArray a ->
  Z.of_nat (length a) = w * h * d * c ->
  2 <= k <= d ->
  exists wrapped inside pixels,
    extractSlice image3D (- k) = Ok wrapped
    /\ extractSlice image3D (d - k) = Ok inside
    /\ data wrapped = TypedArray pixels
    /\ data inside = TypedArray pixels.
Proof.
  intros Hw Hh Hc Hw0 Hh0 Hc0 Hdata Hlen Hk.
  assert (0 <= w * h * c) as Hslice by (apply Z.mul_nonneg_nonneg; lia).
  pose proof (sliceData_sized image3D (- k) a w h Hw Hh Hdata) as Hwrapped.
  pose proof (sliceData_sized image3D (d - k) a w h Hw Hh Hdata) as Hinside.
  rewrite Hc in Hwrapped, Hinside.
  assert (typed_slice a (Some (- k * (w * h) * c))
            (Some (- k * (w * h) * c + w * h * c))
          = typed_slice a (Some ((d - k) * (w * h) * c))
              (Some ((d - k) * (w * h) * c + w * h * c))) as Hsame.
  { unfold typed_slice, relative_index, to_integer. simpl.
    replace (- k * (w * h) * c) with (- k * (w * h * c)) by lia.
    replace ((d - k) * (w * h) * c) with ((d - k) * (w * h * c)) by lia.
    replace (w * h * d * c) with (d * (w * h * c)) in Hlen by lia.
    set (len := w * h * c) in *. rewrite Hlen.
    assert (0 <= (d - k) * len) by (apply Z.mul_nonneg_nonneg; lia).
    assert ((d - k) * len + len <= d * len) by nia.
    assert (k * len >= 2 * len) by nia.
    destruct (decide (len = 0)) as [Hzero|Hpositive].
    - rewrite Hzero. rewrite !Z.mul_0_r. reflexivity.
    - assert (- k * len < 0) by nia.
      assert (- k * len + len < 0) by nia.
      repeat case_match; try lia.
      f_equal; [f_equal; lia|f_equal; lia]. }
  rewrite Hsame in Hwrapped.
  destruct (extractSlice_fields image3D (- k) _ Hwrapped)
    as (wrapped & Hrun & Hdata' & _).
  destruct (extractSlice_fields image3D (d - k) _ Hinside)
    as (inside & Hrun' & Hdata'' & _).
  exists wrapped, inside. eexists. repeat split; eassumption.
Qed.

End SlabFacts.

(** ** File names *)

Lemma string_length_app (s1 s2 : string) :
  String.length (s1 +:+ s2) = (String.length s1 + String.length s2)%nat.
Proof.
  induction s1 as [|c s1 IH]; simpl; [reflexivity|].
  rewrite IH. reflexivity.
Qed.

Lemma string_app_inv_tail (s1 s2 tail : string) :
  s1 +:+ tail = s2 +:+ tail -> s1 = s2.
Proof.
  revert s2. induction s1 as [|c s1 IH]; intros [|c' s2] H.
  - reflexivity.
  - apply (f_equal String.length) in H.
    rewrite !string_length_app in H. simpl in H. lia.
  - apply (f_equal String.length) in H.
    rewrite !string_length_app in H. simpl in H. lia.
  - simpl in H. injection H as -> H. rewrite (IH _ H). reflexivity.
Qed.

Lemma prefix_append (s t : string) : String.prefix s (s +:+ t) = true.
Proof.
  induction s as [|c s IH]; [destruct t; reflexivity|].
  change (String.prefix (String c s) (String c (s +:+ t)) = true).
  cbn [String.prefix].
  destruct (Ascii.ascii_dec c c) as [_|Hc]; [exact IH|contradiction].
Qed.

Lemma prefix_skip (pattern s : string) :
  String.prefix pattern s = true ->
  s = pattern +:+ skip (String.length pattern) s.
Proof.
  revert s. induction pattern as [|c pattern IH]; intros s H.
  - destruct s; reflexivity.
  - destruct s as [|c' s]; [discriminate H|]. cbn [String.prefix] in H.
    destruct (Ascii.ascii_dec c c') as [<-|_]; [|discriminate H].
    change (String c s = String c (pattern +:+ skip (String.length pattern) s)).
    f_equal. exact (IH s H).
Qed.

(** [replace] either finds the pattern, and then puts the replacement in its
    place, or returns the string as it is. *)
Lemma replace_first_shape (pattern s : string) :
  if contains pattern s
  then exists before after,
         s = before +:+ pattern +:+ after
         /\ forall replacement,
              replace_first pattern replacement s
              = before +:+ replacement +:+ after
  else forall replacement, replace_first pattern replacement s = s.
Proof.
  induction s as [|c s IH].
  - cbn [contains replace_first].
    destruct (String.prefix pattern "") eqn:Hprefix; cbn [orb].
    + exists "", (skip (String.length pattern) "").
      split; [exact (prefix_skip _ _ Hprefix)|].
      intros replacement. reflexivity.
    + intros replacement. reflexivity.
  - cbn [contains replace_first].
    destruct (String.prefix pattern (String c s)) eqn:Hprefix; cbn [orb].
    + exists "", (skip (String.length pattern) (String c s)).
      split; [exact (prefix_skip _ _ Hprefix)|].
      intros replacement. reflexivity.
    + destruct (contains pattern s).
      * destruct IH as (before & after & Hs & Hreplace).
        exists (String c before), after. split; [rewrite Hs; reflexivity|].
        intros replacement. rewrite Hreplace. reflexivity.
      * intros replacement. rewrite IH. reflexivity.
Qed.

Lemma prefix_extend (pattern s t : string) :
  String.prefix pattern s = true -> String.prefix pattern (s +:+ t) = true.
Proof.
  revert s. induction pattern as [|c pattern IH]; intros s H.
  - destruct (s +:+ t); reflexivity.
  - destruct s as [|c' s]; [discriminate H|].
    change (String.prefix (String c pattern) (String c' (s +:+ t)) = true).
    cbn [String.prefix] in H |- *.
    destruct (Ascii.ascii_dec c c') as [_|_]; [exact (IH s H)|discriminate H].
Qed.

(** When the string holds the pattern, [replace] replaces its leftmost
    occurrence: the text before it holds no occurrence, and no occurrence
    starts earlier. *)
Lemma replace_first_leftmost (pattern s : string) :
  pattern <> "" ->
  contains pattern s = true ->
  exists before after,
    s = before +:+ pattern +:+ after
    /\ contains pattern before = false
    /\ (forall before' after',
          s = before' +:+ pattern +:+ after' ->
          (String.length before <= String.length before')%nat)
    /\ forall replacement,
         replace_first pattern replacement s
         = before +:+ replacement +:+ after.
Proof.
  intros Hpattern.
  assert (contains pattern "" = false) as Hempty.
  { destruct pattern; [contradiction|reflexivity]. }
  induction s as [|c s IH].
  - intros H. rewrite Hempty in H. discriminate H.
  - cbn [contains replace_first].
    destruct (String.prefix pattern (String c s)) eqn:Hprefix; cbn [orb].
    + intros _. exists "", (skip (String.length pattern) (String c s)).
      split; [exact (prefix_skip _ _ Hprefix)|].
      split; [exact Hempty|]. split; [intros; simpl; lia|].
      intros replacement. reflexivity.
    + intros Hcontains.
      destruct (IH Hcontains) as (before & after & Hs & Hnone & Hleast & Hreplace).
      exists (String c before), after.
      split; [rewrite Hs at 1; reflexivity|]. split.
      { cbn [contains]. rewrite Hnone.
        destruct (String.prefix pattern (String c before)) eqn:Hshort;
          [|reflexivity].
        apply (prefix_extend _ _ (pattern +:+ after)) in Hshort.
        change (String.prefix pattern
                  (String c (before +:+ pattern +:+ after)) = true) in Hshort.
        rewrite <- Hs, Hprefix in Hshort. discriminate Hshort. }
      split.
      { intros [|c' before'] after' Hsplit.
        - change (String c s = pattern +:+ after') in Hsplit.
          rewrite Hsplit, prefix_append in Hprefix. discriminate Hprefix.
        - change (String c s = String c' (before' +:+ pattern +:+ after'))
            in Hsplit.
          injection Hsplit as _ Hsplit. apply Hleast in Hsplit. simpl. lia. }
      intros replacement. rewrite Hreplace. reflexivity.
Qed.

(** The decimal writing of a positive number does not start with a zero. *)
Lemma pretty_N_go_head (x : N) (s : string) :
  (0 < x)%N ->
  exists c rest, pretty_N_go x s = String c rest /\ c <> "0"%char.
Proof.
  revert s. induction (N.lt_wf_0 x) as [x _ IH]. intros s Hx.
  rewrite pretty_N_go_step by exact Hx.
  destruct (decide (x < 10)%N) as [Hsmall|Hlarge].
  - rewrite (N.div_small x 10) by exact Hsmall. rewrite pretty_N_go_0.
    eexists _, _. split; [reflexivity|].
    rewrite (N.mod_small x 10) by exact Hsmall.
    assert (x = 1 \/ x = 2 \/ x = 3 \/ x = 4 \/ x = 5 \/ x = 6 \/ x = 7
            \/ x = 8 \/ x = 9)%N as Hcases by lia.
    repeat (destruct Hcases as [->|Hcases]; [discriminate|]).
    subst x. discriminate.
  - apply IH.
    + apply N.div_lt; lia.
    + apply N.div_str_pos. lia.
Qed.

Lemma pretty_canonical (z : Z) : 0 <= z -> canonical (pretty z).
Proof.
  intros Hz. destruct z as [|p|p]; [left; reflexivity| |lia].
  right. unfold pretty, pretty_Z, pretty, pretty_positive, pretty, pretty_N.
  destruct (decide (N.pos p = 0%N)) as [H|_]; [discriminate H|].
  apply pretty_N_go_head. lia.
Qed.

(** Padding with zeros keeps two different counts apart. *)
Lemma zero_padding_inj (k k' : nat) (s s' : string) :
  canonical s -> canonical s' ->
  repeat_char k "0" +:+ s = repeat_char k' "0" +:+ s' -> s = s'.
Proof.
  intros Hs Hs'. revert k'. induction k as [|k IH]; intros [|k'] H; simpl in H.
  - exact H.
  - destruct Hs as [->|(c & rest & -> & Hc)].
    + injection H as H. destruct Hs' as [->|(c' & rest' & -> & _)];
        destruct k'; discriminate H.
    + injection H as -> _. contradiction.
  - destruct Hs' as [->|(c & rest & -> & Hc)].
    + injection H as H. destruct Hs as [->|(c' & rest' & -> & _)];
        destruct k; discriminate H.
    + injection H as <- _. contradiction.
  - injection H as H. exact (IH _ H).
Qed.

(** X4. Slices get file names of their own exactly when the pattern holds
    the placeholder.  If [fileNamePattern] contains [%04d], the file name of
    slice [i] is the pattern with its first placeholder replaced by the
    index, padded with zeros to four characters: the text before the
    replaced placeholder holds no placeholder, and no placeholder of the
    pattern starts earlier.  Two indices that are not negative and get the
    same file name are equal.  If the pattern does not contain [%04d], every
    slice gets the pattern itself as its file name. *)
Theorem slice_filename_distinct (fileNamePattern : string) :
  (contains "%04d" fileNamePattern = true ->
   exists before after,
     fileNamePattern = before +:+ "%04d" +:+ after
     /\ contains "%04d" before = false
     /\ (forall before' after',
           fileNamePattern = before' +:+ "%04d" +:+ after' ->
           (String.length before <= String.length before')%nat)
     /\ (forall i : Z,
           slice_filename fileNamePattern i
           = before +:+ padStart4 (pretty i) +:+ after)
     /\ (forall i j : Z,
           0 <= i -> 0 <= j ->
           slice_filename fileNamePattern i = slice_filename fileNamePattern j ->
           i = j))
  /\ (contains "%04d" fileNamePattern = false ->
      forall i : Z, slice_filename fileNamePattern i = fileNamePattern).
Proof.
  split; intros Hcontains.
  - destruct (replace_first_leftmost "%04d" fileNamePattern)
      as (before & after & Hpattern & Hnone & Hleast & Hreplace);
      [discriminate|exact Hcontains|].
    exists before, after. split; [exact Hpattern|].
    split; [exact Hnone|]. split; [exact Hleast|].
    split; [intros i; apply Hreplace|].
    intros i j Hi Hj Hsame. unfold slice_filename in Hsame.
    rewrite !Hreplace in Hsame.
    apply String.app_inj in Hsame. apply string_app_inv_tail in Hsame.
    apply zero_padding_inj in Hsame; try (apply pretty_canonical; assumption).
    exact (pretty_Z_inj _ _ Hsame).
  - pose proof (replace_first_shape "%04d" fileNamePattern) as Hshape.
    rewrite Hcontains in Hshape. intros i. apply Hshape.
Qed.

(** ** Bytes, bits and value representations *)

Lemma own_property_typeMap (kind : string) (bytes : Z) :
  own_property typeMap kind = Some bytes ->
  (own_property bitsMap kind = Some (8 * bytes))
  \/ (own_property bitsMap kind = None
      /\ (kind = "int64" /\ bytes = 8 \/ kind = "uint64" /\ bytes = 8
          \/ kind = "float32" /\ bytes = 4 \/ kind = "float64" /\ bytes = 8)).
Proof.
  unfold typeMap. simpl.
  repeat (destruct (decide _) as [<-|_];
          [intros [= <-]; vm_compute; tauto|]).
  intros H. discriminate H.
Qed.

(** X5. Bits allocated agree with the size of the elements only for the
    integer kinds up to 32 bits.  For a component type of [typeMap] that
    [bitsMap] lists, bits allocated is eight times the bytes per pixel; for
    the four others, [int64], [uint64], [float32] and [float64], bits
    allocated is 16 while an element takes 8, 8, 4 and 8 bytes. *)
Theorem bits_allocated_against_bytes (kind : string) (bytes : Z) :
  own_property typeMap kind = Some bytes ->
  getBytesPerPixel kind = Some bytes
  /\ (is_Some (own_property bitsMap kind) ->
      getBitsAllocated kind = Some (8 * bytes))
  /\ (own_property bitsMap kind = None ->
      getBitsAllocated kind = Some 16
      /\ 16 < 8 * bytes
      /\ (kind = "int64" \/ kind = "uint64" \/ kind = "float32"
          \/ kind = "float64")).
Proof.
  intros Hbytes. split.
  - unfold getBytesPerPixel. rewrite Hbytes.
    destruct (own_property_typeMap kind bytes Hbytes)
      as [Hbits|(_ & [[_ ->]|[[_ ->]|[[_ ->]|[_ ->]]]])]; try reflexivity.
    apply own_property_bitsMap in Hbits.
    assert (bytes = 1 \/ bytes = 2 \/ bytes = 4) as [-> |[-> | ->]] by lia;
      reflexivity.
  - destruct (own_property_typeMap kind bytes Hbytes)
      as [Hbits|(Hnone & Hkind)].
    + split.
      * intros _. unfold getBitsAllocated. rewrite Hbits.
        apply own_property_bitsMap in Hbits.
        assert (8 * bytes = 8 \/ 8 * bytes = 16 \/ 8 * bytes = 32)
          as [-> |[-> | ->]] by lia; reflexivity.
      * intros Hnone. rewrite Hnone in Hbits. discriminate Hbits.
    + split.
      * intros [bits Hbits]. rewrite Hnone in Hbits. discriminate Hbits.
      * intros _.
        destruct Hkind as [[-> ->]|[[-> ->]|[[-> ->]|[-> ->]]]];
          (split; [reflexivity|]); (split; [lia|]); tauto.
Qed.

(** The numbers that [getBitsAllocated] can return. *)
Lemma getBitsAllocated_range (kind : string) :
  getBitsAllocated kind = Some 8 \/ getBitsAllocated kind = Some 16
  \/ getBitsAllocated kind = Some 32 \/ getBitsAllocated kind = None.
Proof.
  unfold getBitsAllocated.
  destruct (own_property bitsMap kind) as [bits|] eqn:Hown.
  - apply own_property_bitsMap in Hown
      as [[-> _]|[[-> _]|[-> _]]]; simpl; tauto.
  - destruct (decide (kind ∈ inherited_properties)); tauto.
Qed.

(** X6. The value representation of the pixel data follows the bits
    allocated: it is [OB] exactly when 8 bits are allocated, [OW] exactly
    when 16 are, and [OL] exactly when 32 are or the lookup gave no
    number; and no other number of bits is ever allocated. *)
Theorem getPixelDataVR_follows_bits (kind : string) :
  (getPixelDataVR kind = "OB" <-> getBitsAllocated kind = Some 8)
  /\ (getPixelDataVR kind = "OW" <-> getBitsAllocated kind = Some 16)
  /\ (getPixelDataVR kind = "OL"
      <-> getBitsAllocated kind = Some 32 \/ getBitsAllocated kind = None)
  /\ (getBitsAllocated kind = Some 8 \/ getBitsAllocated kind = Some 16
      \/ getBitsAllocated kind = Some 32 \/ getBitsAllocated kind = None).
Proof.
  unfold getPixelDataVR.
  destruct (getBitsAllocated_range kind) as [H|[H|[H|H]]]; rewrite H; simpl;
    repeat split; intros; try tauto; try discriminate;
    repeat match goal with
           | H' : _ \/ _ |- _ => destruct H' as [H'|H']
           end; discriminate.
Qed.

(** ** The identifiers that [generateUID] returns *)

Section GenerateUIDFacts.
Context {E : Type}.
Variable Date_now : nat -> Z.
Variable random_million : nat -> Z.

(** X7. Two calls of [generateUID] return the same identifier exactly when
    they read the same time and the same random number; every identifier
    starts with the root [1.2.826.0.1.3680043.8.498.], and a call changes
    nothing but the count of the identifiers generated. *)
Theorem generateUID_equal_readings (w1 w2 : World E) :
  ((generateUID Date_now random_million w1).1
   = (generateUID Date_now random_million w2).1
   <-> Date_now (uid_calls w1) = Date_now (uid_calls w2)
       /\ random_million (uid_calls w1) = random_million (uid_calls w2))
  /\ (exists uid,
        (generateUID Date_now random_million w1).1 = Ok uid
        /\ String.prefix "1.2.826.0.1.3680043.8.498." uid = true)
  /\ uid_calls (generateUID Date_now random_million w1).2 = S (uid_calls w1)
  /\ encoder_calls (generateUID Date_now random_million w1).2
     = encoder_calls w1.
Proof.
  unfold generateUID, uid_at. cbn [fst snd uid_calls encoder_calls].
  split; [|split; [|split; reflexivity]].
  - split.
    + intros H. apply Ok_inj in H. exact (uid_of_inj _ _ _ _ H).
    + intros [-> ->]. reflexivity.
  - eexists. split; [reflexivity|]. apply prefix_append.
Qed.

End GenerateUIDFacts.

(** ** The datasets of a run of [writeImageAsDicomSeriesWithDcmjs] *)

Section ExactFacts.
Context {E : Type}.

(** Every field of a slice that [extractSlice] returns. *)
Lemma extractSlice_inv (image3D slice2D : Image E) (sliceIndex : Z) :
  extractSlice image3D sliceIndex = Ok slice2D ->
  exists pixels,
    sliceData image3D sliceIndex = Ok pixels
    /\ data slice2D = TypedArray pixels
    /\ origin slice2D =
         [(at_float (origin image3D) 0
           + float_of_Z sliceIndex * at_float (spacing image3D) 2
             * at_float (direction image3D) 6)%float;
          (at_float (origin image3D) 1
           + float_of_Z sliceIndex * at_float (spacing image3D) 2
             * at_float (direction image3D) 7)%float]
    /\ zPosition slice2D =
         Some (at_float (origin image3D) 2
               + float_of_Z sliceIndex * at_float (spacing image3D) 2
                 * at_float (direction image3D) 8)%float
    /\ spacing slice2D =
         [at_float (spacing image3D) 0; at_float (spacing image3D) 1]
    /\ direction slice2D =
         [at_float (direction image3D) 0; at_float (direction image3D) 1;
          at_float (direction image3D) 3; at_float (direction image3D) 4]
    /\ size slice2D =
         [to_uint32 (size image3D !! 0%nat); to_uint32 (size image3D !! 1%nat)]
    /\ imageType slice2D =
         {| dimension := 2;
            componentType := componentType (imageType image3D);
            pixelType := pixelType (imageType image3D);
            components := components (imageType image3D) |}
    /\ metadata slice2D = Some (default ∅ (metadata image3D)).
Proof.
  unfold extractSlice. destruct (sliceData image3D sliceIndex) as [pixels|e].
  - intros H. apply Ok_inj in H. subst slice2D. exists pixels.
    simpl. repeat split.
  - intros H. discriminate H.
Qed.

(** The files of a loop, in the order of the turns. *)
Lemma slice_loop_files (P : Z -> WrittenFile.t -> Prop)
    (body : Z -> M E WrittenFile.t) (turns : nat) :
  (forall i w file, (body i w).1 = Ok file -> P i file) ->
  forall i files w result,
    (slice_loop body turns i files w).1 = Ok result ->
    exists new,
      result = files ++ new
      /\ length new = turns
      /\ forall (j : nat) file,
           new !! j = Some file -> P (i + Z.of_nat j) file.
Proof.
  intros Hbody. induction turns as [|turns IH]; intros i files w result Hrun.
  - simpl in Hrun. apply Ok_inj in Hrun. subst result.
    exists []. rewrite app_nil_r. split; [reflexivity|].
    split; [reflexivity|]. intros j file Hj. discriminate Hj.
  - rewrite slice_loop_step in Hrun.
    pose proof (Hbody i w) as Hfile.
    destruct (body i w) as [[file|e] w1]; [|discriminate Hrun].
    destruct (IH _ _ _ _ Hrun) as (new & -> & Hlen & Hnew).
    exists (file :: new). rewrite <- app_assoc. split; [reflexivity|].
    split; [simpl; lia|].
    intros [|j] file' Hj; simpl in Hj.
    + injection Hj as <-. replace (i + Z.of_nat 0) with i by lia.
      apply Hfile. reflexivity.
    + replace (i + Z.of_nat (S j)) with (i + 1 + Z.of_nat j) by lia.
      exact (Hnew j file' Hj).
Qed.

(** The files of a loop and the calls of its turns, side by side. *)
Lemma slice_loop_pairs (R : Z -> EncoderCall E -> WrittenFile.t -> Prop)
    (body : Z -> M E WrittenFile.t) (turns : nat) :
  (forall i w file,
     (body i w).1 = Ok file ->
     exists c,
       encoder_calls (body i w).2 = encoder_calls w ++ [c] /\ R i c file) ->
  forall i files w result,
    (slice_loop body turns i files w).1 = Ok result ->
    exists new cs,
      result = files ++ new
      /\ encoder_calls (slice_loop body turns i files w).2
         = encoder_calls w ++ cs
      /\ length new = turns
      /\ length cs = turns
      /\ forall (j : nat) file,
           new !! j = Some file ->
           exists c, cs !! j = Some c /\ R (i + Z.of_nat j) c file.
Proof.
  intros Hbody. induction turns as [|turns IH]; intros i files w result Hrun.
  - simpl in Hrun. apply Ok_inj in Hrun. subst result.
    exists [], []. simpl. rewrite !app_nil_r. repeat split.
    intros j file Hj. discriminate Hj.
  - rewrite slice_loop_step in Hrun |- *.
    pose proof (Hbody i w) as Hturn.
    destruct (body i w) as [[file|e] w1]; [|discriminate Hrun].
    destruct (Hturn file eq_refl) as (c & Hcalls & HR). simpl in Hcalls.
    destruct (IH _ _ _ _ Hrun) as (new & cs & -> & Hcs & Hlen & Hlen' & Hnew).
    exists (file :: new), (c :: cs). rewrite <- app_assoc.
    split; [reflexivity|]. split.
    { rewrite Hcs, Hcalls, <- app_assoc. reflexivity. }
    split; [simpl; lia|]. split; [simpl; lia|].
    intros [|j] file' Hj; simpl in Hj.
    + injection Hj as <-. exists c. split; [reflexivity|].
      replace (i + Z.of_nat 0) with i by lia. exact HR.
    + replace (i + Z.of_nat (S j)) with (i + 1 + Z.of_nat j) by lia.
      exact (Hnew j file' Hj).
Qed.

(** A loop that throws stops at the turn that throws: when every turn calls
    the encoder once, the last call is the one of the turn that threw and
    the calls before it are those of turns that returned. *)
Lemma slice_loop_stops (accepted : EncoderCall E -> Prop)
    (refused : JsError -> EncoderCall E -> Prop)
    (body : Z -> M E WrittenFile.t) (turns : nat) :
  (forall i w,
     exists c,
       encoder_calls (body i w).2 = encoder_calls w ++ [c]
       /\ match (body i w).1 with
          | Ok _ => accepted c
          | Throw e => refused e c
          end) ->
  forall i files w e,
    (slice_loop body turns i files w).1 = Throw e ->
    exists cs c,
      encoder_calls (slice_loop body turns i files w).2
      = encoder_calls w ++ cs ++ [c]
      /\ Forall accepted cs
      /\ refused e c
      /\ (length cs < turns)%nat.
Proof.
  intros Hbody. induction turns as [|turns IH]; intros i files w e Hrun.
  - discriminate Hrun.
  - rewrite slice_loop_step in Hrun |- *.
    destruct (Hbody i w) as (c & Hcalls & Hturn).
    destruct (body i w) as [[file|e'] w1]; simpl in Hcalls, Hturn.
    + destruct (IH _ _ _ _ Hrun) as (cs & c' & Hcs & Hok & Hbad & Hlen).
      exists (c :: cs), c'. split.
      { rewrite Hcs, Hcalls, <- !app_assoc. reflexivity. }
      split; [constructor; assumption|]. split; [exact Hbad|simpl; lia].
    + simpl in Hrun. injection Hrun as ->.
      exists [], c. split; [exact Hcalls|].
      split; [constructor|]. split; [exact Hturn|simpl; lia].
Qed.

End ExactFacts.

Section DcmjsDatasets.
Context {E : Type}.
Variable Date_now : nat -> Z.
Variable random_million : nat -> Z.
Variable dcmjsWrite : gmap string (Element E) -> outcome (list Byte.byte).
Variable today : string.
Variable timeOfDay : string.

Local Abbreviation dcmjs_run :=
  (writeImageAsDicomSeriesWithDcmjs Date_now random_million dcmjsWrite today
     timeOfDay).
Local Abbreviation uid := (uid_at Date_now random_million).

Lemma write_dcmjs_slice_exact (image3D slice2D : Image E) (pixels : list E)
    (options : Options.t) (study series : string) (i : Z) (w : World E) :
  extractSlice image3D i = Ok slice2D ->
  data slice2D = TypedArray pixels ->
  write_dcmjs_slice Date_now random_million dcmjsWrite today timeOfDay
    image3D options study series i w
  = (match dcmjsWrite
             (list_to_map
                (dataset_entries slice2D
                   (dcmjs_metadata today timeOfDay options study series i
                      (uid (uid_calls w)) slice2D) pixels)) with
     | Ok bytes =>
         Ok {| WrittenFile.filename :=
                 slice_filename
                   (default "slice_%04d.dcm" (Options.fileNamePattern options))
                   i;
               WrittenFile.blob := bytes;
               WrittenFile.sliceIndex := i;
               WrittenFile.data := bytes |}
     | Throw e => Throw e
     end,
     {| uid_calls := S (uid_calls w);
        encoder_calls :=
          encoder_calls w
          ++ [DcmjsWrite
                (list_to_map
                   (dataset_entries slice2D
                      (dcmjs_metadata today timeOfDay options study series i
                         (uid (uid_calls w)) slice2D) pixels))] |}).
Proof.
  intros Hslice Hdata.
  assert (data_buffer slice2D = Ok pixels) as Hbuffer.
  { unfold data_buffer. rewrite Hdata. reflexivity. }
  unfold write_dcmjs_slice, bind, lift, generateUID, writeDicomSlice.
  rewrite Hslice. unfold bind, lift.
  fold (dcmjs_metadata today timeOfDay options study series i
          (uid (uid_calls w)) slice2D).
  rewrite (dataset_ok _ _ _ Hbuffer). unfold call_encoder, ret.
  cbn [uid_calls encoder_calls].
  destruct (dcmjsWrite _) as [bytes|e]; reflexivity.
Qed.

Lemma write_dcmjs_slice_exact_turn (image3D : Image E) (options : Options.t)
    (study series : string) :
  turn_spec
    (dcmjs_call_of Date_now random_million today timeOfDay image3D options
       study series)
    (write_dcmjs_slice Date_now random_million dcmjsWrite today timeOfDay
       image3D options study series).
Proof.
  intros i w.
  destruct (extractSlice image3D i) as [slice2D|e] eqn:Hslice.
  - destruct (extractSlice_shape _ _ _ Hslice)
      as (x & y & z & pixels & _ & _ & Hdata).
    rewrite (write_dcmjs_slice_exact _ _ _ _ _ _ _ _ Hslice Hdata).
    cbn [fst snd uid_calls encoder_calls]. split; [lia|].
    eexists. split; [reflexivity|].
    split; [|intros file _; discriminate].
    right. eexists. split; [reflexivity|].
    eexists. split; [reflexivity|].
    exists slice2D, pixels. repeat split; assumption.
  - unfold write_dcmjs_slice, bind, lift. rewrite Hslice.
    cbn [fst snd uid_calls encoder_calls].
    split; [lia|]. exists []. rewrite app_nil_r.
    split; [reflexivity|]. split; [left; reflexivity|].
    intros file H. discriminate H.
Qed.

(** The datasets of a run, slice after slice. *)
Lemma dcmjs_run_datasets (image3D : Image E) (options : Options.t)
    (w : World E) :
  exists cs,
    encoder_calls (dcmjs_run image3D options w).2 = encoder_calls w ++ cs
    /\ (forall (i : nat) c,
          cs !! i = Some c ->
          exists (t : nat) entries,
            c = DcmjsWrite entries
            /\ dcmjs_dataset_of Date_now random_million today timeOfDay
                 image3D options (uid (uid_calls w))
                 (uid (S (uid_calls w))) (Z.of_nat i) t entries)
    /\ (forall files,
          (dcmjs_run image3D options w).1 = Ok files ->
          length cs = loop_turns (size image3D !! 2%nat)).
Proof.
  unfold writeImageAsDicomSeriesWithDcmjs, bind, generateUID.
  cbn [uid_calls encoder_calls].
  destruct (slice_loop_chain _ _ (loop_turns (size image3D !! 2%nat))
              (write_dcmjs_slice_exact_turn image3D options
                 (uid (uid_calls w)) (uid (S (uid_calls w))))
              0 []
              {| uid_calls := S (S (uid_calls w));
                 encoder_calls := encoder_calls w |})
    as (cs & Hcalls & Hchain & _ & Hresult).
  exists cs. split; [exact Hcalls|]. split.
  - intros i c Hi.
    destruct (chain_lookup _ _ _ _ _ _ _ Hchain Hi)
      as (t1 & t2 & _ & _ & entries & -> & Hentries).
    exists t1, entries. split; [reflexivity|]. exact Hentries.
  - intros files Hfiles. exact (proj1 (Hresult files Hfiles)).
Qed.

(** X8. The geometry of the datasets of a run.  The dataset that
    [writeImageAsDicomSeriesWithDcmjs] hands to dcmjs for slice [i] has, as
    image position, the three numbers [position_of image3D i], the third of
    them as slice location; the second size of the volume as rows and the
    first as columns, both reduced modulo 2^32; the second spacing before
    the first as pixel spacing; and the entries 0, 1, 3 and 4 of the
    direction matrix, with a zero after each pair, as orientation. *)
Theorem dcmjs_dataset_geometry (image3D : Image E) (options : Options.t)
    (w : World E) :
  exists cs,
    encoder_calls (dcmjs_run image3D options w).2 = encoder_calls w ++ cs
    /\ (forall (i : nat) c,
          cs !! i = Some c ->
          exists entries,
            c = DcmjsWrite entries
            /\ entries !! "00200032"
               = Some (mkElement "DS"
                         [VNumber (position_of image3D (Z.of_nat i) 0);
                          VNumber (position_of image3D (Z.of_nat i) 1);
                          VNumber (position_of image3D (Z.of_nat i) 2)])
            /\ entries !! "00201041"
               = Some (mkElement "DS"
                         [VNumber (position_of image3D (Z.of_nat i) 2)])
            /\ entries !! "00280010"
               = Some (mkElement "US"
                         [VInteger (to_uint32 (size image3D !! 1%nat))])
            /\ entries !! "00280011"
               = Some (mkElement "US"
                         [VInteger (to_uint32 (size image3D !! 0%nat))])
            /\ entries !! "00280030"
               = Some (mkElement "DS"
                         [VNumber (at_float (spacing image3D) 1);
                          VNumber (at_float (spacing image3D) 0)])
            /\ entries !! "00200037"
               = Some (mkElement "DS"
                         [VNumber (at_float (direction image3D) 0);
                          VNumber (at_float (direction image3D) 1);
                          VNumber 0;
                          VNumber (at_float (direction image3D) 3);
                          VNumber (at_float (direction image3D) 4);
                          VNumber 0]))
    /\ (forall files,
          (dcmjs_run image3D options w).1 = Ok files ->
          length cs = loop_turns (size image3D !! 2%nat)).
Proof.
  destruct (dcmjs_run_datasets image3D options w)
    as (cs & Hcalls & Hdatasets & Hresult).
  exists cs. split; [exact Hcalls|]. split; [|exact Hresult].
  intros i c Hi.
  destruct (Hdatasets i c Hi)
    as (t & entries & -> & slice2D & pixels & Hslice & _ & ->).
  destruct (extractSlice_inv _ _ _ Hslice)
    as (pixels' & _ & _ & Horigin & Hz & Hspacing & Hdirection & Hsize & _).
  eexists. split; [reflexivity|].
  set (md := dcmjs_metadata today timeOfDay options _ _ _ _ slice2D).
  split.
  { trans (Some (mkElement (E:=E) "DS"
                   (number_value <$> SliceMetadata.imagePosition md)));
      [dataset_lookup|].
    unfold md. simpl. rewrite Horigin, Hz. reflexivity. }
  split.
  { trans (Some (mkElement (E:=E) "DS"
                   [number_value (SliceMetadata.sliceLocation md)]));
      [dataset_lookup|].
    unfold md. simpl. rewrite Hz. reflexivity. }
  split.
  { trans (Some (mkElement (E:=E) "US" [count_value (size slice2D !! 1%nat)]));
      [dataset_lookup|]. rewrite Hsize. reflexivity. }
  split.
  { trans (Some (mkElement (E:=E) "US" [count_value (size slice2D !! 0%nat)]));
      [dataset_lookup|]. rewrite Hsize. reflexivity. }
  split.
  { trans (Some (mkElement (E:=E) "DS"
                   [number_value (spacing slice2D !! 1%nat);
                    number_value (spacing slice2D !! 0%nat)]));
      [dataset_lookup|]. rewrite Hspacing. reflexivity. }
  trans (Some (mkElement (E:=E) "DS"
                 [number_value (direction slice2D !! 0%nat);
                  number_value (direction slice2D !! 1%nat);
                  VNumber 0;
                  number_value (direction slice2D !! 2%nat);
                  number_value (direction slice2D !! 3%nat);
                  VNumber 0]));
    [dataset_lookup|]. rewrite Hdirection. reflexivity.
Qed.

(** X9. The pixels of the datasets of a run.  The pixel data of the
    dataset of slice [i] is the slab of slice [i], what [slice] selects from
    the volume's typed array from the offset of the slice on, under the
    value representation of the component type; samples per pixel is the
    component count and the photometric interpretation is [MONOCHROME2] for
    one component and [RGB] otherwise. *)
Theorem dcmjs_dataset_pixels (image3D : Image E) (options : Options.t)
    (w : World E) :
  exists cs,
    encoder_calls (dcmjs_run image3D options w).2 = encoder_calls w ++ cs
    /\ (forall (i : nat) c,
          cs !! i = Some c ->
          exists entries pixels,
            c = DcmjsWrite entries
            /\ sliceData image3D (Z.of_nat i) = Ok pixels
            /\ entries !! "7FE00010"
               = Some (mkElement
                         (getPixelDataVR (componentType (imageType image3D)))
                         [VBuffer pixels])
            /\ entries !! "00280002"
               = Some (mkElement "US"
                         [VInteger (components (imageType image3D))])
            /\ entries !! "00280004"
               = Some (mkElement "CS"
                         [VString
                            (if decide (components (imageType image3D) = 1)
                             then "MONOCHROME2" else "RGB")]))
    /\ (forall files,
          (dcmjs_run image3D options w).1 = Ok files ->
          length cs = loop_turns (size image3D !! 2%nat)).
Proof.
  destruct (dcmjs_run_datasets image3D options w)
    as (cs & Hcalls & Hdatasets & Hresult).
  exists cs. split; [exact Hcalls|]. split; [|exact Hresult].
  intros i c Hi.
  destruct (Hdatasets i c Hi)
    as (t & entries & -> & slice2D & pixels & Hslice & Hdata & ->).
  destruct (extractSlice_inv _ _ _ Hslice)
    as (pixels' & Hslab & Hdata' & _ & _ & _ & _ & _ & Htype & _).
  assert (pixels' = pixels) as -> by congruence.
  eexists _, pixels. split; [reflexivity|]. split; [exact Hslab|].
  split.
  { trans (Some (mkElement
                   (getPixelDataVR (componentType (imageType slice2D)))
                   [VBuffer pixels])); [dataset_lookup|].
    rewrite Htype. reflexivity. }
  split.
  { trans (Some (mkElement (E:=E) "US"
                   [VInteger (components (imageType slice2D))]));
      [dataset_lookup|]. rewrite Htype. reflexivity. }
  trans (Some (mkElement (E:=E) "CS"
                 [VString (if decide (components (imageType slice2D) = 1)
                           then "MONOCHROME2" else "RGB")]));
    [dataset_lookup|]. rewrite Htype. reflexivity.
Qed.

(** X10. What the datasets of a run share.  Every dataset of a run of
    [writeImageAsDicomSeriesWithDcmjs] carries the first identifier
    generated in the run as study identifier and the second as series
    identifier, whatever [seriesInstanceUID] the caller gave; the date and
    the time read at the start of the run; and as modality, series
    description and series number the caller's, or [OT],
    [Medical Image Series] and 1 when the caller gave none. *)
Theorem dcmjs_dataset_series (image3D : Image E) (options : Options.t)
    (w : World E) :
  exists cs,
    encoder_calls (dcmjs_run image3D options w).2 = encoder_calls w ++ cs
    /\ Forall
         (fun c =>
            exists entries,
              c = DcmjsWrite entries
              /\ entries !! "0020000D"
                 = Some (mkElement "UI" [VString (uid (uid_calls w))])
              /\ entries !! "0020000E"
                 = Some (mkElement "UI" [VString (uid (S (uid_calls w)))])
              /\ entries !! "00080020" = Some (mkElement "DA" [VString today])
              /\ entries !! "00080030"
                 = Some (mkElement "TM" [VString timeOfDay])
              /\ entries !! "00080060"
                 = Some (mkElement "CS"
                           [VString (default "OT" (Options.modality options))])
              /\ entries !! "0008103E"
                 = Some (mkElement "LO"
                           [VString
                              (default "Medical Image Series"
                                 (Options.seriesDescription options))])
              /\ entries !! "00200011"
                 = Some (mkElement "IS"
                           [VInteger
                              (default 1 (Options.seriesNumber options))]))
         cs
    /\ (forall files,
          (dcmjs_run image3D options w).1 = Ok files ->
          length cs = loop_turns (size image3D !! 2%nat)).
Proof.
  destruct (dcmjs_run_datasets image3D options w)
    as (cs & Hcalls & Hdatasets & Hresult).
  exists cs. split; [exact Hcalls|]. split; [|exact Hresult].
  apply Forall_lookup. intros i c Hi.
  destruct (Hdatasets i c Hi)
    as (t & entries & -> & slice2D & pixels & _ & _ & ->).
  eexists. split; [reflexivity|].
  repeat split; dataset_lookup.
Qed.

(** A turn of the loop on a volume with a typed array: one dataset goes to
    dcmjs, and what dcmjs answers decides the turn. *)
Lemma write_dcmjs_slice_answer (image3D : Image E) (a : list E)
    (options : Options.t) (study series : string) (i : Z) (w : World E) :
  data image3D = TypedArray a ->
  exists entries,
    encoder_calls
      (write_dcmjs_slice Date_now random_million dcmjsWrite today timeOfDay
         image3D options study series i w).2
    = encoder_calls w ++ [DcmjsWrite entries]
    /\ match (write_dcmjs_slice Date_now random_million dcmjsWrite today
                timeOfDay image3D options study series i w).1 with
       | Ok file => dcmjsWrite entries = Ok (WrittenFile.blob file)
       | Throw e => dcmjsWrite entries = Throw e
       end.
Proof.
  intros Hdata.
  destruct (extractSlice_fields image3D i _ (sliceData_typed image3D i a Hdata))
    as (slice2D & Hslice & Hpixels & _).
  rewrite (write_dcmjs_slice_exact _ _ _ _ _ _ _ _ Hslice Hpixels).
  cbn [fst snd encoder_calls]. eexists. split; [reflexivity|].
  destruct (dcmjsWrite _) as [bytes|e]; reflexivity.
Qed.

(** The file of a turn that returns. *)
Lemma write_dcmjs_slice_file (image3D : Image E) (options : Options.t)
    (study series : string) (i : Z) (w : World E) (file : WrittenFile.t) :
  (write_dcmjs_slice Date_now random_million dcmjsWrite today timeOfDay
     image3D options study series i w).1 = Ok file ->
  exists c,
    encoder_calls
      (write_dcmjs_slice Date_now random_million dcmjsWrite today timeOfDay
         image3D options study series i w).2
    = encoder_calls w ++ [c]
    /\ (WrittenFile.sliceIndex file = i
        /\ WrittenFile.filename file
           = slice_filename
               (default "slice_%04d.dcm" (Options.fileNamePattern options)) i
        /\ WrittenFile.data file = WrittenFile.blob file
        /\ exists entries,
             c = DcmjsWrite entries
             /\ dcmjsWrite entries = Ok (WrittenFile.blob file)).
Proof.
  destruct (extractSlice image3D i) as [slice2D|e] eqn:Hslice.
  - destruct (extractSlice_shape _ _ _ Hslice)
      as (x & y & z & pixels & _ & _ & Hdata).
    rewrite (write_dcmjs_slice_exact _ _ _ _ _ _ _ _ Hslice Hdata).
    cbn [fst snd encoder_calls].
    destruct (dcmjsWrite _) as [bytes|e] eqn:Hanswer; intros Hfile;
      [|discriminate Hfile].
    apply Ok_inj in Hfile. subst file. eexists. split; [reflexivity|].
    cbn [WrittenFile.sliceIndex WrittenFile.filename WrittenFile.data
         WrittenFile.blob].
    split; [reflexivity|]. split; [reflexivity|]. split; [reflexivity|].
    eexists. split; [reflexivity|exact Hanswer].
  - unfold write_dcmjs_slice, bind, lift. rewrite Hslice.
    intros Hfile. discriminate Hfile.
Qed.

(** X11. The files that [writeImageAsDicomSeriesWithDcmjs] returns.  When
    the run returns, it returns one file for each slice, in the order of the
    slices, and dcmjs was called once for each: file [j] has slice index
    [j], the name that the pattern (or [slice_%04d.dcm]) gives for [j], and
    as blob and as data the bytes that dcmjs returned for the dataset of
    call [j].  The run does return when the volume has a typed array and
    dcmjs accepts every dataset. *)
Theorem dcmjs_run_files (image3D : Image E) (a : list E)
    (options : Options.t) (w : World E) :
  (forall files,
     (dcmjs_run image3D options w).1 = Ok files ->
     exists cs,
       encoder_calls (dcmjs_run image3D options w).2 = encoder_calls w ++ cs
       /\ length files = loop_turns (size image3D !! 2%nat)
       /\ length cs = loop_turns (size image3D !! 2%nat)
       /\ forall (j : nat) file,
            files !! j = Some file ->
            WrittenFile.sliceIndex file = Z.of_nat j
            /\ WrittenFile.filename file
               = slice_filename
                   (default "slice_%04d.dcm" (Options.fileNamePattern options))
                   (Z.of_nat j)
            /\ WrittenFile.data file = WrittenFile.blob file
            /\ exists entries,
                 cs !! j = Some (DcmjsWrite entries)
                 /\ dcmjsWrite entries = Ok (WrittenFile.blob file))
  /\ (data image3D = TypedArray a ->
      (forall entries, exists bytes, dcmjsWrite entries = Ok bytes) ->
      exists files, (dcmjs_run image3D options w).1 = Ok files).
Proof.
  split.
  - unfold writeImageAsDicomSeriesWithDcmjs, bind, generateUID.
    cbn [uid_calls encoder_calls]. intros files Hrun.
    destruct (slice_loop_pairs _ _ _
                (write_dcmjs_slice_file image3D options (uid (uid_calls w))
                   (uid (S (uid_calls w))))
                _ _ _ _ Hrun)
      as (new & cs & -> & Hcalls & Hlen & Hlen' & Hfiles).
    exists cs. split; [exact Hcalls|]. split; [exact Hlen|].
    split; [exact Hlen'|].
    intros j file Hj.
    destruct (Hfiles j file Hj)
      as (c & Hc & Hindex & Hname & Hdata & entries & -> & Hanswer).
    split; [exact Hindex|]. split; [exact Hname|]. split; [exact Hdata|].
    exists entries. split; [exact Hc|exact Hanswer].
  - intros Hdata Haccept.
    exact (writeImageAsDicomSeriesWithDcmjs_returns Date_now random_million
             dcmjsWrite today timeOfDay image3D a options w Hdata Haccept).
Qed.

(** X12. [writeImageAsDicomSeriesWithDcmjs] stops at the first slice that
    dcmjs refuses.  When a run on a volume with a typed array throws, the
    exception is the one dcmjs threw on the last dataset it was given;
    dcmjs had accepted every dataset before that one; and no dataset was
    built for a later slice. *)
Theorem dcmjs_run_stops (image3D : Image E) (a : list E)
    (options : Options.t) (w : World E) (e : JsError) :
  data image3D = TypedArray a ->
  (dcmjs_run image3D options w).1 = Throw e ->
  exists cs entries,
    encoder_calls (dcmjs_run image3D options w).2
    = encoder_calls w ++ cs ++ [DcmjsWrite entries]
    /\ dcmjsWrite entries = Throw e
    /\ Forall
         (fun c =>
            exists accepted bytes,
              c = DcmjsWrite accepted /\ dcmjsWrite accepted = Ok bytes)
         cs
    /\ (length cs < loop_turns (size image3D !! 2%nat))%nat.
Proof.
  intros Hdata.
  unfold writeImageAsDicomSeriesWithDcmjs, bind, generateUID.
  cbn [uid_calls encoder_calls]. intros Hrun.
  destruct (slice_loop_stops
              (fun c =>
                 exists accepted bytes,
                   c = DcmjsWrite accepted /\ dcmjsWrite accepted = Ok bytes)
              (fun e c =>
                 exists entries,
                   c = DcmjsWrite entries /\ dcmjsWrite entries = Throw e)
              (write_dcmjs_slice Date_now random_million dcmjsWrite today
                 timeOfDay image3D options (uid (uid_calls w))
                 (uid (S (uid_calls w))))
              (loop_turns (size image3D !! 2%nat)))
    with (i := 0) (files := @nil WrittenFile.t)
         (w := {| uid_calls := S (S (uid_calls w));
                  encoder_calls := encoder_calls w |}) (e := e)
    as (cs & c & Hcalls & Hok & (entries & -> & Hbad) & Hlen).
  - intros i w0.
    destruct (write_dcmjs_slice_answer image3D a options (uid (uid_calls w))
                (uid (S (uid_calls w))) i w0 Hdata)
      as (entries & Hcalls & Hanswer).
    exists (DcmjsWrite entries). split; [exact Hcalls|].
    destruct (write_dcmjs_slice _ _ _ _ _ _ _ _ _ _ _).1 as [file|e'].
    + eexists _, _. split; [reflexivity|exact Hanswer].
    + eexists. split; [reflexivity|exact Hanswer].
  - exact Hrun.
  - exists cs, entries. split; [exact Hcalls|]. split; [exact Hbad|].
    split; [exact Hok|exact Hlen].
Qed.

End DcmjsDatasets.

(** ** What [createDicomMetadataForSlice] builds *)

Section BuilderFacts.
Context {E : Type}.
Variable Date_now : nat -> Z.
Variable random_million : nat -> Z.
Variable toFixed6 : float -> string.

Local Abbreviation uid := (uid_at Date_now random_million).
Local Abbreviation build :=
  (createDicomMetadataForSlice (E:=E) Date_now random_million toFixed6).

(** The position, the count and the untouched entries of the map that
    [createDicomMetadataForSlice] returns. *)
Lemma createDicomMetadataForSlice_rest
    (base : option (gmap string string)) (i total : Z) (slice2D : Image E)
    (o : Options.t) (w : World E) (x y z : float) :
  origin slice2D !! 0%nat = Some x ->
  origin slice2D !! 1%nat = Some y ->
  zPosition slice2D = Some z ->
  exists md w1,
    build base i total slice2D o w = (Ok md, w1)
    /\ md !! "0020|0032"
       = Some (toFixed6 x +:+ "\" +:+ toFixed6 y +:+ "\" +:+ toFixed6 z)
    /\ md !! "0020|1041" = Some (toFixed6 z)
    /\ md !! "0020|1002" = Some (pretty total)
    /\ (forall key,
          key ∉ written_keys -> md !! key = default ∅ base !! key).
Proof.
  intros Hx Hy Hz.
  unfold createDicomMetadataForSlice, bind, ret, toFixed_of, generateUID.
  rewrite Hx, Hy, Hz.
  assert (forall key,
            key ∉ written_keys ->
            key <> "0020|000e" /\ key <> "0008|0018" /\ key <> "0020|0013"
            /\ key <> "0020|0032" /\ key <> "0020|1041" /\ key <> "0008|103e"
            /\ key <> "0020|0011" /\ key <> "0020|1002" /\ key <> "0008|0060")
    as Hkeys.
  { intros key Hkey. unfold written_keys in Hkey.
    repeat (apply not_elem_of_cons in Hkey as [? Hkey]). tauto. }
  destruct (default ∅ base !! "0020|000e") as [v|] eqn:Hseries;
    [|destruct (truthy_option (Options.seriesInstanceUID o)) as [u|]];
    (eexists _, _; split; [reflexivity|]);
    (split; [repeat case_match; simplify_map_eq; done|]);
    (split; [repeat case_match; simplify_map_eq; done|]);
    (split; [repeat case_match; simplify_map_eq; done|]);
    intros key Hkey; destruct (Hkeys key Hkey) as (?&?&?&?&?&?&?&?&?);
    repeat case_match; simplify_map_eq; done.
Qed.

(** X13. What [createDicomMetadataForSlice] keeps and what it replaces.
    For a slice with an origin and a [zPosition], the map it returns agrees
    with the base map on every key other than the nine it writes; a series
    identifier of the base map is kept; the instance identifier is a newly
    generated one, whatever the base map holds; and no encoder is called. *)
Theorem createDicomMetadataForSlice_frame
    (base : option (gmap string string)) (sliceIndex totalSlices : Z)
    (slice2D : Image E) (options : Options.t) (w : World E) (x y z : float) :
  origin slice2D !! 0%nat = Some x ->
  origin slice2D !! 1%nat = Some y ->
  zPosition slice2D = Some z ->
  exists entries w1,
    build base sliceIndex totalSlices slice2D options w = (Ok entries, w1)
    /\ (forall key,
          key ∉ written_keys -> entries !! key = default ∅ base !! key)
    /\ (forall series,
          default ∅ base !! "0020|000e" = Some series ->
          entries !! "0020|000e" = Some series)
    /\ (exists s : nat,
          (uid_calls w <= s)%nat
          /\ uid_calls w1 = S s
          /\ entries !! "0008|0018" = Some (uid s))
    /\ encoder_calls w1 = encoder_calls w.
Proof.
  intros Hx Hy Hz.
  destruct (createDicomMetadataForSlice_rest base sliceIndex totalSlices
              slice2D options w x y z Hx Hy Hz)
    as (entries & w1 & Hrun & _ & _ & _ & Hframe).
  destruct (createDicomMetadataForSlice_run Date_now random_million toFixed6
              base sliceIndex totalSlices slice2D options w x y z Hx Hy Hz)
    as (entries' & s & Hrun' & Hs & Hsop & _ & Hseries & _).
  rewrite Hrun in Hrun'. injection Hrun' as <- ->.
  exists entries. eexists. split; [exact Hrun|].
  split; [exact Hframe|]. split.
  { intros series Hbase. rewrite Hseries. unfold series_value.
    rewrite Hbase. reflexivity. }
  split; [|reflexivity].
  exists s. repeat split; assumption.
Qed.

(** X14. [createDicomMetadataForSlice] needs the position of the slice: for
    an image without a [zPosition], or whose origin has fewer than two
    entries, it throws a [TypeError], after the identifiers were
    generated and without returning a map. *)
Theorem createDicomMetadataForSlice_needs_position
    (base : option (gmap string string)) (sliceIndex totalSlices : Z)
    (slice2D : Image E) (options : Options.t) (w : World E) :
  origin slice2D !! 0%nat = None \/ origin slice2D !! 1%nat = None
  \/ zPosition slice2D = None ->
  exists message w1,
    build base sliceIndex totalSlices slice2D options w
    = (Throw (TypeError message), w1)
    /\ (uid_calls w < uid_calls w1)%nat.
Proof.
  intros Hmissing.
  unfold createDicomMetadataForSlice, bind, ret, toFixed_of, generateUID,
    throw.
  destruct (default ∅ base !! "0020|000e") as [v|];
    [|destruct (truthy_option (Options.seriesInstanceUID options)) as [u|]];
    cbn [uid_calls encoder_calls];
    destruct (origin slice2D !! 0%nat) as [x|];
    try (eexists _, _; split; [reflexivity|simpl; lia]);
    destruct (origin slice2D !! 1%nat) as [y|];
    try (eexists _, _; split; [reflexivity|simpl; lia]);
    destruct (zPosition slice2D) as [z|];
    try (eexists _, _; split; [reflexivity|simpl; lia]);
    destruct Hmissing as [H|[H|H]]; discriminate H.
Qed.

End BuilderFacts.

(** ** The dictionaries of a run of [writeImageAsDicomSeries] *)

Section SeriesDictionaries.
Context {E : Type}.
Variable Date_now : nat -> Z.
Variable random_million : nat -> Z.
Variable toFixed6 : float -> string.
Variable gdcmWriteImage : Image E -> string -> bool -> outcome (list Byte.byte).

Local Abbreviation series_run :=
  (writeImageAsDicomSeries Date_now random_million toFixed6 gdcmWriteImage).
Local Abbreviation uid := (uid_at Date_now random_million).
Local Abbreviation build :=
  (createDicomMetadataForSlice Date_now random_million toFixed6).

Lemma write_series_slice_exact (image3D slice2D : Image E) (o : Options.t)
    (numSlices i : Z) (w w1 : World E) (entries : gmap string string) :
  extractSlice image3D i = Ok slice2D ->
  build (metadata image3D) i numSlices slice2D (metadata_options o) w
  = (Ok entries, w1) ->
  write_series_slice Date_now random_million toFixed6 gdcmWriteImage
    image3D o numSlices i w
  = (match gdcmWriteImage (with_metadata slice2D entries)
             (slice_filename (default "" (Options.fileNamePattern o)) i)
             (default false (Options.useCompression o)) with
     | Ok imageData =>
         Ok {| WrittenFile.filename :=
                 slice_filename (default "" (Options.fileNamePattern o)) i;
               WrittenFile.blob := imageData;
               WrittenFile.sliceIndex := i;
               WrittenFile.data := imageData |}
     | Throw e => Throw e
     end,
     {| uid_calls := uid_calls w1;
        encoder_calls :=
          encoder_calls w1
          ++ [GdcmWrite (with_metadata slice2D entries)
                (slice_filename (default "" (Options.fileNamePattern o)) i)
                (default false (Options.useCompression o))] |}).
Proof.
  intros Hslice Hrun. unfold write_series_slice, bind, lift.
  rewrite Hslice, Hrun. unfold call_encoder, ret.
  fold (with_metadata slice2D entries).
  destruct (gdcmWriteImage _ _ _) as [imageData|e]; reflexivity.
Qed.

Lemma write_series_slice_exact_turn (image3D : Image E) (o : Options.t) :
  turn_spec (gdcm_call_of Date_now random_million toFixed6 image3D o)
    (write_series_slice Date_now random_million toFixed6 gdcmWriteImage
       image3D o (to_integer (size image3D !! 2%nat))).
Proof.
  intros i w.
  destruct (extractSlice image3D i) as [slice2D|e] eqn:Hslice.
  - destruct (extractSlice_shape _ _ _ Hslice)
      as (x & y & z & pixels & Horigin & Hz & _).
    destruct (createDicomMetadataForSlice_run Date_now random_million
                toFixed6 (metadata image3D) i
                (to_integer (size image3D !! 2%nat)) slice2D
                (metadata_options o) w x y z)
      as (entries & s & Hrun & Hs & _);
      [rewrite Horigin; reflexivity|rewrite Horigin; reflexivity|exact Hz|].
    rewrite (write_series_slice_exact _ _ _ _ _ _ _ _ Hslice Hrun).
    cbn [fst snd uid_calls encoder_calls]. split; [lia|].
    eexists. split; [reflexivity|].
    split; [|intros file _; discriminate].
    right. eexists. split; [reflexivity|].
    exists slice2D, entries, w. eexists.
    split; [exact Hslice|]. split; [reflexivity|].
    split; [exact Hrun|reflexivity].
  - unfold write_series_slice, bind, lift. rewrite Hslice.
    cbn [fst snd uid_calls encoder_calls].
    split; [lia|]. exists []. rewrite app_nil_r.
    split; [reflexivity|]. split; [left; reflexivity|].
    intros file H. discriminate H.
Qed.

Lemma series_options_defaulted (options : Options.t) (w : World E) :
  exists t0,
    series_options Date_now random_million options w
    = (Ok (defaulted options (uid (uid_calls w))),
       {| uid_calls := t0; encoder_calls := encoder_calls w |})
    /\ (uid_calls w <= t0)%nat.
Proof.
  unfold series_options, bind, ret, generateUID, defaulted.
  destruct (Options.seriesInstanceUID options) as [u|]; destruct w as [t calls];
    eexists; (split; [reflexivity|]); simpl; lia.
Qed.

(** The calls of the GDCM writer in a run, slice after slice. *)
Lemma series_run_calls (image3D : Image E) (options : Options.t)
    (w : World E) :
  exists cs,
    encoder_calls (series_run image3D options w).2 = encoder_calls w ++ cs
    /\ (forall (i : nat) c,
          cs !! i = Some c ->
          exists t t1 : nat,
            gdcm_call_of Date_now random_million toFixed6 image3D
              (defaulted options (uid (uid_calls w)))
              (Z.of_nat i) t t1 c)
    /\ (forall files,
          (series_run image3D options w).1 = Ok files ->
          length cs = loop_turns (size image3D !! 2%nat)).
Proof.
  unfold writeImageAsDicomSeries.
  destruct (decide (dimension (imageType image3D) = 3)) as [Hdim|Hdim].
  - destruct (series_options_defaulted options w) as (t0 & Hopts & Ht0).
    unfold bind. rewrite Hopts.
    destruct (slice_loop_chain _ _ (loop_turns (size image3D !! 2%nat))
                (write_series_slice_exact_turn image3D
                   (defaulted options (uid (uid_calls w))))
                0 [] {| uid_calls := t0; encoder_calls := encoder_calls w |})
      as (cs & Hcalls & Hchain & _ & Hresult).
    exists cs. split; [exact Hcalls|]. split.
    + intros i c Hi.
      destruct (chain_lookup _ _ _ _ _ _ _ Hchain Hi)
        as (t1 & t2 & _ & _ & Hcall).
      exists t1, t2. exact Hcall.
    + intros files Hfiles. exact (proj1 (Hresult files Hfiles)).
  - exists []. unfold throw. simpl. rewrite app_nil_r.
    split; [reflexivity|]. split.
    + intros i c Hi. discriminate Hi.
    + intros files H. discriminate H.
Qed.

(** X15. What GDCM is given for a slice.  In a run of
    [writeImageAsDicomSeries], the call of the GDCM writer for slice [i]
    receives a two-dimensional image whose pixels are the slab of slice [i]
    and whose size is the first two sizes of the volume; the file name that
    the pattern (or [slice_%04d.dcm]) gives for [i]; and the compression
    flag of the caller, or [false]. *)
Theorem series_slice_images (image3D : Image E) (options : Options.t)
    (w : World E) :
  exists cs,
    encoder_calls (series_run image3D options w).2 = encoder_calls w ++ cs
    /\ (forall (i : nat) c,
          cs !! i = Some c ->
          exists slice2D pixels,
            c = GdcmWrite slice2D
                  (slice_filename
                     (default "slice_%04d.dcm"
                        (Options.fileNamePattern options)) (Z.of_nat i))
                  (default false (Options.useCompression options))
            /\ sliceData image3D (Z.of_nat i) = Ok pixels
            /\ data slice2D = TypedArray pixels
            /\ dimension (imageType slice2D) = 2
            /\ components (imageType slice2D)
               = components (imageType image3D)
            /\ componentType (imageType slice2D)
               = componentType (imageType image3D)
            /\ size slice2D
               = [to_uint32 (size image3D !! 0%nat);
                  to_uint32 (size image3D !! 1%nat)]
            /\ spacing slice2D
               = [at_float (spacing image3D) 0; at_float (spacing image3D) 1]
            /\ origin slice2D
               = [position_of image3D (Z.of_nat i) 0;
                  position_of image3D (Z.of_nat i) 1])
    /\ (forall files,
          (series_run image3D options w).1 = Ok files ->
          length cs = loop_turns (size image3D !! 2%nat)).
Proof.
  destruct (series_run_calls image3D options w)
    as (cs & Hcalls & Hturns & Hresult).
  exists cs. split; [exact Hcalls|]. split; [|exact Hresult].
  intros i c Hi.
  destruct (Hturns i c Hi)
    as (t & t1 & slice2D & entries & w0 & w1 & Hslice & _ & _ & ->).
  destruct (extractSlice_inv _ _ _ Hslice)
    as (pixels & Hslab & Hdata & Horigin & _ & Hspacing & _ & Hsize & Htype
        & _).
  exists (with_metadata slice2D entries), pixels.
  split; [reflexivity|]. split; [exact Hslab|].
  cbn [with_metadata data imageType size spacing origin].
  rewrite Htype. cbn [dimension components componentType].
  repeat split; assumption.
Qed.

(** X16. Where a dictionary places its slice.  In a run of
    [writeImageAsDicomSeries], the dictionary of slice [i] holds, as image
    position, the three numbers [position_of image3D i] printed with six
    decimals and joined by backslashes; the third of them as slice location;
    and the third size of the volume as number of images. *)
Theorem series_dictionary_position (image3D : Image E) (options : Options.t)
    (w : World E) :
  exists cs,
    encoder_calls (series_run image3D options w).2 = encoder_calls w ++ cs
    /\ (forall (i : nat) c,
          cs !! i = Some c ->
          exists slice2D filename useCompression entries,
            c = GdcmWrite slice2D filename useCompression
            /\ metadata slice2D = Some entries
            /\ entries !! "0020|0032"
               = Some (toFixed6 (position_of image3D (Z.of_nat i) 0)
                       +:+ "\" +:+ toFixed6 (position_of image3D (Z.of_nat i) 1)
                       +:+ "\" +:+ toFixed6 (position_of image3D (Z.of_nat i) 2))
            /\ entries !! "0020|1041"
               = Some (toFixed6 (position_of image3D (Z.of_nat i) 2))
            /\ entries !! "0020|1002"
               = Some (pretty (to_integer (size image3D !! 2%nat))))
    /\ (forall files,
          (series_run image3D options w).1 = Ok files ->
          length cs = loop_turns (size image3D !! 2%nat)).
Proof.
  destruct (series_run_calls image3D options w)
    as (cs & Hcalls & Hturns & Hresult).
  exists cs. split; [exact Hcalls|]. split; [|exact Hresult].
  intros i c Hi.
  destruct (Hturns i c Hi)
    as (t & t1 & slice2D & entries & w0 & w1 & Hslice & _ & Hbuild & ->).
  destruct (extractSlice_inv _ _ _ Hslice)
    as (pixels & _ & _ & Horigin & Hz & _).
  destruct (createDicomMetadataForSlice_rest Date_now random_million
              toFixed6 (metadata image3D) (Z.of_nat i)
              (to_integer (size image3D !! 2%nat)) slice2D
              (metadata_options (defaulted options (uid (uid_calls w)))) w0
              (position_of image3D (Z.of_nat i) 0)
              (position_of image3D (Z.of_nat i) 1)
              (position_of image3D (Z.of_nat i) 2))
    as (entries' & w1' & Hbuild' & Hposition & Hlocation & Hcount & _);
    [rewrite Horigin; reflexivity|rewrite Horigin; reflexivity|exact Hz|].
  rewrite Hbuild in Hbuild'. apply (f_equal fst) in Hbuild'.
  apply Ok_inj in Hbuild'. subst entries'.
  eexists _, _, _, entries. split; [reflexivity|].
  split; [reflexivity|]. split; [exact Hposition|].
  split; [exact Hlocation|exact Hcount].
Qed.

(** X17. How a run describes its series.  In every dictionary of a run of
    [writeImageAsDicomSeries]: the series number is the caller's, or 1 when
    the caller gave none, whatever the volume's metadata holds; the series
    description is [Medical Image Series] when the caller gave none, the
    caller's when it is not empty, and the one of the volume's metadata
    when the caller gave the empty string; the modality is the one of the
    volume's metadata when it has one, and otherwise [OT] when the caller
    gave none and the caller's when it is not empty. *)
Theorem series_dictionary_description (image3D : Image E)
    (options : Options.t) (w : World E) :
  exists cs,
    encoder_calls (series_run image3D options w).2 = encoder_calls w ++ cs
    /\ Forall
         (fun c =>
            exists slice2D filename useCompression entries,
              c = GdcmWrite slice2D filename useCompression
              /\ metadata slice2D = Some entries
              /\ entries !! "0020|0011"
                 = Some (pretty (default 1 (Options.seriesNumber options)))
              /\ entries !! "0008|103e"
                 = match Options.seriesDescription options with
                   | None => Some "Medical Image Series"
                   | Some description =>
                       if truthy_string description then Some description
                       else default ∅ (metadata image3D) !! "0008|103e"
                   end
              /\ entries !! "0008|0060"
                 = match default ∅ (metadata image3D) !! "0008|0060" with
                   | Some m => Some m
                   | None =>
                       match Options.modality options with
                       | None => Some "OT"
                       | Some m => if truthy_string m then Some m else None
                       end
                   end)
         cs
    /\ (forall files,
          (series_run image3D options w).1 = Ok files ->
          length cs = loop_turns (size image3D !! 2%nat)).
Proof.
  destruct (series_run_calls image3D options w)
    as (cs & Hcalls & Hturns & Hresult).
  exists cs. split; [exact Hcalls|]. split; [|exact Hresult].
  apply Forall_lookup. intros i c Hi.
  destruct (Hturns i c Hi)
    as (t & t1 & slice2D & entries & w0 & w1 & Hslice & _ & Hbuild & ->).
  destruct (extractSlice_shape _ _ _ Hslice)
    as (x & y & z & pixels & Horigin & Hz & _).
  destruct (createDicomMetadataForSlice_run Date_now random_million toFixed6
              (metadata image3D) (Z.of_nat i)
              (to_integer (size image3D !! 2%nat)) slice2D
              (metadata_options (defaulted options (uid (uid_calls w)))) w0
              x y z)
    as (entries' & s & Hbuild' & _ & _ & _ & _ & Hdescription & Hnumber
        & Hmodality);
    [rewrite Horigin; reflexivity|rewrite Horigin; reflexivity|exact Hz|].
  rewrite Hbuild in Hbuild'. apply (f_equal fst) in Hbuild'.
  apply Ok_inj in Hbuild'. subst entries'.
  eexists _, _, _, entries. split; [reflexivity|].
  split; [reflexivity|].
  cbn [metadata_options defaulted Options.seriesNumber
       Options.seriesDescription Options.modality] in Hdescription, Hnumber,
    Hmodality.
  split; [exact Hnumber|]. split.
  - rewrite Hdescription.
    destruct (Options.seriesDescription options) as [description|];
      [|reflexivity].
    cbn [from_option truthy_option]. unfold id.
    destruct (truthy_string description); reflexivity.
  - rewrite Hmodality.
    destruct (default ∅ (metadata image3D) !! "0008|0060") as [m|];
      [reflexivity|].
    destruct (Options.modality options) as [m|]; [|reflexivity].
    cbn [from_option truthy_option]. unfold id.
    destruct (truthy_string m); reflexivity.
Qed.

(** A turn of the loop on a volume with a typed array: one image goes to
    GDCM, and what GDCM answers decides the turn. *)
Lemma write_series_slice_answer (image3D : Image E) (a : list E)
    (o : Options.t) (numSlices i : Z) (w : World E) :
  data image3D = TypedArray a ->
  exists slice2D filename useCompression,
    encoder_calls
      (write_series_slice Date_now random_million toFixed6 gdcmWriteImage
         image3D o numSlices i w).2
    = encoder_calls w ++ [GdcmWrite slice2D filename useCompression]
    /\ match (write_series_slice Date_now random_million toFixed6
                gdcmWriteImage image3D o numSlices i w).1 with
       | Ok file =>
           gdcmWriteImage slice2D filename useCompression
           = Ok (WrittenFile.blob file)
       | Throw e => gdcmWriteImage slice2D filename useCompression = Throw e
       end.
Proof.
  intros Hdata.
  destruct (extractSlice_fields image3D i _ (sliceData_typed image3D i a Hdata))
    as (slice2D & Hslice & _ & Horigin & Hz & _).
  destruct (createDicomMetadataForSlice_run Date_now random_million toFixed6
              (metadata image3D) i numSlices slice2D (metadata_options o) w
              _ _ _
              ltac:(rewrite Horigin; reflexivity)
              ltac:(rewrite Horigin; reflexivity) Hz)
    as (entries & s & Hbuild & Hs & _).
  rewrite (write_series_slice_exact _ _ _ _ _ _ _ _ Hslice Hbuild).
  cbn [fst snd encoder_calls]. eexists _, _, _. split; [reflexivity|].
  destruct (gdcmWriteImage _ _ _) as [bytes|e]; reflexivity.
Qed.

(** The file of a turn that returns. *)
Lemma write_series_slice_file (image3D : Image E) (o : Options.t)
    (numSlices i : Z) (w : World E) (file : WrittenFile.t) :
  (write_series_slice Date_now random_million toFixed6 gdcmWriteImage
     image3D o numSlices i w).1 = Ok file ->
  exists c,
    encoder_calls
      (write_series_slice Date_now random_million toFixed6 gdcmWriteImage
         image3D o numSlices i w).2
    = encoder_calls w ++ [c]
    /\ (WrittenFile.sliceIndex file = i
        /\ WrittenFile.filename file
           = slice_filename (default "" (Options.fileNamePattern o)) i
        /\ WrittenFile.data file = WrittenFile.blob file
        /\ exists slice2D useCompression,
             c = GdcmWrite slice2D (WrittenFile.filename file) useCompression
             /\ gdcmWriteImage slice2D (WrittenFile.filename file)
                  useCompression
                = Ok (WrittenFile.blob file)).
Proof.
  destruct (extractSlice image3D i) as [slice2D|e] eqn:Hslice.
  - destruct (extractSlice_shape _ _ _ Hslice)
      as (x & y & z & pixels & Horigin & Hz & _).
    destruct (createDicomMetadataForSlice_run Date_now random_million
                toFixed6 (metadata image3D) i numSlices slice2D
                (metadata_options o) w x y z)
      as (entries & s & Hbuild & _);
      [rewrite Horigin; reflexivity|rewrite Horigin; reflexivity|exact Hz|].
    rewrite (write_series_slice_exact _ _ _ _ _ _ _ _ Hslice Hbuild).
    cbn [fst snd encoder_calls].
    destruct (gdcmWriteImage _ _ _) as [bytes|e] eqn:Hanswer; intros Hfile;
      [|discriminate Hfile].
    apply Ok_inj in Hfile. subst file. eexists. split; [reflexivity|].
    cbn [WrittenFile.sliceIndex WrittenFile.filename WrittenFile.data
         WrittenFile.blob].
    split; [reflexivity|]. split; [reflexivity|]. split; [reflexivity|].
    eexists _, _. split; [reflexivity|exact Hanswer].
  - unfold write_series_slice, bind, lift. rewrite Hslice.
    intros Hfile. discriminate Hfile.
Qed.

(** X18. The files that [writeImageAsDicomSeries] returns.  When the run
    returns, it returns one file for each slice, in the order of the slices,
    and the GDCM writer was called once for each: file [j] has slice index
    [j], the name that the pattern (or [slice_%04d.dcm]) gives for [j], and
    as blob and as data the bytes that the writer returned for call [j],
    which was given that file name.  The run does return when the volume is
    three-dimensional, has a typed array, and the writer accepts every
    slice. *)
Theorem series_run_files (image3D : Image E) (a : list E)
    (options : Options.t) (w : World E) :
  (forall files,
     (series_run image3D options w).1 = Ok files ->
     exists cs,
       encoder_calls (series_run image3D options w).2 = encoder_calls w ++ cs
       /\ length files = loop_turns (size image3D !! 2%nat)
       /\ length cs = loop_turns (size image3D !! 2%nat)
       /\ forall (j : nat) file,
            files !! j = Some file ->
            WrittenFile.sliceIndex file = Z.of_nat j
            /\ WrittenFile.filename file
               = slice_filename
                   (default "slice_%04d.dcm" (Options.fileNamePattern options))
                   (Z.of_nat j)
            /\ WrittenFile.data file = WrittenFile.blob file
            /\ exists slice2D useCompression,
                 cs !! j
                 = Some (GdcmWrite slice2D (WrittenFile.filename file)
                           useCompression)
                 /\ gdcmWriteImage slice2D (WrittenFile.filename file)
                      useCompression
                    = Ok (WrittenFile.blob file))
  /\ (dimension (imageType image3D) = 3 ->
      data image3D = TypedArray a ->
      (forall slice2D filename useCompression,
         exists bytes,
           gdcmWriteImage slice2D filename useCompression = Ok bytes) ->
      exists files, (series_run image3D options w).1 = Ok files).
Proof.
  split.
  - unfold writeImageAsDicomSeries.
    destruct (decide (dimension (imageType image3D) = 3)) as [Hdim|Hdim];
      [|intros files Hrun; discriminate Hrun].
    destruct (series_options_defaulted options w) as (t0 & Hopts & Ht0).
    unfold bind. rewrite Hopts. intros files Hrun.
    destruct (slice_loop_pairs _ _ _
                (write_series_slice_file image3D
                   (defaulted options (uid (uid_calls w)))
                   (to_integer (size image3D !! 2%nat)))
                _ _ _ _ Hrun)
      as (new & cs & -> & Hcalls & Hlen & Hlen' & Hfiles).
    exists cs. split; [exact Hcalls|]. split; [exact Hlen|].
    split; [exact Hlen'|].
    intros j file Hj.
    destruct (Hfiles j file Hj)
      as (c & Hc & Hindex & Hname & Hdata & slice2D & flag & -> & Hanswer).
    split; [exact Hindex|]. split; [exact Hname|]. split; [exact Hdata|].
    exists slice2D, flag. split; [exact Hc|exact Hanswer].
  - intros Hdim Hdata Haccept.
    exact (writeImageAsDicomSeries_returns Date_now random_million toFixed6
             gdcmWriteImage image3D a options w Hdim Hdata Haccept).
Qed.

(** X19. [writeImageAsDicomSeries] stops at the first slice that the GDCM
    writer refuses.  When a run on a three-dimensional volume with a typed
    array throws, the exception is the one the writer threw on the last
    slice it was given, passed on unchanged; the writer had accepted every
    slice before that one; and no later slice reached the writer. *)
Theorem series_run_stops (image3D : Image E) (a : list E)
    (options : Options.t) (w : World E) (e : JsError) :
  dimension (imageType image3D) = 3 ->
  data image3D = TypedArray a ->
  (series_run image3D options w).1 = Throw e ->
  exists cs slice2D filename useCompression,
    encoder_calls (series_run image3D options w).2
    = encoder_calls w ++ cs ++ [GdcmWrite slice2D filename useCompression]
    /\ gdcmWriteImage slice2D filename useCompression = Throw e
    /\ Forall
         (fun c =>
            exists accepted name flag bytes,
              c = GdcmWrite accepted name flag
              /\ gdcmWriteImage accepted name flag = Ok bytes)
         cs
    /\ (length cs < loop_turns (size image3D !! 2%nat))%nat.
Proof.
  intros Hdim Hdata. unfold writeImageAsDicomSeries.
  destruct (decide (dimension (imageType image3D) = 3)); [|contradiction].
  destruct (series_options_defaulted options w) as (t0 & Hopts & Ht0).
  unfold bind. rewrite Hopts. intros Hrun.
  destruct (slice_loop_stops
              (fun c =>
                 exists accepted name flag bytes,
                   c = GdcmWrite accepted name flag
                   /\ gdcmWriteImage accepted name flag = Ok bytes)
              (fun e c =>
                 exists slice2D filename useCompression,
                   c = GdcmWrite slice2D filename useCompression
                   /\ gdcmWriteImage slice2D filename useCompression = Throw e)
              (write_series_slice Date_now random_million toFixed6
                 gdcmWriteImage image3D
                 (defaulted options (uid (uid_calls w)))
                 (to_integer (size image3D !! 2%nat)))
              (loop_turns (size image3D !! 2%nat)))
    with (i := 0) (files := @nil WrittenFile.t)
         (w := {| uid_calls := t0; encoder_calls := encoder_calls w |})
         (e := e)
    as (cs & c & Hcalls & Hok & (slice2D & filename & flag & -> & Hbad)
        & Hlen).
  - intros i w0.
    destruct (write_series_slice_answer image3D a
                (defaulted options (uid (uid_calls w)))
                (to_integer (size image3D !! 2%nat)) i w0 Hdata)
      as (slice2D & filename & flag & Hcalls & Hanswer).
    exists (GdcmWrite slice2D filename flag). split; [exact Hcalls|].
    destruct (write_series_slice _ _ _ _ _ _ _ _ _).1 as [file|e'].
    + eexists _, _, _, _. split; [reflexivity|exact Hanswer].
    + eexists _, _, _. split; [reflexivity|exact Hanswer].
  - exact Hrun.
  - exists cs, slice2D, filename, flag. split; [exact Hcalls|].
    split; [exact Hbad|]. split; [exact Hok|exact Hlen].
Qed.

End SeriesDictionaries.

(** ** The further theorems at concrete inputs *)

Lemma slices_tile_volume_witness :
  exists slabs : list (list Z),
    length slabs = Z.to_nat 4
    /\ (forall (i : nat) pixels,
          slabs !! i = Some pixels ->
          exists slice2D,
            extractSlice stack_volume (Z.of_nat i) = Ok slice2D
            /\ data slice2D = TypedArray pixels)
    /\ concat slabs = seqZ 100 16.
Proof.
  apply (slices_tile_volume stack_volume (seqZ 100 16) 2 2 4 1);
    try reflexivity; lia.
Defined.

Lemma extractSlice_outside_is_empty_witness :
  exists slice2D,
    extractSlice stack_volume 4 = Ok slice2D /\ data slice2D = TypedArray [].
Proof.
  apply (extractSlice_outside_is_empty stack_volume 4 (seqZ 100 16) 2 2 4 1);
    try reflexivity; lia.
Defined.

Lemma extractSlice_negative_wraps_witness :
  exists wrapped inside pixels,
    extractSlice stack_volume (- 3) = Ok wrapped
    /\ extractSlice stack_volume (4 - 3) = Ok inside
    /\ data wrapped = TypedArray pixels
    /\ data inside = TypedArray pixels.
Proof.
  apply (extractSlice_negative_wraps stack_volume 3 (seqZ 100 16) 2 2 4 1);
    try reflexivity; lia.
Defined.

Lemma slice_filename_distinct_witness :
  slice_filename "slice_%04d.dcm" 7 = "slice_0007.dcm"
  /\ (forall i j : Z,
        0 <= i -> 0 <= j ->
        slice_filename "slice_%04d.dcm" i = slice_filename "slice_%04d.dcm" j ->
        i = j)
  /\ (forall i : Z,
        slice_filename "s%04d_%04d.dcm" i
        = "s" +:+ padStart4 (pretty i) +:+ "_%04d.dcm")
  /\ slice_filename "slice.dcm" 7 = "slice.dcm".
Proof.
  destruct (slice_filename_distinct "slice_%04d.dcm") as [Hwith _].
  destruct (slice_filename_distinct "s%04d_%04d.dcm") as [Htwice _].
  destruct (slice_filename_distinct "slice.dcm") as [_ Hwithout].
  destruct (Hwith eq_refl) as (before & after & _ & _ & _ & _ & Hdistinct).
  destruct (Htwice eq_refl)
    as (before2 & after2 & Hsplit & _ & Hleast & Hname & _).
  split; [reflexivity|]. split; [exact Hdistinct|].
  split; [|exact (Hwithout eq_refl 7)].
  pose proof (Hleast "s" "_%04d.dcm" eq_refl) as Hshort.
  destruct before2 as [|c [|c' before2]];
    [discriminate Hsplit| |simpl in Hshort; lia].
  vm_compute in Hsplit. injection Hsplit as <- <-. exact Hname.
Defined.

Lemma bits_allocated_against_bytes_witness :
  (getBytesPerPixel "uint16" = Some 2 /\ getBitsAllocated "uint16" = Some 16)
  /\ (getBytesPerPixel "float32" = Some 4
      /\ getBitsAllocated "float32" = Some 16).
Proof.
  destruct (bits_allocated_against_bytes "uint16" 2 eq_refl)
    as (Hbytes & Hlisted & _).
  destruct (bits_allocated_against_bytes "float32" 4 eq_refl)
    as (Hbytes' & _ & Hother).
  split.
  - split; [exact Hbytes|]. apply Hlisted. eexists. reflexivity.
  - split; [exact Hbytes'|]. exact (proj1 (Hother eq_refl)).
Defined.

Lemma dcmjs_dataset_geometry_witness :
  exists cs,
    encoder_calls
      (writeImageAsDicomSeriesWithDcmjs ticking_clock same_random
         dcmjs_accepts "20240101" "120000" turned_volume Options.empty
         new_world).2 = cs
    /\ length cs = 2%nat
    /\ (forall (i : nat) c,
          cs !! i = Some c ->
          exists entries,
            c = DcmjsWrite entries
            /\ entries !! "00200032"
               = Some (mkElement "DS"
                         [VNumber (position_of turned_volume (Z.of_nat i) 0);
                          VNumber (position_of turned_volume (Z.of_nat i) 1);
                          VNumber (position_of turned_volume (Z.of_nat i) 2)])
            /\ entries !! "00280010"
               = Some (mkElement "US" [VInteger 2])).
Proof.
  destruct (dcmjs_dataset_geometry ticking_clock same_random dcmjs_accepts
              "20240101" "120000" turned_volume Options.empty new_world)
    as (cs & Hcalls & Hgeometry & Hlen).
  exists cs. split; [exact Hcalls|].
  split; [eapply Hlen; reflexivity|].
  intros i c Hi.
  destruct (Hgeometry i c Hi) as (entries & Hc & Hposition & _ & Hrows & _).
  exists entries. split; [exact Hc|]. split; [exact Hposition|exact Hrows].
Defined.

Lemma dcmjs_dataset_pixels_witness :
  exists cs,
    encoder_calls
      (writeImageAsDicomSeriesWithDcmjs ticking_clock same_random
         dcmjs_accepts "20240101" "120000" turned_volume Options.empty
         new_world).2 = cs
    /\ length cs = 2%nat
    /\ (forall (i : nat) c,
          cs !! i = Some c ->
          exists entries pixels,
            c = DcmjsWrite entries
            /\ sliceData turned_volume (Z.of_nat i) = Ok pixels
            /\ entries !! "7FE00010"
               = Some (mkElement "OB" [VBuffer pixels])).
Proof.
  destruct (dcmjs_dataset_pixels ticking_clock same_random dcmjs_accepts
              "20240101" "120000" turned_volume Options.empty new_world)
    as (cs & Hcalls & Hpixels & Hlen).
  exists cs. split; [exact Hcalls|].
  split; [eapply Hlen; reflexivity|].
  intros i c Hi.
  destruct (Hpixels i c Hi) as (entries & pixels & Hc & Hslab & Hdata & _).
  exists entries, pixels. split; [exact Hc|]. split; [exact Hslab|exact Hdata].
Defined.

Lemma dcmjs_dataset_series_witness :
  exists cs,
    encoder_calls
      (writeImageAsDicomSeriesWithDcmjs ticking_clock same_random
         dcmjs_accepts "20240101" "120000" turned_volume Options.empty
         new_world).2 = cs
    /\ length cs = 2%nat
    /\ Forall
         (fun c =>
            exists entries,
              c = DcmjsWrite entries
              /\ entries !! "0020000E"
                 = Some (mkElement "UI"
                           [VString
                              "1.2.826.0.1.3680043.8.498.1700000000001.42"])
              /\ entries !! "00080060" = Some (mkElement "CS" [VString "OT"]))
         cs.
Proof.
  destruct (dcmjs_dataset_series ticking_clock same_random dcmjs_accepts
              "20240101" "120000" turned_volume Options.empty new_world)
    as (cs & Hcalls & Hseries & Hlen).
  exists cs. split; [exact Hcalls|].
  split; [eapply Hlen; reflexivity|].
  eapply Forall_impl; [exact Hseries|].
  intros c (entries & Hc & _ & Hid & _ & _ & Hmodality & _).
  exists entries. split; [exact Hc|]. split; [exact Hid|exact Hmodality].
Defined.

Lemma dcmjs_run_files_witness :
  exists files,
    (writeImageAsDicomSeriesWithDcmjs ticking_clock same_random
       dcmjs_accepts "20240101" "120000" stack_volume Options.empty
       new_world).1 = Ok files
    /\ length files = 4%nat
    /\ forall (j : nat) file,
         files !! j = Some file ->
         WrittenFile.sliceIndex file = Z.of_nat j
         /\ WrittenFile.filename file
            = slice_filename "slice_%04d.dcm" (Z.of_nat j)
         /\ WrittenFile.data file = WrittenFile.blob file.
Proof.
  destruct (dcmjs_run_files ticking_clock same_random dcmjs_accepts
              "20240101" "120000" stack_volume (seqZ 100 16) Options.empty
              new_world) as [Hfiles Hreturns].
  destruct (Hreturns eq_refl (fun entries => ex_intro _ [] eq_refl))
    as (files & Hrun).
  destruct (Hfiles files Hrun) as (cs & _ & Hlen & _ & Hfile).
  exists files. split; [exact Hrun|]. split; [exact Hlen|].
  intros j file Hj.
  destruct (Hfile j file Hj) as (Hindex & Hname & Hdata & _).
  split; [exact Hindex|]. split; [exact Hname|exact Hdata].
Defined.

Lemma dcmjs_run_stops_witness :
  exists cs entries,
    encoder_calls
      (writeImageAsDicomSeriesWithDcmjs ticking_clock same_random
         dcmjs_refuses_second "20240101" "120000" stack_volume Options.empty
         new_world).2
    = cs ++ [DcmjsWrite entries]
    /\ dcmjs_refuses_second entries
       = Throw (External "dcmjs could not write the dataset")
    /\ (length cs < 4)%nat.
Proof.
  destruct (dcmjs_run_stops ticking_clock same_random dcmjs_refuses_second
              "20240101" "120000" stack_volume (seqZ 100 16) Options.empty
              new_world (External "dcmjs could not write the dataset")
              eq_refl)
    as (cs & entries & Hcalls & Hrefused & _ & Hlen).
  - vm_compute. reflexivity.
  - exists cs, entries. split; [exact Hcalls|].
    split; [exact Hrefused|exact Hlen].
Defined.

Lemma createDicomMetadataForSlice_frame_witness :
  exists entries w1,
    createDicomMetadataForSlice ticking_clock same_random six_zeros
      (Some patient_base) 0 1 small_slice describing_options new_world
    = (Ok entries, w1)
    /\ entries !! "0010|0010" = Some "DOE^JANE"
    /\ entries !! "0020|000e" = Some "1.2.3"
    /\ entries !! "0008|0018"
       = Some "1.2.826.0.1.3680043.8.498.1700000000000.42".
Proof.
  destruct (createDicomMetadataForSlice_frame ticking_clock same_random
              six_zeros (Some patient_base) 0 1 small_slice
              describing_options new_world 0%float 0%float 0%float
              eq_refl eq_refl eq_refl)
    as (entries & w1 & Hrun & Hframe & Hseries & (s & Hs & Hcount & Hsop) & _).
  exists entries, w1. split; [exact Hrun|]. split.
  { rewrite Hframe; [reflexivity|].
    unfold written_keys. intros Hkey.
    repeat (apply elem_of_cons in Hkey as [Hkey|Hkey]; [discriminate Hkey|]).
    inversion Hkey. }
  split; [apply Hseries; reflexivity|].
  assert (uid_calls w1 = 1%nat) as Hone.
  { apply (f_equal (fun r => uid_calls r.2)) in Hrun. exact (eq_sym Hrun). }
  rewrite Hone in Hcount. injection Hcount as <-. exact Hsop.
Defined.

Lemma createDicomMetadataForSlice_needs_position_witness :
  exists message w1,
    createDicomMetadataForSlice ticking_clock same_random six_zeros
      None 0 4 stack_volume Options.empty new_world
    = (Throw (TypeError message), w1)
    /\ (uid_calls new_world < uid_calls w1)%nat.
Proof.
  apply (createDicomMetadataForSlice_needs_position ticking_clock same_random
           six_zeros None 0 4 stack_volume Options.empty new_world).
  right. right. reflexivity.
Defined.

Lemma series_slice_images_witness :
  exists cs,
    encoder_calls
      (writeImageAsDicomSeries ticking_clock same_random six_zeros
         gdcm_accepts stack_volume Options.empty new_world).2 = cs
    /\ length cs = 4%nat
    /\ (forall (i : nat) c,
          cs !! i = Some c ->
          exists slice2D pixels,
            c = GdcmWrite slice2D
                  (slice_filename "slice_%04d.dcm" (Z.of_nat i)) false
            /\ sliceData stack_volume (Z.of_nat i) = Ok pixels
            /\ data slice2D = TypedArray pixels
            /\ size slice2D = [2; 2]).
Proof.
  destruct (series_slice_images ticking_clock same_random six_zeros
              gdcm_accepts stack_volume Options.empty new_world)
    as (cs & Hcalls & Himages & Hlen).
  exists cs. split; [exact Hcalls|].
  split; [eapply Hlen; reflexivity|].
  intros i c Hi.
  destruct (Himages i c Hi)
    as (slice2D & pixels & Hc & Hslab & Hdata & _ & _ & _ & Hsize & _).
  exists slice2D, pixels. split; [exact Hc|]. split; [exact Hslab|].
  split; [exact Hdata|exact Hsize].
Defined.

Lemma series_dictionary_position_witness :
  exists cs,
    encoder_calls
      (writeImageAsDicomSeries ticking_clock same_random six_zeros
         gdcm_accepts stack_volume Options.empty new_world).2 = cs
    /\ length cs = 4%nat
    /\ (forall (i : nat) c,
          cs !! i = Some c ->
          exists slice2D filename useCompression entries,
            c = GdcmWrite slice2D filename useCompression
            /\ metadata slice2D = Some entries
            /\ entries !! "0020|0032" = Some "0.000000\0.000000\0.000000"
            /\ entries !! "0020|1002" = Some "4").
Proof.
  destruct (series_dictionary_position ticking_clock same_random six_zeros
              gdcm_accepts stack_volume Options.empty new_world)
    as (cs & Hcalls & Hposition & Hlen).
  exists cs. split; [exact Hcalls|].
  split; [eapply Hlen; reflexivity|].
  intros i c Hi.
  destruct (Hposition i c Hi)
    as (slice2D & filename & flag & entries & Hc & Hentries & Hplace & _
        & Hcount).
  exists slice2D, filename, flag, entries. split; [exact Hc|].
  split; [exact Hentries|]. split; [exact Hplace|exact Hcount].
Defined.

Lemma series_dictionary_description_witness :
  exists cs,
    encoder_calls
      (writeImageAsDicomSeries ticking_clock same_random six_zeros
         gdcm_accepts stack_volume Options.empty new_world).2 = cs
    /\ length cs = 4%nat
    /\ Forall
         (fun c =>
            exists slice2D filename useCompression entries,
              c = GdcmWrite slice2D filename useCompression
              /\ metadata slice2D = Some entries
              /\ entries !! "0020|0011" = Some "1"
              /\ entries !! "0008|103e" = Some "Medical Image Series"
              /\ entries !! "0008|0060" = Some "OT")
         cs.
Proof.
  destruct (series_dictionary_description ticking_clock same_random
              six_zeros gdcm_accepts stack_volume Options.empty new_world)
    as (cs & Hcalls & Hdescribed & Hlen).
  exists cs. split; [exact Hcalls|].
  split; [eapply Hlen; reflexivity|]. exact Hdescribed.
Defined.

Lemma series_run_files_witness :
  exists files,
    (writeImageAsDicomSeries ticking_clock same_random six_zeros
       gdcm_accepts stack_volume Options.empty new_world).1 = Ok files
    /\ length files = 4%nat
    /\ forall (j : nat) file,
         files !! j = Some file ->
         WrittenFile.sliceIndex file = Z.of_nat j
         /\ WrittenFile.filename file
            = slice_filename "slice_%04d.dcm" (Z.of_nat j)
         /\ WrittenFile.data file = WrittenFile.blob file.
Proof.
  destruct (series_run_files ticking_clock same_random six_zeros
              gdcm_accepts stack_volume (seqZ 100 16) Options.empty
              new_world) as [Hfiles Hreturns].
  destruct (Hreturns eq_refl eq_refl
              (fun slice2D filename flag => ex_intro _ [] eq_refl))
    as (files & Hrun).
  destruct (Hfiles files Hrun) as (cs & _ & Hlen & _ & Hfile).
  exists files. split; [exact Hrun|]. split; [exact Hlen|].
  intros j file Hj.
  destruct (Hfile j file Hj) as (Hindex & Hname & Hdata & _).
  split; [exact Hindex|]. split; [exact Hname|exact Hdata].
Defined.

Lemma series_run_stops_witness :
  exists cs slice2D useCompression,
    encoder_calls
      (writeImageAsDicomSeries ticking_clock same_random six_zeros
         gdcm_refuses_second stack_volume Options.empty new_world).2
    = cs ++ [GdcmWrite slice2D "slice_0001.dcm" useCompression]
    /\ length cs = 1%nat.
Proof.
  destruct (series_run_stops ticking_clock same_random six_zeros
              gdcm_refuses_second stack_volume (seqZ 100 16) Options.empty
              new_world (External "GDCM could not write the image")
              eq_refl eq_refl)
    as (cs & slice2D & filename & flag & Hcalls & Hrefused & Haccepted & Hlen).
  - vm_compute. reflexivity.
  - exists cs, slice2D, flag.
    assert (filename = "slice_0001.dcm") as <-.
    { unfold gdcm_refuses_second in Hrefused.
      destruct (String.eqb filename "slice_0001.dcm") eqn:Hname;
        [|discriminate Hrefused].
      apply String.eqb_eq. exact Hname. }
    split; [exact Hcalls|].
    apply (f_equal length) in Hcalls. rewrite !length_app in Hcalls.
    match type of Hcalls with
    | ?n = _ => assert (n = 2%nat) as Htwo by (vm_compute; reflexivity)
    end.
    rewrite Htwo in Hcalls. cbn [length encoder_calls new_world] in Hcalls. lia.
Defined.
